(** * TaskForge backend: a shallow embedding of the request handlers

    The development follows the backend sources:
    - [models/database.js]  : the SQLite schema and the three query helpers
      [runQuery], [getOne], [getAll];
    - [middleware/auth.js]  : [authenticateToken], [requireRole],
      [requireAdmin], [generateToken];
    - [routes/auth.js]      : [POST /api/auth/register];
    - [routes/tasks.js]     : listing, reading, creating and updating tasks;
    - [routes/projects.js]  : creating a project, removing a member;
    - [routes/users.js]     : changing a global role, toggling activation.

    A table is the list of its rows in insertion order.  A handler is a
    function from the database to a step and a database: it runs to its
    final answer, answers early ([return res.status(..).json(..)]), or a
    query rejects and control reaches the [catch] block.  Writes made before
    an early answer or a rejection stay in the database: the code opens no
    transaction. *)

From Stdlib Require Import ZArith List String Ascii Bool Lia.
From Stdlib Require Import Sorting.Sorted Sorting.Permutation.
From Stdlib Require Import Relations.Relation_Definitions.
From Stdlib Require Import Classes.RelationClasses.
Import ListNotations.
Local Open Scope Z_scope.
Local Open Scope string_scope.

(** ** Column domains: the CHECK constraints of the schema *)

(** [users.role]: CHECK(role IN ('admin', 'manager', 'member')). *)
Inductive global_role := admin | manager | member.

(** [project_members.role]: CHECK(role IN ('owner','admin','member','viewer')). *)
Inductive project_role := pr_owner | pr_admin | pr_member | pr_viewer.

(** [projects.status]. *)
Inductive project_status := ps_active | ps_archived | ps_completed.

(** [tasks.status]. *)
Inductive task_status := todo | in_progress | review | done | cancelled.

(** [tasks.priority]. *)
Inductive task_priority := low | medium | high | urgent.

Definition global_role_eqb (a b : global_role) : bool :=
  match a, b with
  | admin, admin | manager, manager | member, member => true
  | _, _ => false
  end.

Definition project_role_eqb (a b : project_role) : bool :=
  match a, b with
  | pr_owner, pr_owner | pr_admin, pr_admin
  | pr_member, pr_member | pr_viewer, pr_viewer => true
  | _, _ => false
  end.

Definition task_status_eqb (a b : task_status) : bool :=
  match a, b with
  | todo, todo | in_progress, in_progress | review, review
  | done, done | cancelled, cancelled => true
  | _, _ => false
  end.

Definition task_priority_eqb (a b : task_priority) : bool :=
  match a, b with
  | low, low | medium, medium | high, high | urgent, urgent => true
  | _, _ => false
  end.

(** The request carries these columns as text; [isIn([...])] accepts exactly
    the spellings below. *)
Definition global_role_of_string (s : string) : option global_role :=
  if s =? "admin" then Some admin
  else if s =? "manager" then Some manager
  else if s =? "member" then Some member
  else None.

Definition task_status_of_string (s : string) : option task_status :=
  if s =? "todo" then Some todo
  else if s =? "in_progress" then Some in_progress
  else if s =? "review" then Some review
  else if s =? "done" then Some done
  else if s =? "cancelled" then Some cancelled
  else None.

Definition task_priority_of_string (s : string) : option task_priority :=
  if s =? "low" then Some low
  else if s =? "medium" then Some medium
  else if s =? "high" then Some high
  else if s =? "urgent" then Some urgent
  else None.

(** ** Rows

    Timestamps ([CURRENT_TIMESTAMP], [Date.now()/1000]) are seconds as [Z];
    [due_date] stays the text the client sent, as the column stores it.
    The [updated_at] columns and their triggers are left out: no handler
    below reads them. *)

Record user_row := {
  u_id : Z;
  u_username : string;
  u_email : string;
  u_password_hash : string;
  u_full_name : string;
  u_role : global_role;
  u_is_active : bool;
  u_created_at : Z
}.

Record project_row := {
  p_id : Z;
  p_name : string;
  p_description : option string;
  p_owner_id : Z;
  p_status : project_status;
  p_color : string;
  p_created_at : Z
}.

Record member_row := {
  pm_project_id : Z;
  pm_user_id : Z;
  pm_role : project_role;
  pm_joined_at : Z
}.

(** *** The column [due_date DATE]

    A declared type [DATE] gives the column NUMERIC affinity: a text bound
    to it that is a well-formed integer literal is stored as an INTEGER,
    another text as it is.  The engine would store a real literal, and an
    integer literal outside 64 bits, as a REAL; [isISO8601] of the validator
    passes no such text (outside a time of day, which follows a "T" or a
    blank, it passes digits, "+", "-" and "W" only, eight digits at most),
    and REAL is not among the values here. *)
Inductive sql_value :=
| sql_integer (n : Z)
| sql_text (s : string).

(** The engine's white space: blank, and tab to carriage return. *)
Definition is_space (c : ascii) : bool :=
  let n := N_of_ascii c in
  ((n =? 32) || ((9 <=? n) && (n <=? 13)))%N.

Definition digit_of (c : ascii) : option Z :=
  let n := Z.of_N (N_of_ascii c) in
  if ((48 <=? n) && (n <=? 57))%Z then Some (n - 48)%Z else None.

Fixpoint skip_spaces (s : string) : string :=
  match s with
  | String c rest => if is_space c then skip_spaces rest else s
  | EmptyString => s
  end.

(** The number the digits at the head of [s] write after [acc], and what
    follows them. *)
Fixpoint read_digits (acc : Z) (s : string) : Z * string :=
  match s with
  | String c rest =>
      match digit_of c with
      | Some d => read_digits (10 * acc + d) rest
      | None => (acc, s)
      end
  | EmptyString => (acc, s)
  end.

(** A well-formed integer literal: white space, an optional sign, one digit
    or more, white space, and a value of 64 bits. *)
Definition integer_literal (s : string) : option Z :=
  let s1 := skip_spaces s in
  let '(negative, s2) :=
    match s1 with
    | String "-"%char rest => (true, rest)
    | String "+"%char rest => (false, rest)
    | _ => (false, s1)
    end in
  match s2 with
  | String c _ =>
      match digit_of c with
      | Some _ =>
          let '(n, rest) := read_digits 0 s2 in
          match skip_spaces rest with
          | EmptyString =>
              let v := if negative then (- n)%Z else n in
              if ((- 2 ^ 63 <=? v) && (v <=? 2 ^ 63 - 1))%Z
              then Some v else None
          | String _ _ => None
          end
      | None => None
      end
  | EmptyString => None
  end.

(** What the column holds for a text bound to it. *)
Definition numeric_affinity (s : string) : sql_value :=
  match integer_literal s with
  | Some n => sql_integer n
  | None => sql_text s
  end.

Record task_row := {
  t_id : Z;
  t_title : string;
  t_description : option string;
  t_project_id : Z;
  t_assigned_to : option Z;
  t_created_by : Z;
  t_status : task_status;
  t_priority : task_priority;
  t_due_date : option sql_value;
  t_completed_at : option Z;
  t_created_at : Z
}.

Record comment_row := {
  c_id : Z;
  c_task_id : Z;
  c_user_id : Z;
  c_content : string;
  c_created_at : Z
}.

(** The body of a PUT /api/tasks/:id request after validation; a field that
    is [None] is [undefined] in [req.body]. *)
Record task_updates := {
  upd_title : option string;
  upd_description : option string;
  upd_assignedTo : option Z;
  upd_priority : option task_priority;
  upd_status : option task_status;
  upd_dueDate : option string
}.

(** The [details] column of the activity log.  The handlers build it from a
    title, a template literal or [JSON.stringify(updates)]; the value is kept
    structured here. *)
Inductive log_details :=
| d_null
| d_text (s : string)
| d_task_updates (u : task_updates)
| d_changed_role (r : global_role)
| d_removed_user (uid : Z).

Record activity_row := {
  a_id : Z;
  a_user_id : Z;
  a_action : string;
  a_entity_type : string;
  a_entity_id : option Z;
  a_details : log_details;
  a_created_at : Z
}.

(** [sqlite_sequence]: the largest rowid each AUTOINCREMENT table ever used. *)
Record sqlite_sequence := {
  seq_users : Z;
  seq_projects : Z;
  seq_tasks : Z;
  seq_comments : Z;
  seq_activity_log : Z
}.

Record database := {
  users : list user_row;
  projects : list project_row;
  tasks : list task_row;
  comments : list comment_row;
  project_members : list member_row;
  activity_log : list activity_row;
  sequence : sqlite_sequence
}.

Definition empty_database : database :=
  {| users := []; projects := []; tasks := []; comments := [];
     project_members := []; activity_log := [];
     sequence := {| seq_users := 0; seq_projects := 0; seq_tasks := 0;
                    seq_comments := 0; seq_activity_log := 0 |} |}.

(** AUTOINCREMENT: one more than the largest rowid that ever existed. *)
Definition next_rowid (seq : Z) (ids : list Z) : Z :=
  1 + fold_right Z.max seq ids.

(** ** Requests, principals and answers *)

(** [req.user] as [authenticateToken] attaches it:
    [SELECT id, username, email, full_name, role, is_active]. *)
Record principal := {
  id : Z;
  username : string;
  email : string;
  full_name : string;
  role : global_role;
  is_active : bool
}.

Definition principal_of_row (u : user_row) : principal :=
  {| id := u_id u; username := u_username u; email := u_email u;
     full_name := u_full_name u; role := u_role u;
     is_active := u_is_active u |}.

(** The [user] of the registration answer:
    [SELECT id, username, email, full_name, role]. *)
Record user_view := {
  uv_id : Z;
  uv_username : string;
  uv_email : string;
  uv_full_name : string;
  uv_role : global_role
}.

Definition user_view_of_row (u : user_row) : user_view :=
  {| uv_id := u_id u; uv_username := u_username u; uv_email := u_email u;
     uv_full_name := u_full_name u; uv_role := u_role u |}.

(** [generateToken(user)] reads [user.id], [user.username] and [user.role]
    of whatever object it is given. *)
Class TokenSubject (A : Type) := {
  subject_id : A -> Z;
  subject_username : A -> string;
  subject_role : A -> global_role
}.

#[export] Instance principal_subject : TokenSubject principal :=
  {| subject_id := id; subject_username := username; subject_role := role |}.

#[export] Instance user_view_subject : TokenSubject user_view :=
  {| subject_id := uv_id; subject_username := uv_username;
     subject_role := uv_role |}.

#[export] Instance user_row_subject : TokenSubject user_row :=
  {| subject_id := u_id; subject_username := u_username;
     subject_role := u_role |}.

(** The payload of a token, with the [iat] and [exp] that [jwt.sign] adds. *)
Record jwt_claims := {
  userId : Z;
  claim_username : string;
  claim_role : global_role;
  iat : Z;
  exp : Z
}.

(** A token: its claims and the signature over them. *)
Record jwt := {
  claims : jwt_claims;
  signature : string
}.

(** One space-separated piece of the [Authorization] header: a well-formed
    compact token, or any other text. *)
Inductive segment :=
| seg_jwt (t : jwt)
| seg_text (s : string).

(** The joined rows the task queries return.  Of the display columns only
    the project name and the assignee name are kept. *)
Record task_view := {
  tv_row : task_row;
  tv_project_name : string;
  tv_assigned_to_name : option string
}.

Inductive body :=
| b_error (msg : string)
| b_errors (fields : list string)
| b_insufficient (required : list global_role) (current : global_role)
| b_message (msg : string)
| b_task (msg : string) (t : option task_view)
| b_task_detail (t : task_view) (cs : list comment_row)
| b_tasks (ts : list task_view) (count : nat)
| b_project (msg : string) (p : option project_row)
| b_registered (msg : string) (u : user_view) (token : jwt) (isFirstUser : bool)
| b_role (msg : string) (u : user_row)
| b_active (msg : string) (isActive : bool).

Record response := {
  status : Z;
  payload : body
}.

Definition json (code : Z) (b : body) : response :=
  {| status := code; payload := b |}.

(** The error kinds of the interface, by status code. *)
Inductive error_kind :=
| ValidationFailed | Unauthorized | Forbidden | NotFound | Conflict | ServerFault.

Definition error_kind_of (r : response) : option error_kind :=
  (if status r =? 400 then Some ValidationFailed
   else if status r =? 401 then Some Unauthorized
   else if status r =? 403 then Some Forbidden
   else if status r =? 404 then Some NotFound
   else if status r =? 409 then Some Conflict
   else if status r =? 500 then Some ServerFault
   else None)%Z.

(** ** Handlers: state, early answer, rejection *)

Inductive step (A : Type) :=
| Next (a : A)
| Reply (r : response)
| Throw.
Arguments Next {A} a.
Arguments Reply {A} r.
Arguments Throw {A}.

Definition handler (A : Type) : Type := database -> step A * database.

Definition ret {A} (a : A) : handler A := fun db => (Next a, db).

Definition bind {A B} (h : handler A) (k : A -> handler B) : handler B :=
  fun db =>
    match h db with
    | (Next a, db') => k a db'
    | (Reply r, db') => (Reply r, db')
    | (Throw, db') => (Throw, db')
    end.

Notation "'let*' x ':=' c 'in' k" := (bind c (fun x => k))
  (at level 10, x pattern, c at level 100, k at level 200).

(** [return res.status(code).json(b)] *)
Definition respond {A} (code : Z) (b : body) : handler A :=
  fun db => (Reply (json code b), db).

(** [if (cond) return res.status(code).json(b)] *)
Definition reject_if (cond : bool) (code : Z) (b : body) : handler unit :=
  if cond then respond code b else ret tt.

(** [getOne] and [getAll] read; [runQuery] writes, and rejects when the
    statement breaks a constraint of the schema. *)
Definition getOne {A} (q : database -> option A) : handler (option A) :=
  fun db => (Next (q db), db).

Definition getAll {A} (q : database -> list A) : handler (list A) :=
  fun db => (Next (q db), db).

Record run_result := {
  lastID : Z;
  changes : nat
}.

Definition runQuery (stmt : database -> option (run_result * database))
  : handler run_result :=
  fun db =>
    match stmt db with
    | Some (r, db') => (Next r, db')
    | None => (Throw, db)
    end.

(** [try { ... } catch (error) { res.status(500).json({ error: msg }) }] *)
Definition try_catch (h : handler response) (msg : string)
  (db : database) : response * database :=
  match h db with
  | (Next r, db') => (r, db')
  | (Reply r, db') => (r, db')
  | (Throw, db') => (json 500 (b_error msg), db')
  end.

(** ** What the libraries and the engine compute

    [jsonwebtoken], [bcryptjs], [express-validator] and SQLite's LIKE are
    not code of this repository; the handlers are stated over any
    implementation of them. *)
Class Platform := {
  hs256 : string -> jwt_claims -> string;
  bcrypt_hash : string -> string -> string;
  sql_like : string -> string -> bool;
  trim : string -> string;
  isEmail : string -> bool;
  normalizeEmail : string -> string;
  isISO8601 : string -> bool
}.

(** [process.env]: the signing secret and the token lifetime in seconds. *)
Record config := {
  JWT_SECRET : string;
  JWT_EXPIRY : Z
}.

Definition default_config : config :=
  {| JWT_SECRET := "taskforge-secret-key-change-in-production";
     JWT_EXPIRY := 7 * 86400 |}.

(** What a request finds around it: the clock, and the salt [bcrypt.genSalt]
    draws. *)
Record environment := {
  now : Z;
  salt : string
}.

(** ** Queries shared by the routes *)

Definition is_some {A} (o : option A) : bool :=
  match o with Some _ => true | None => false end.

Definition is_nil {A} (l : list A) : bool :=
  match l with [] => true | _ :: _ => false end.

(** [SELECT ... FROM users WHERE id = ?] *)
Definition user_by_id (uid : Z) (db : database) : option user_row :=
  find (fun u => (u_id u =? uid)%Z) (users db).

(** [SELECT * FROM projects WHERE id = ?] *)
Definition project_by_id (pid : Z) (db : database) : option project_row :=
  find (fun p => (p_id p =? pid)%Z) (projects db).

(** [SELECT * FROM tasks WHERE id = ?] *)
Definition task_by_id (tid : Z) (db : database) : option task_row :=
  find (fun t => (t_id t =? tid)%Z) (tasks db).

(** [SELECT role FROM project_members WHERE project_id = ? AND user_id = ?] *)
Definition member_role (pid uid : Z) (db : database) : option project_role :=
  option_map pm_role
    (find (fun m => (pm_project_id m =? pid)%Z && (pm_user_id m =? uid)%Z)
          (project_members db)).

(** The access query every task route repeats:
    [SELECT 1 FROM project_members WHERE project_id = ? AND user_id = ?
     UNION SELECT 1 FROM projects WHERE id = ? AND owner_id = ?]. *)
Definition access_row (pid uid : Z) (db : database) : option unit :=
  if existsb (fun m => (pm_project_id m =? pid)%Z && (pm_user_id m =? uid)%Z)
             (project_members db)
     || existsb (fun p => (p_id p =? pid)%Z && (p_owner_id p =? uid)%Z)
                (projects db)
  then Some tt else None.

(** [SELECT COUNT( * ) as count FROM users WHERE role = 'admin' AND is_active = 1] *)
Definition active_admin (u : user_row) : bool :=
  global_role_eqb (u_role u) admin && u_is_active u.

Definition active_admin_count (db : database) : nat :=
  List.length (filter active_admin (users db)).

(** Foreign keys ([PRAGMA foreign_keys = ON]). *)
Definition user_exists (uid : Z) (db : database) : bool :=
  existsb (fun u => (u_id u =? uid)%Z) (users db).

Definition project_exists (pid : Z) (db : database) : bool :=
  existsb (fun p => (p_id p =? pid)%Z) (projects db).

Definition opt_user_exists (o : option Z) (db : database) : bool :=
  match o with
  | None => true
  | Some uid => user_exists uid db
  end.

(** [UPDATE] helpers: rewrite every field but one. *)
Definition set_users (us : list user_row) (db : database) : database :=
  {| users := us; projects := projects db; tasks := tasks db;
     comments := comments db; project_members := project_members db;
     activity_log := activity_log db; sequence := sequence db |}.

Definition set_tasks (ts : list task_row) (db : database) : database :=
  {| users := users db; projects := projects db; tasks := ts;
     comments := comments db; project_members := project_members db;
     activity_log := activity_log db; sequence := sequence db |}.

Definition set_project_members (ms : list member_row) (db : database)
  : database :=
  {| users := users db; projects := projects db; tasks := tasks db;
     comments := comments db; project_members := ms;
     activity_log := activity_log db; sequence := sequence db |}.

(** [INSERT INTO activity_log (user_id, action, entity_type, entity_id,
    details) VALUES (?, ?, ?, ?, ?)] *)
Definition insert_activity (clock : Z) (uid : Z) (action entity_type : string)
  (entity_id : option Z) (details : log_details) (db : database)
  : option (run_result * database) :=
  if user_exists uid db then
    let rowid :=
      next_rowid (seq_activity_log (sequence db))
                 (map a_id (activity_log db)) in
    let row := {| a_id := rowid; a_user_id := uid; a_action := action;
                  a_entity_type := entity_type; a_entity_id := entity_id;
                  a_details := details; a_created_at := clock |} in
    Some ({| lastID := rowid; changes := 1 |},
          {| users := users db; projects := projects db; tasks := tasks db;
             comments := comments db; project_members := project_members db;
             activity_log := activity_log db ++ [row];
             sequence :=
               {| seq_users := seq_users (sequence db);
                  seq_projects := seq_projects (sequence db);
                  seq_tasks := seq_tasks (sequence db);
                  seq_comments := seq_comments (sequence db);
                  seq_activity_log := rowid |} |})
  else None.

(** ** middleware/auth.js *)

Inductive jwt_error := JsonWebTokenError | TokenExpiredError.

Section Middleware.
Context {platform : Platform}.
Variable cfg : config.

(** [jwt.sign(payload, secret, { expiresIn })] at time [clock]. *)
Definition jwt_sign (uid : Z) (name : string) (r : global_role)
  (secret : string) (expiresIn clock : Z) : jwt :=
  let c := {| userId := uid; claim_username := name; claim_role := r;
              iat := clock; exp := clock + expiresIn |} in
  {| claims := c; signature := hs256 secret c |}.

(** [jwt.verify(token, secret)] at time [clock]: the signature is checked
    first, then the expiry ([clock >= exp] is expired). *)
Definition jwt_verify (token : segment) (secret : string) (clock : Z)
  : jwt_error + jwt_claims :=
  match token with
  | seg_text _ => inl JsonWebTokenError
  | seg_jwt t =>
      if signature t =? hs256 secret (claims t) then
        if (exp (claims t) <=? clock)%Z then inl TokenExpiredError
        else inr (claims t)
      else inl JsonWebTokenError
  end.

Definition generateToken {A} `{TokenSubject A} (clock : Z) (user : A) : jwt :=
  jwt_sign (subject_id user) (subject_username user) (subject_role user)
           (JWT_SECRET cfg) (JWT_EXPIRY cfg) clock.

(** [authHeader && authHeader.split(' ')[1]], and whether it is truthy.
    The header is given as its space-separated pieces. *)
Definition bearer_token (authHeader : option (list segment))
  : option segment :=
  match authHeader with
  | None => None
  | Some pieces =>
      match nth_error pieces 1 with
      | Some (seg_text "") => None
      | other => other
      end
  end.

(** [Next user] is [req.user = user; next()]. *)
Definition authenticateToken (clock : Z)
  (authHeader : option (list segment)) : handler principal :=
  match bearer_token authHeader with
  | None => respond 401 (b_error "Access token required")
  | Some token =>
      match jwt_verify token (JWT_SECRET cfg) clock with
      | inl JsonWebTokenError => respond 401 (b_error "Invalid token")
      | inl TokenExpiredError => respond 401 (b_error "Token expired")
      | inr decoded =>
          let* user := getOne (user_by_id (userId decoded)) in
          match user with
          | None => respond 401 (b_error "User not found")
          | Some u =>
              if negb (u_is_active u)
              then respond 401 (b_error "Account is deactivated")
              else ret (principal_of_row u)
          end
      end
  end.

Definition requireRole (roles : list global_role)
  (user : option principal) : handler unit :=
  match user with
  | None => respond 401 (b_error "Authentication required")
  | Some u =>
      if negb (existsb (global_role_eqb (role u)) roles)
      then respond 403 (b_insufficient roles (role u))
      else ret tt
  end.

Definition requireAdmin := requireRole [admin].

Definition requireManager := requireRole [admin; manager].

(** A route: the middleware chain, then the handler with its own
    [try]/[catch].  A rejection inside [authenticateToken] is answered by
    the [catch] block of the middleware. *)
Definition route (chain : handler principal)
  (h : principal -> database -> response * database) (db : database)
  : response * database :=
  match chain db with
  | (Next user, db') => h user db'
  | (Reply r, db') => (r, db')
  | (Throw, db') => (json 500 (b_error "Authentication failed"), db')
  end.

End Middleware.

(** ** routes/auth.js *)

Record register_body := {
  reg_username : string;
  reg_email : string;
  reg_password : string;
  reg_fullName : string
}.

(** [/^[a-zA-Z0-9_]+$/] *)
Definition word_char (c : ascii) : bool :=
  let n := nat_of_ascii c in
  ((48 <=? n) && (n <=? 57) || (65 <=? n) && (n <=? 90)
   || (97 <=? n) && (n <=? 122) || (n =? 95))%nat.

Definition matches_word (s : string) : bool :=
  negb (is_nil (list_ascii_of_string s))
  && forallb word_char (list_ascii_of_string s).

(** [isLength({ min, max })] *)
Definition isLength (lo hi : nat) (s : string) : bool :=
  ((lo <=? String.length s) && (String.length s <=? hi))%nat.

Definition check (ok : bool) (field : string) : list string :=
  if ok then [] else [field].

(** [INSERT INTO users (username, email, password_hash, full_name, role)
    VALUES (?, ?, ?, ?, ?)]; [username] and [email] are UNIQUE. *)
Definition insert_user (clock : Z) (name mail hash fullName : string)
  (r : global_role) (db : database) : option (run_result * database) :=
  if existsb (fun u => (u_username u =? name) || (u_email u =? mail))
             (users db)
  then None
  else
    let rowid := next_rowid (seq_users (sequence db)) (map u_id (users db)) in
    let row := {| u_id := rowid; u_username := name; u_email := mail;
                  u_password_hash := hash; u_full_name := fullName;
                  u_role := r; u_is_active := true; u_created_at := clock |} in
    Some ({| lastID := rowid; changes := 1 |},
          {| users := users db ++ [row]; projects := projects db;
             tasks := tasks db; comments := comments db;
             project_members := project_members db;
             activity_log := activity_log db;
             sequence :=
               {| seq_users := rowid;
                  seq_projects := seq_projects (sequence db);
                  seq_tasks := seq_tasks (sequence db);
                  seq_comments := seq_comments (sequence db);
                  seq_activity_log := seq_activity_log (sequence db) |} |}).

Section AuthRoutes.
Context {platform : Platform}.
Variable cfg : config.

(** The validation chains of the route; the sanitizers ([trim],
    [normalizeEmail]) rewrite the body. *)
Definition sanitize_register (b : register_body) : register_body :=
  {| reg_username := trim (reg_username b);
     reg_email := normalizeEmail (trim (reg_email b));
     reg_password := reg_password b;
     reg_fullName := trim (reg_fullName b) |}.

Definition validate_register (b : register_body) : list string :=
  check (isLength 3 30 (trim (reg_username b))) "username"
  ++ check (matches_word (trim (reg_username b))) "username"
  ++ check (isEmail (trim (reg_email b))) "email"
  ++ check (6 <=? String.length (reg_password b))%nat "password"
  ++ check (isLength 2 100 (trim (reg_fullName b))) "fullName".

(** POST /api/auth/register *)
Definition register (env : environment) (raw : register_body)
  : database -> response * database :=
  try_catch
    (let errors := validate_register raw in
     let* _ := reject_if (negb (is_nil errors)) 400 (b_errors errors) in
     let b := sanitize_register raw in
     let* existingUser :=
       getOne (fun db =>
                 find (fun u => (u_username u =? reg_username b)
                                || (u_email u =? reg_email b))
                      (users db)) in
     let* _ :=
       reject_if (is_some existingUser) 409
         (b_error "User already exists with this username or email") in
     let passwordHash := bcrypt_hash (reg_password b) (salt env) in
     let* userCount := getOne (fun db => Some (List.length (users db))) in
     let count := match userCount with Some n => n | None => O end in
     let r := if (count =? 0)%nat then admin else member in
     let* result :=
       runQuery (insert_user (now env) (reg_username b) (reg_email b)
                             passwordHash (reg_fullName b) r) in
     let* user :=
       getOne (fun db =>
                 option_map user_view_of_row
                            (user_by_id (lastID result) db)) in
     match user with
     | None => fun db => (Throw, db)
     | Some user =>
         let token := generateToken cfg (now env) user in
         let* _ :=
           runQuery (insert_activity (now env) (uv_id user)
                       "user_registered" "user" (Some (uv_id user))
                       d_null) in
         ret (json 201 (b_registered "Registration successful" user token
                                     (count =? 0)%nat))
     end)
    "Registration failed".

End AuthRoutes.

(** ** routes/users.js *)

(** [UPDATE users SET role = ? WHERE id = ?] *)
Definition update_user_role (uid : Z) (r : global_role) (db : database)
  : option (run_result * database) :=
  let hit u := (u_id u =? uid)%Z in
  let us :=
    map (fun u =>
           if hit u then
             {| u_id := u_id u; u_username := u_username u;
                u_email := u_email u; u_password_hash := u_password_hash u;
                u_full_name := u_full_name u; u_role := r;
                u_is_active := u_is_active u;
                u_created_at := u_created_at u |}
           else u)
        (users db) in
  Some ({| lastID := 0; changes := List.length (filter hit (users db)) |},
        set_users us db).

(** [UPDATE users SET is_active = ? WHERE id = ?] *)
Definition update_user_active (uid : Z) (a : bool) (db : database)
  : option (run_result * database) :=
  let hit u := (u_id u =? uid)%Z in
  let us :=
    map (fun u =>
           if hit u then
             {| u_id := u_id u; u_username := u_username u;
                u_email := u_email u; u_password_hash := u_password_hash u;
                u_full_name := u_full_name u; u_role := u_role u;
                u_is_active := a; u_created_at := u_created_at u |}
           else u)
        (users db) in
  Some ({| lastID := 0; changes := List.length (filter hit (users db)) |},
        set_users us db).

(** The user of the role answer: [{ ...user, role }]. *)
Definition with_role (u : user_row) (r : global_role) : user_row :=
  {| u_id := u_id u; u_username := u_username u; u_email := u_email u;
     u_password_hash := u_password_hash u; u_full_name := u_full_name u;
     u_role := r; u_is_active := u_is_active u;
     u_created_at := u_created_at u |}.

Section UserRoutes.
Context {platform : Platform}.
Variable cfg : config.

(** [[authenticateToken, requireAdmin]] *)
Definition admin_chain (clock : Z) (authHeader : option (list segment))
  : handler principal :=
  let* user := authenticateToken cfg clock authHeader in
  let* _ := requireAdmin (Some user) in
  ret user.

(** The handler of PUT /api/users/:id/role; [userId] is [req.params.id],
    [roleText] is [req.body.role]. *)
Definition updateRole_handler (env : environment) (userId : Z)
  (roleText : string) (reqUser : principal)
  : database -> response * database :=
  try_catch
    (match global_role_of_string roleText with
     | None => respond 400 (b_errors ["role"])
     | Some newRole =>
         let* user := getOne (user_by_id userId) in
         match user with
         | None => respond 404 (b_error "User not found")
         | Some user =>
             let* _ :=
               if global_role_eqb (u_role user) admin
                  && negb (global_role_eqb newRole admin)
               then
                 let* adminCount :=
                   getOne (fun db => Some (active_admin_count db)) in
                 let count :=
                   match adminCount with Some n => n | None => O end in
                 reject_if (count <=? 1)%nat 400
                           (b_error "Cannot remove the last admin")
               else ret tt in
             let* _ := runQuery (update_user_role userId newRole) in
             let* _ :=
               runQuery (insert_activity (now env) (id reqUser)
                           "role_changed" "user" (Some userId)
                           (d_changed_role newRole)) in
             ret (json 200 (b_role "Role updated successfully"
                                   (with_role user newRole)))
         end
     end)
    "Failed to update role".

(** PUT /api/users/:id/role *)
Definition updateRole (env : environment)
  (authHeader : option (list segment)) (userId : Z) (roleText : string)
  : database -> response * database :=
  route (admin_chain (now env) authHeader)
        (updateRole_handler env userId roleText).

(** The handler of PUT /api/users/:id/toggle-active. *)
Definition toggleActive_handler (env : environment) (userId : Z)
  (reqUser : principal) : database -> response * database :=
  try_catch
    (let* _ :=
       reject_if (userId =? id reqUser)%Z 400
                 (b_error "Cannot deactivate your own account") in
     let* user := getOne (user_by_id userId) in
     match user with
     | None => respond 404 (b_error "User not found")
     | Some user =>
         let* _ :=
           if u_is_active user && global_role_eqb (u_role user) admin
           then
             let* adminCount :=
               getOne (fun db => Some (active_admin_count db)) in
             let count :=
               match adminCount with Some n => n | None => O end in
             reject_if (count <=? 1)%nat 400
                       (b_error "Cannot deactivate the last admin")
           else ret tt in
         let newStatus := negb (u_is_active user) in
         let* _ := runQuery (update_user_active userId newStatus) in
         let* _ :=
           runQuery (insert_activity (now env) (id reqUser)
                       (if newStatus then "user_activated"
                        else "user_deactivated")
                       "user" (Some userId) (d_text "")) in
         ret (json 200
                   (b_active (if newStatus
                              then "User activated successfully"
                              else "User deactivated successfully")
                             newStatus))
     end)
    "Failed to toggle user status".

(** PUT /api/users/:id/toggle-active *)
Definition toggleActive (env : environment)
  (authHeader : option (list segment)) (userId : Z)
  : database -> response * database :=
  route (admin_chain (now env) authHeader) (toggleActive_handler env userId).

End UserRoutes.

(** ** routes/tasks.js: the ORDER BY clauses *)

(** [CASE t.priority WHEN 'urgent' THEN 1 WHEN 'high' THEN 2
    WHEN 'medium' THEN 3 WHEN 'low' THEN 4 END] *)
Definition priority_rank (p : task_priority) : Z :=
  match p with
  | urgent => 1
  | high => 2
  | medium => 3
  | low => 4
  end.

(** The engine's order of the values of a column: an INTEGER before every
    TEXT, INTEGERs by value, TEXTs byte by byte. *)
Definition sql_value_compare (a b : sql_value) : comparison :=
  match a, b with
  | sql_integer m, sql_integer n => (m ?= n)%Z
  | sql_integer _, sql_text _ => Lt
  | sql_text _, sql_integer _ => Gt
  | sql_text x, sql_text y => String.compare x y
  end.

(** [t.due_date ASC NULLS LAST]: the stored values in the engine's order,
    NULL after every value. *)
Definition due_date_compare (a b : option sql_value) : comparison :=
  match a, b with
  | None, None => Eq
  | None, Some _ => Gt
  | Some _, None => Lt
  | Some x, Some y => sql_value_compare x y
  end.

(** The three keys in turn; [t.created_at DESC] is the last. *)
Definition order_by_leb (a b : task_row) : bool :=
  match (priority_rank (t_priority a) ?= priority_rank (t_priority b))%Z with
  | Lt => true
  | Gt => false
  | Eq =>
      match due_date_compare (t_due_date a) (t_due_date b) with
      | Lt => true
      | Gt => false
      | Eq => (t_created_at b <=? t_created_at a)%Z
      end
  end.

(** [ORDER BY c.created_at DESC] of the comments of a task. *)
Definition comment_order_leb (a b : comment_row) : bool :=
  (c_created_at b <=? c_created_at a)%Z.

(** The engine's sort, as an insertion sort: rows that agree on every key
    keep the order the scan found them in. *)
Fixpoint insert_by {A} (leb : A -> A -> bool) (x : A) (l : list A) : list A :=
  match l with
  | [] => [x]
  | y :: l' => if leb x y then x :: l else y :: insert_by leb x l'
  end.

Definition order_by {A} (leb : A -> A -> bool) (l : list A) : list A :=
  fold_right (insert_by leb) [] l.

(** ** routes/tasks.js *)

Record task_filters := {
  f_projectId : option Z;
  f_status : option string;
  f_priority : option string;
  f_assignedTo : option Z;
  f_search : option string
}.

Record task_body := {
  tb_title : string;
  tb_projectId : Z;
  tb_description : option string;
  tb_assignedTo : option Z;
  tb_priority : option string;
  tb_status : option string;
  tb_dueDate : option string
}.

Record task_update_body := {
  ub_title : option string;
  ub_description : option string;
  ub_assignedTo : option Z;
  ub_priority : option string;
  ub_status : option string;
  ub_dueDate : option string
}.

(** [.optional()]: an absent field passes. *)
Definition optional {A} (ok : A -> bool) (o : option A) : bool :=
  match o with
  | None => true
  | Some a => ok a
  end.

(** [x || null] on text and on numbers: the empty text and 0 are falsy. *)
Definition text_or_null (o : option string) : option string :=
  match o with
  | Some "" => None
  | other => other
  end.

Definition number_or_null (o : option Z) : option Z :=
  match o with
  | Some 0%Z => None
  | other => other
  end.

(** [FROM tasks t JOIN projects p ON t.project_id = p.id
    LEFT JOIN users u ON t.assigned_to = u.id] for one task row. *)
Definition join_task (db : database) (t : task_row) : option task_view :=
  match project_by_id (t_project_id t) db with
  | None => None
  | Some p =>
      Some {| tv_row := t;
              tv_project_name := p_name p;
              tv_assigned_to_name :=
                match t_assigned_to t with
                | None => None
                | Some a => option_map u_full_name (user_by_id a db)
                end |}
  end.

(** [... WHERE t.id = ?] *)
Definition task_view_by_id (tid : Z) (db : database) : option task_view :=
  match task_by_id tid db with
  | None => None
  | Some t => join_task db t
  end.

Fixpoint filter_map {A B} (f : A -> option B) (l : list A) : list B :=
  match l with
  | [] => []
  | a :: l' =>
      match f a with
      | Some b => b :: filter_map f l'
      | None => filter_map f l'
      end
  end.

(** [INSERT INTO tasks (title, description, project_id, assigned_to,
    created_by, status, priority, due_date) VALUES (...)]: [completed_at] is
    not among the columns and stays NULL. *)
Definition insert_task (clock : Z) (title : string)
  (description : option string) (projectId : Z) (assignedTo : option Z)
  (createdBy : Z) (st : task_status) (pr : task_priority)
  (dueDate : option string) (db : database)
  : option (run_result * database) :=
  if project_exists projectId db && opt_user_exists assignedTo db
     && user_exists createdBy db
  then
    let rowid := next_rowid (seq_tasks (sequence db)) (map t_id (tasks db)) in
    let row := {| t_id := rowid; t_title := title;
                  t_description := description; t_project_id := projectId;
                  t_assigned_to := assignedTo; t_created_by := createdBy;
                  t_status := st; t_priority := pr;
                  t_due_date := option_map numeric_affinity dueDate;
                  t_completed_at := None; t_created_at := clock |} in
    Some ({| lastID := rowid; changes := 1 |},
          {| users := users db; projects := projects db;
             tasks := tasks db ++ [row]; comments := comments db;
             project_members := project_members db;
             activity_log := activity_log db;
             sequence :=
               {| seq_users := seq_users (sequence db);
                  seq_projects := seq_projects (sequence db);
                  seq_tasks := rowid;
                  seq_comments := seq_comments (sequence db);
                  seq_activity_log := seq_activity_log (sequence db) |} |})
  else None.

Definition or_else {A} (o : option A) (d : A) : A :=
  match o with
  | Some a => a
  | None => d
  end.

(** The SET list PUT /api/tasks/:id builds, applied to one row at time
    [clock]: a field is written when it is present in the body, and
    [completed_at] is written whenever [status] is. *)
Definition apply_updates (clock : Z) (u : task_updates) (t : task_row)
  : task_row :=
  {| t_id := t_id t;
     t_title := or_else (upd_title u) (t_title t);
     t_description :=
       match upd_description u with
       | Some d => Some d
       | None => t_description t
       end;
     t_project_id := t_project_id t;
     t_assigned_to :=
       match upd_assignedTo u with
       | Some a => Some a
       | None => t_assigned_to t
       end;
     t_created_by := t_created_by t;
     t_status := or_else (upd_status u) (t_status t);
     t_priority := or_else (upd_priority u) (t_priority t);
     t_due_date :=
       match upd_dueDate u with
       | Some d => Some (numeric_affinity d)
       | None => t_due_date t
       end;
     t_completed_at :=
       match upd_status u with
       | Some done => Some clock
       | Some _ => None
       | None => t_completed_at t
       end;
     t_created_at := t_created_at t |}.

(** [updateFields.length] *)
Definition update_field_count (u : task_updates) : nat :=
  ((if is_some (upd_title u) then 1 else 0)
   + (if is_some (upd_description u) then 1 else 0)
   + (if is_some (upd_assignedTo u) then 1 else 0)
   + (if is_some (upd_priority u) then 1 else 0)
   + (if is_some (upd_status u) then 2 else 0)
   + (if is_some (upd_dueDate u) then 1 else 0))%nat.

(** [UPDATE tasks SET ... WHERE id = ?]; [assigned_to] references [users]. *)
Definition update_task (clock : Z) (tid : Z) (u : task_updates)
  (db : database) : option (run_result * database) :=
  let hit t := (t_id t =? tid)%Z in
  if existsb hit (tasks db) && negb (opt_user_exists (upd_assignedTo u) db)
  then None
  else
    Some ({| lastID := 0; changes := List.length (filter hit (tasks db)) |},
          set_tasks
            (map (fun t => if hit t then apply_updates clock u t else t)
                 (tasks db))
            db).

Section TaskRoutes.
Context {platform : Platform}.
Variable cfg : config.

Definition validate_filters (f : task_filters) : list string :=
  check (optional (fun s => is_some (task_status_of_string s)) (f_status f))
        "status"
  ++ check (optional (fun s => is_some (task_priority_of_string s))
                     (f_priority f))
           "priority".

(** The WHERE clause of GET /api/tasks for one task row: the access test,
    then each filter that is present and truthy. *)
Definition list_where (userId : Z) (f : task_filters) (db : database)
  (t : task_row) : bool :=
  is_some (access_row (t_project_id t) userId db)
  && optional (fun pid => (t_project_id t =? pid)%Z) (f_projectId f)
  && optional (fun s =>
                 match task_status_of_string s with
                 | Some st => task_status_eqb (t_status t) st
                 | None => false
                 end)
              (f_status f)
  && optional (fun s =>
                 match task_priority_of_string s with
                 | Some pr => task_priority_eqb (t_priority t) pr
                 | None => false
                 end)
              (f_priority f)
  && optional (fun a =>
                 match t_assigned_to t with
                 | Some b => (b =? a)%Z
                 | None => false
                 end)
              (f_assignedTo f)
  && match option_map trim (f_search f) with
     | None | Some "" => true
     | Some needle =>
         sql_like needle (t_title t)
         || match t_description t with
            | Some d => sql_like needle d
            | None => false
            end
     end.

(** The whole SELECT of GET /api/tasks. *)
Definition list_query (userId : Z) (f : task_filters) (db : database)
  : list task_view :=
  order_by (fun a b => order_by_leb (tv_row a) (tv_row b))
           (filter_map (join_task db)
                       (filter (list_where userId f db) (tasks db))).

(** The handler of GET /api/tasks. *)
Definition listTasks_handler (f : task_filters) (reqUser : principal)
  : database -> response * database :=
  try_catch
    (let errors := validate_filters f in
     let* _ := reject_if (negb (is_nil errors)) 400 (b_errors errors) in
     let* rows := getAll (list_query (id reqUser) f) in
     ret (json 200 (b_tasks rows (List.length rows))))
    "Failed to get tasks".

(** GET /api/tasks *)
Definition listTasks (env : environment)
  (authHeader : option (list segment)) (f : task_filters)
  : database -> response * database :=
  route (authenticateToken cfg (now env) authHeader) (listTasks_handler f).

(** [SELECT c.* ... FROM comments c JOIN users u ON c.user_id = u.id
    WHERE c.task_id = ? ORDER BY c.created_at DESC] *)
Definition comments_query (taskId : Z) (db : database) : list comment_row :=
  order_by comment_order_leb
           (filter (fun c => (c_task_id c =? taskId)%Z
                             && user_exists (c_user_id c) db)
                   (comments db)).

(** The handler of GET /api/tasks/:id. *)
Definition getTask_handler (taskId : Z) (reqUser : principal)
  : database -> response * database :=
  try_catch
    (let* task := getOne (task_view_by_id taskId) in
     match task with
     | None => respond 404 (b_error "Task not found")
     | Some task =>
         let* hasAccess :=
           getOne (access_row (t_project_id (tv_row task)) (id reqUser)) in
         let* _ :=
           reject_if (negb (is_some hasAccess)) 403
                     (b_error "Access denied") in
         let* cs := getAll (comments_query taskId) in
         ret (json 200 (b_task_detail task cs))
     end)
    "Failed to get task".

(** GET /api/tasks/:id *)
Definition getTask (env : environment)
  (authHeader : option (list segment)) (taskId : Z)
  : database -> response * database :=
  route (authenticateToken cfg (now env) authHeader) (getTask_handler taskId).

Definition validate_task (b : task_body) : list string :=
  check (isLength 1 200 (trim (tb_title b))) "title"
  ++ check (optional (fun d => isLength 0 2000 (trim d)) (tb_description b))
           "description"
  ++ check (optional (fun s => is_some (task_priority_of_string s))
                     (tb_priority b))
           "priority"
  ++ check (optional (fun s => is_some (task_status_of_string s))
                     (tb_status b))
           "status"
  ++ check (optional isISO8601 (tb_dueDate b)) "dueDate".

(** The handler of POST /api/tasks. *)
Definition createTask_handler (env : environment) (b : task_body)
  (reqUser : principal) : database -> response * database :=
  try_catch
    (let errors := validate_task b in
     let* _ := reject_if (negb (is_nil errors)) 400 (b_errors errors) in
     let userId := id reqUser in
     let title := trim (tb_title b) in
     let projectId := tb_projectId b in
     let description := option_map trim (tb_description b) in
     let assignedTo := tb_assignedTo b in
     let priority :=
       match tb_priority b with
       | None => Some medium
       | Some s => task_priority_of_string s
       end in
     let st :=
       match tb_status b with
       | None => Some todo
       | Some s => task_status_of_string s
       end in
     let dueDate := tb_dueDate b in
     match priority, st with
     | Some priority, Some st =>
         let* hasAccess := getOne (access_row projectId userId) in
         let* _ :=
           reject_if (negb (is_some hasAccess)) 403
                     (b_error "No access to this project") in
         let* _ :=
           match number_or_null assignedTo with
           | Some a =>
               let* isMember := getOne (access_row projectId a) in
               reject_if (negb (is_some isMember)) 400
                         (b_error "Assigned user is not a project member")
           | None => ret tt
           end in
         let* result :=
           runQuery (insert_task (now env) title (text_or_null description)
                                 projectId (number_or_null assignedTo)
                                 userId st priority
                                 (text_or_null dueDate)) in
         let* task := getOne (task_view_by_id (lastID result)) in
         let* _ :=
           runQuery (insert_activity (now env) userId "task_created" "task"
                                     (Some (lastID result)) (d_text title)) in
         ret (json 201 (b_task "Task created successfully" task))
     | _, _ =>
    (* not reached: the chains above accepted both texts *)
    respond 400 (b_errors ["priority"; "status"])
     end)
    "Failed to create task".

(** POST /api/tasks *)
Definition createTask (env : environment)
  (authHeader : option (list segment)) (b : task_body)
  : database -> response * database :=
  route (authenticateToken cfg (now env) authHeader) (createTask_handler env b).

Definition validate_update (b : task_update_body) : list string :=
  check (optional (fun s => isLength 1 200 (trim s)) (ub_title b)) "title"
  ++ check (optional (fun d => isLength 0 2000 (trim d)) (ub_description b))
           "description"
  ++ check (optional (fun s => is_some (task_priority_of_string s))
                     (ub_priority b))
           "priority"
  ++ check (optional (fun s => is_some (task_status_of_string s))
                     (ub_status b))
           "status"
  ++ check (optional isISO8601 (ub_dueDate b)) "dueDate".

(** [req.body] once the chains have run. *)
Definition sanitize_update (b : task_update_body) : task_updates :=
  {| upd_title := option_map trim (ub_title b);
     upd_description := option_map trim (ub_description b);
     upd_assignedTo := ub_assignedTo b;
     upd_priority :=
       match ub_priority b with
       | Some s => task_priority_of_string s
       | None => None
       end;
     upd_status :=
       match ub_status b with
       | Some s => task_status_of_string s
       | None => None
       end;
     upd_dueDate := ub_dueDate b |}.

(** The handler of PUT /api/tasks/:id. *)
Definition updateTask_handler (env : environment) (taskId : Z)
  (b : task_update_body) (reqUser : principal)
  : database -> response * database :=
  try_catch
    (let errors := validate_update b in
     let* _ := reject_if (negb (is_nil errors)) 400 (b_errors errors) in
     let userId := id reqUser in
     let updates := sanitize_update b in
     let* task := getOne (task_by_id taskId) in
     match task with
     | None => respond 404 (b_error "Task not found")
     | Some task =>
         let* hasAccess :=
           getOne (access_row (t_project_id task) userId) in
         let* _ :=
           reject_if (negb (is_some hasAccess)) 403
                     (b_error "No access to this task") in
         let* _ :=
           reject_if (update_field_count updates =? 0)%nat 400
                     (b_error "No fields to update") in
         let* _ := runQuery (update_task (now env) taskId updates) in
         let* updatedTask := getOne (task_view_by_id taskId) in
         let* _ :=
           runQuery (insert_activity (now env) userId "task_updated" "task"
                                     (Some taskId)
                                     (d_task_updates updates)) in
         ret (json 200 (b_task "Task updated successfully" updatedTask))
     end)
    "Failed to update task".

(** PUT /api/tasks/:id *)
Definition updateTask (env : environment)
  (authHeader : option (list segment)) (taskId : Z) (b : task_update_body)
  : database -> response * database :=
  route (authenticateToken cfg (now env) authHeader)
        (updateTask_handler env taskId b).

End TaskRoutes.

(** ** routes/projects.js *)

Record project_body := {
  pb_name : string;
  pb_description : option string;
  pb_color : option string
}.

(** [/^#[0-9A-F]{6}$/i] *)
Definition hex_digit (c : ascii) : bool :=
  let n := nat_of_ascii c in
  ((48 <=? n) && (n <=? 57) || (65 <=? n) && (n <=? 70)
   || (97 <=? n) && (n <=? 102))%nat.

Definition hex_color (s : string) : bool :=
  match s with
  | String "#" rest =>
      (String.length rest =? 6)%nat
      && forallb hex_digit (list_ascii_of_string rest)
  | _ => false
  end.

(** [INSERT INTO projects (name, description, owner_id, color)
    VALUES (?, ?, ?, ?)] *)
Definition insert_project (clock : Z) (name : string)
  (description : option string) (owner : Z) (color : string) (db : database)
  : option (run_result * database) :=
  if user_exists owner db then
    let rowid :=
      next_rowid (seq_projects (sequence db)) (map p_id (projects db)) in
    let row := {| p_id := rowid; p_name := name;
                  p_description := description; p_owner_id := owner;
                  p_status := ps_active; p_color := color;
                  p_created_at := clock |} in
    Some ({| lastID := rowid; changes := 1 |},
          {| users := users db; projects := projects db ++ [row];
             tasks := tasks db; comments := comments db;
             project_members := project_members db;
             activity_log := activity_log db;
             sequence :=
               {| seq_users := seq_users (sequence db);
                  seq_projects := rowid;
                  seq_tasks := seq_tasks (sequence db);
                  seq_comments := seq_comments (sequence db);
                  seq_activity_log := seq_activity_log (sequence db) |} |})
  else None.

(** [INSERT INTO project_members (project_id, user_id, role)
    VALUES (?, ?, ?)]; the pair is the primary key.  The table has no id
    column and no handler reads [lastID] after this statement. *)
Definition insert_member (clock : Z) (pid uid : Z) (r : project_role)
  (db : database) : option (run_result * database) :=
  if project_exists pid db && user_exists uid db
     && negb (existsb (fun m => (pm_project_id m =? pid)%Z
                                && (pm_user_id m =? uid)%Z)
                      (project_members db))
  then
    let row := {| pm_project_id := pid; pm_user_id := uid; pm_role := r;
                  pm_joined_at := clock |} in
    Some ({| lastID := 0; changes := 1 |},
          set_project_members (project_members db ++ [row]) db)
  else None.

(** [DELETE FROM project_members WHERE project_id = ? AND user_id = ?] *)
Definition delete_member (pid uid : Z) (db : database)
  : option (run_result * database) :=
  let hit m := (pm_project_id m =? pid)%Z && (pm_user_id m =? uid)%Z in
  Some ({| lastID := 0;
           changes := List.length (filter hit (project_members db)) |},
        set_project_members
          (filter (fun m => negb (hit m)) (project_members db)) db).

(** [!currentUserRole || !['owner', 'admin'].includes(currentUserRole.role)] *)
Definition not_project_admin (r : option project_role) : bool :=
  match r with
  | None => true
  | Some r => negb (existsb (project_role_eqb r) [pr_owner; pr_admin])
  end.

Section ProjectRoutes.
Context {platform : Platform}.
Variable cfg : config.

Definition validate_project (b : project_body) : list string :=
  check (isLength 1 100 (trim (pb_name b))) "name"
  ++ check (optional (fun d => isLength 0 500 (trim d)) (pb_description b))
           "description"
  ++ check (optional hex_color (pb_color b)) "color".

(** The handler of POST /api/projects. *)
Definition createProject_handler (env : environment) (b : project_body)
  (reqUser : principal) : database -> response * database :=
  try_catch
    (let errors := validate_project b in
     let* _ := reject_if (negb (is_nil errors)) 400 (b_errors errors) in
     let name := trim (pb_name b) in
     let description := option_map trim (pb_description b) in
     let color := or_else (pb_color b) "#3B82F6" in
     let userId := id reqUser in
     let* result :=
       runQuery (insert_project (now env) name (text_or_null description)
                                userId color) in
     let* _ :=
       runQuery (insert_member (now env) (lastID result) userId pr_owner) in
     let* project := getOne (project_by_id (lastID result)) in
     let* _ :=
       runQuery (insert_activity (now env) userId "project_created"
                                 "project" (Some (lastID result))
                                 (d_text name)) in
     ret (json 201 (b_project "Project created successfully" project)))
    "Failed to create project".

(** POST /api/projects *)
Definition createProject (env : environment)
  (authHeader : option (list segment)) (b : project_body)
  : database -> response * database :=
  route (authenticateToken cfg (now env) authHeader)
        (createProject_handler env b).

(** The handler of DELETE /api/projects/:id/members/:userId;
    [memberToRemove] is [parseInt(req.params.userId)]. *)
Definition removeMember_handler (env : environment)
  (projectId memberToRemove : Z) (reqUser : principal)
  : database -> response * database :=
  try_catch
    (let currentUserId := id reqUser in
     let* project := getOne (project_by_id projectId) in
     match project with
     | None => respond 404 (b_error "Project not found")
     | Some project =>
         let* _ :=
           reject_if (memberToRemove =? p_owner_id project)%Z 400
                     (b_error "Cannot remove project owner") in
         let* currentUserRole :=
           getOne (member_role projectId currentUserId) in
         let* _ :=
           reject_if (negb (memberToRemove =? currentUserId)%Z
                      && negb (p_owner_id project =? currentUserId)%Z
                      && not_project_admin currentUserRole)
                     403 (b_error "Permission denied") in
         let* result := runQuery (delete_member projectId memberToRemove) in
         let* _ :=
           reject_if (changes result =? 0)%nat 404
                     (b_error "Member not found in project") in
         let* _ :=
           runQuery (insert_activity (now env) currentUserId
                                     "member_removed" "project"
                                     (Some projectId)
                                     (d_removed_user memberToRemove)) in
         ret (json 200 (b_message "Member removed successfully"))
     end)
    "Failed to remove member".

(** DELETE /api/projects/:id/members/:userId *)
Definition removeMember (env : environment)
  (authHeader : option (list segment)) (projectId memberToRemove : Z)
  : database -> response * database :=
  route (authenticateToken cfg (now env) authHeader)
        (removeMember_handler env projectId memberToRemove).

End ProjectRoutes.

(** ** Answers with a payload of their own

    Some routes answer a success with an object no other route sends (a
    comment, a member, a principal with a token).  Their handlers end in the
    status code and that value; every refusal is still a [response]. *)

Inductive answer (A : Type) :=
| sent (code : Z) (value : A)
| failed (r : response).
Arguments sent {A} code value.
Arguments failed {A} r.

Definition try_catch_as {A} (h : handler (Z * A)) (msg : string)
  (db : database) : answer A * database :=
  match h db with
  | (Next (code, value), db') => (sent code value, db')
  | (Reply r, db') => (failed r, db')
  | (Throw, db') => (failed (json 500 (b_error msg)), db')
  end.

Definition route_as {A} (chain : handler principal)
  (h : principal -> database -> answer A * database) (db : database)
  : answer A * database :=
  match chain db with
  | (Next user, db') => h user db'
  | (Reply r, db') => (failed r, db')
  | (Throw, db') => (failed (json 500 (b_error "Authentication failed")), db')
  end.

(** ** routes/tasks.js: deleting and commenting *)

(** [DELETE FROM tasks WHERE id = ?]; the comments of the task go with it
    ([ON DELETE CASCADE]). *)
Definition delete_task (tid : Z) (db : database)
  : option (run_result * database) :=
  let hit t := (t_id t =? tid)%Z in
  Some ({| lastID := 0; changes := List.length (filter hit (tasks db)) |},
        {| users := users db; projects := projects db;
           tasks := filter (fun t => negb (hit t)) (tasks db);
           comments :=
             filter (fun c => negb (c_task_id c =? tid)%Z) (comments db);
           project_members := project_members db;
           activity_log := activity_log db; sequence := sequence db |}).

(** The permission query of DELETE /api/tasks/:id:
    [SELECT 1 FROM tasks WHERE id = ? AND (created_by = ? OR assigned_to = ?)
     UNION SELECT 1 FROM project_members WHERE project_id = ? AND user_id = ?
           AND role IN ('owner', 'admin')
     UNION SELECT 1 FROM projects WHERE id = ? AND owner_id = ?]. *)
Definition delete_permission_row (tid uid pid : Z) (db : database)
  : option unit :=
  if existsb (fun t => (t_id t =? tid)%Z
                       && ((t_created_by t =? uid)%Z
                           || match t_assigned_to t with
                              | Some a => (a =? uid)%Z
                              | None => false
                              end))
             (tasks db)
     || existsb (fun m => (pm_project_id m =? pid)%Z
                          && (pm_user_id m =? uid)%Z
                          && existsb (project_role_eqb (pm_role m))
                                     [pr_owner; pr_admin])
                (project_members db)
     || existsb (fun p => (p_id p =? pid)%Z && (p_owner_id p =? uid)%Z)
                (projects db)
  then Some tt else None.

(** [INSERT INTO comments (task_id, user_id, content) VALUES (?, ?, ?)] *)
Definition insert_comment (clock : Z) (tid uid : Z) (content : string)
  (db : database) : option (run_result * database) :=
  if existsb (fun t => (t_id t =? tid)%Z) (tasks db) && user_exists uid db
  then
    let rowid :=
      next_rowid (seq_comments (sequence db)) (map c_id (comments db)) in
    let row := {| c_id := rowid; c_task_id := tid; c_user_id := uid;
                  c_content := content; c_created_at := clock |} in
    Some ({| lastID := rowid; changes := 1 |},
          {| users := users db; projects := projects db; tasks := tasks db;
             comments := comments db ++ [row];
             project_members := project_members db;
             activity_log := activity_log db;
             sequence :=
               {| seq_users := seq_users (sequence db);
                  seq_projects := seq_projects (sequence db);
                  seq_tasks := seq_tasks (sequence db);
                  seq_comments := rowid;
                  seq_activity_log := seq_activity_log (sequence db) |} |})
  else None.

(** [SELECT c.*, ... FROM comments c JOIN users u ON c.user_id = u.id
    WHERE c.id = ?] *)
Definition comment_by_id (cid : Z) (db : database) : option comment_row :=
  find (fun c => (c_id c =? cid)%Z && user_exists (c_user_id c) db)
       (comments db).

Section MoreTaskRoutes.
Context {platform : Platform}.
Variable cfg : config.

(** The handler of DELETE /api/tasks/:id. *)
Definition deleteTask_handler (env : environment) (taskId : Z)
  (reqUser : principal) : database -> response * database :=
  try_catch
    (let userId := id reqUser in
     let* task := getOne (task_by_id taskId) in
     match task with
     | None => respond 404 (b_error "Task not found")
     | Some task =>
         let* hasPermission :=
           getOne (delete_permission_row taskId userId (t_project_id task)) in
         let* _ :=
           reject_if (negb (is_some hasPermission)) 403
                     (b_error "Permission denied") in
         let* _ :=
           runQuery (insert_activity (now env) userId "task_deleted" "task"
                                     (Some taskId) (d_text (t_title task))) in
         let* _ := runQuery (delete_task taskId) in
         ret (json 200 (b_message "Task deleted successfully"))
     end)
    "Failed to delete task".

(** DELETE /api/tasks/:id *)
Definition deleteTask (env : environment)
  (authHeader : option (list segment)) (taskId : Z)
  : database -> response * database :=
  route (authenticateToken cfg (now env) authHeader)
        (deleteTask_handler env taskId).

(** The handler of POST /api/tasks/:id/comments; the answer carries the
    message and the comment read back. *)
Definition addComment_handler (env : environment) (taskId : Z)
  (rawContent : string) (reqUser : principal)
  : database -> answer (string * option comment_row) * database :=
  try_catch_as
    (let errors := check (isLength 1 1000 (trim rawContent)) "content" in
     let* _ := reject_if (negb (is_nil errors)) 400 (b_errors errors) in
     let userId := id reqUser in
     let content := trim rawContent in
     let* task := getOne (task_by_id taskId) in
     match task with
     | None => respond 404 (b_error "Task not found")
     | Some task =>
         let* hasAccess :=
           getOne (access_row (t_project_id task) userId) in
         let* _ :=
           reject_if (negb (is_some hasAccess)) 403
                     (b_error "No access to this task") in
         let* result :=
           runQuery (insert_comment (now env) taskId userId content) in
         let* comment := getOne (comment_by_id (lastID result)) in
         let* _ :=
           runQuery (insert_activity (now env) userId "comment_added" "task"
                                     (Some taskId) (d_text "Added comment")) in
         ret (201%Z, ("Comment added successfully", comment))
     end)
    "Failed to add comment".

(** POST /api/tasks/:id/comments *)
Definition addComment (env : environment)
  (authHeader : option (list segment)) (taskId : Z) (rawContent : string)
  : database -> answer (string * option comment_row) * database :=
  route_as (authenticateToken cfg (now env) authHeader)
           (addComment_handler env taskId rawContent).

End MoreTaskRoutes.

(** ** routes/projects.js: updating, deleting, adding a member *)

Record project_update_body := {
  pub_name : option string;
  pub_description : option string;
  pub_status : option string;
  pub_color : option string
}.

Definition project_status_of_string (s : string) : option project_status :=
  if s =? "active" then Some ps_active
  else if s =? "archived" then Some ps_archived
  else if s =? "completed" then Some ps_completed
  else None.

(** [UPDATE projects SET ... WHERE id = ?] with the fields the body has. *)
Definition apply_project_updates (name description : option string)
  (st : option project_status) (color : option string) (p : project_row)
  : project_row :=
  {| p_id := p_id p;
     p_name := or_else name (p_name p);
     p_description :=
       match description with
       | Some d => Some d
       | None => p_description p
       end;
     p_owner_id := p_owner_id p;
     p_status := or_else st (p_status p);
     p_color := or_else color (p_color p);
     p_created_at := p_created_at p |}.

Definition update_project (pid : Z) (name description : option string)
  (st : option project_status) (color : option string) (db : database)
  : option (run_result * database) :=
  let hit p := (p_id p =? pid)%Z in
  Some ({| lastID := 0; changes := List.length (filter hit (projects db)) |},
        {| users := users db;
           projects :=
             map (fun p => if hit p
                           then apply_project_updates name description st
                                                      color p
                           else p)
                 (projects db);
           tasks := tasks db; comments := comments db;
           project_members := project_members db;
           activity_log := activity_log db; sequence := sequence db |}).

(** [DELETE FROM projects WHERE id = ?]; its tasks and its Membership rows
    go with it, and the comments of those tasks with them. *)
Definition delete_project (pid : Z) (db : database)
  : option (run_result * database) :=
  let hit p := (p_id p =? pid)%Z in
  let gone t := (t_project_id t =? pid)%Z in
  Some ({| lastID := 0; changes := List.length (filter hit (projects db)) |},
        {| users := users db;
           projects := filter (fun p => negb (hit p)) (projects db);
           tasks := filter (fun t => negb (gone t)) (tasks db);
           comments :=
             filter (fun c =>
                       negb (existsb (fun t => gone t
                                               && (t_id t =? c_task_id c)%Z)
                                     (tasks db)))
                    (comments db);
           project_members :=
             filter (fun m => negb (pm_project_id m =? pid)%Z)
                    (project_members db);
           activity_log := activity_log db; sequence := sequence db |}).

Definition text_of_project_role (r : project_role) : string :=
  match r with
  | pr_owner => "owner"
  | pr_admin => "admin"
  | pr_member => "member"
  | pr_viewer => "viewer"
  end.

(** [body('role').optional().isIn(['admin', 'member', 'viewer'])] *)
Definition member_role_of_string (s : string) : option project_role :=
  if s =? "admin" then Some pr_admin
  else if s =? "member" then Some pr_member
  else if s =? "viewer" then Some pr_viewer
  else None.

(** The [member] of the add-member answer: [{ ...newMember, role }] over
    [SELECT id, username, full_name FROM users]. *)
Record member_view := {
  mv_id : Z;
  mv_username : string;
  mv_full_name : string;
  mv_role : project_role
}.

Section MoreProjectRoutes.
Context {platform : Platform}.
Variable cfg : config.

(** [JSON.stringify(updates)] of the activity log. *)
Variable stringify : project_update_body -> string.

Definition validate_project_update (b : project_update_body) : list string :=
  check (optional (fun s => isLength 1 100 (trim s)) (pub_name b)) "name"
  ++ check (optional (fun d => isLength 0 500 (trim d)) (pub_description b))
           "description"
  ++ check (optional (fun s => is_some (project_status_of_string s))
                     (pub_status b))
           "status"
  ++ check (optional hex_color (pub_color b)) "color".

(** [req.body] once the chains have run. *)
Definition sanitize_project_update (b : project_update_body)
  : project_update_body :=
  {| pub_name := option_map trim (pub_name b);
     pub_description := option_map trim (pub_description b);
     pub_status := pub_status b;
     pub_color := pub_color b |}.

(** The handler of PUT /api/projects/:id. *)
Definition updateProject_handler (env : environment) (projectId : Z)
  (raw : project_update_body) (reqUser : principal)
  : database -> response * database :=
  try_catch
    (let errors := validate_project_update raw in
     let* _ := reject_if (negb (is_nil errors)) 400 (b_errors errors) in
     let userId := id reqUser in
     let updates := sanitize_project_update raw in
     let* project := getOne (project_by_id projectId) in
     match project with
     | None => respond 404 (b_error "Project not found")
     | Some project =>
         let* memberRole := getOne (member_role projectId userId) in
         let* _ :=
           reject_if (negb (p_owner_id project =? userId)%Z
                      && not_project_admin memberRole)
                     403 (b_error "Permission denied") in
         let* _ :=
           reject_if (negb (is_some (pub_name updates))
                      && negb (is_some (pub_description updates))
                      && negb (is_some (pub_status updates))
                      && negb (is_some (pub_color updates)))
                     400 (b_error "No fields to update") in
         let* _ :=
           runQuery (update_project projectId (pub_name updates)
                       (pub_description updates)
                       (match pub_status updates with
                        | Some s => project_status_of_string s
                        | None => None
                        end)
                       (pub_color updates)) in
         let* updatedProject := getOne (project_by_id projectId) in
         let* _ :=
           runQuery (insert_activity (now env) userId "project_updated"
                                     "project" (Some projectId)
                                     (d_text (stringify updates))) in
         ret (json 200 (b_project "Project updated successfully"
                                  updatedProject))
     end)
    "Failed to update project".

(** PUT /api/projects/:id *)
Definition updateProject (env : environment)
  (authHeader : option (list segment)) (projectId : Z)
  (raw : project_update_body) : database -> response * database :=
  route (authenticateToken cfg (now env) authHeader)
        (updateProject_handler env projectId raw).

(** The handler of DELETE /api/projects/:id. *)
Definition deleteProject_handler (env : environment) (projectId : Z)
  (reqUser : principal) : database -> response * database :=
  try_catch
    (let userId := id reqUser in
     let* project := getOne (project_by_id projectId) in
     match project with
     | None => respond 404 (b_error "Project not found")
     | Some project =>
         let* _ :=
           reject_if (negb (p_owner_id project =? userId)%Z
                      && negb (global_role_eqb (role reqUser) admin))
                     403 (b_error "Only project owner can delete project") in
         let* _ :=
           runQuery (insert_activity (now env) userId "project_deleted"
                                     "project" (Some projectId)
                                     (d_text (p_name project))) in
         let* _ := runQuery (delete_project projectId) in
         ret (json 200 (b_message "Project deleted successfully"))
     end)
    "Failed to delete project".

(** DELETE /api/projects/:id *)
Definition deleteProject (env : environment)
  (authHeader : option (list segment)) (projectId : Z)
  : database -> response * database :=
  route (authenticateToken cfg (now env) authHeader)
        (deleteProject_handler env projectId).

(** The handler of POST /api/projects/:id/members; [newMemberId] is
    [req.body.userId], [roleText] is [req.body.role]. *)
Definition addMember_handler (env : environment) (projectId newMemberId : Z)
  (roleText : option string) (reqUser : principal)
  : database -> answer (string * member_view) * database :=
  try_catch_as
    (let errors :=
       check (optional (fun s => is_some (member_role_of_string s)) roleText)
             "role" in
     let* _ := reject_if (negb (is_nil errors)) 400 (b_errors errors) in
     let r :=
       match roleText with
       | None => Some pr_member
       | Some s => member_role_of_string s
       end in
     let currentUserId := id reqUser in
     match r with
     | None =>
         (* not reached: the chain above accepted the text *)
         respond 400 (b_errors ["role"])
     | Some r =>
         let* project := getOne (project_by_id projectId) in
         match project with
         | None => respond 404 (b_error "Project not found")
         | Some project =>
             let* currentUserRole :=
               getOne (member_role projectId currentUserId) in
             let* _ :=
               reject_if (negb (p_owner_id project =? currentUserId)%Z
                          && not_project_admin currentUserRole)
                         403 (b_error "Permission denied") in
             let* newMember := getOne (user_by_id newMemberId) in
             match newMember with
             | None => respond 404 (b_error "User not found")
             | Some newMember =>
                 let* existingMember :=
                   getOne (member_role projectId newMemberId) in
                 let* _ :=
                   reject_if (is_some existingMember) 409
                     (b_error "User is already a member of this project") in
                 let* _ :=
                   runQuery (insert_member (now env) projectId newMemberId
                                           r) in
                 let* _ :=
                   runQuery
                     (insert_activity (now env) currentUserId "member_added"
                        "project" (Some projectId)
                        (d_text ("Added " ++ u_username newMember ++ " as "
                                 ++ text_of_project_role r))) in
                 ret (201%Z,
                      ("Member added successfully",
                       {| mv_id := u_id newMember;
                          mv_username := u_username newMember;
                          mv_full_name := u_full_name newMember;
                          mv_role := r |}))
             end
         end
     end)
    "Failed to add member".

(** POST /api/projects/:id/members *)
Definition addMember (env : environment)
  (authHeader : option (list segment)) (projectId newMemberId : Z)
  (roleText : option string)
  : database -> answer (string * member_view) * database :=
  route_as (authenticateToken cfg (now env) authHeader)
           (addMember_handler env projectId newMemberId roleText).

End MoreProjectRoutes.

(** ** routes/auth.js: logging in, changing the password, logging out *)

(** [UPDATE users SET password_hash = ? WHERE id = ?] *)
Definition update_user_password (uid : Z) (hash : string) (db : database)
  : option (run_result * database) :=
  let hit u := (u_id u =? uid)%Z in
  Some ({| lastID := 0; changes := List.length (filter hit (users db)) |},
        set_users
          (map (fun u =>
                  if hit u then
                    {| u_id := u_id u; u_username := u_username u;
                       u_email := u_email u; u_password_hash := hash;
                       u_full_name := u_full_name u; u_role := u_role u;
                       u_is_active := u_is_active u;
                       u_created_at := u_created_at u |}
                  else u)
               (users db))
          db).

Section SessionRoutes.
Context {platform : Platform}.
Variable cfg : config.

(** [bcrypt.compare(password, hash)] *)
Variable bcrypt_compare : string -> string -> bool.

(** POST /api/auth/login; the answer carries the message, the user without
    the password hash, and the token. *)
Definition login (env : environment) (rawUsername password : string)
  : database -> answer (string * principal * jwt) * database :=
  try_catch_as
    (let errors :=
       (check (negb (trim rawUsername =? "")) "username"
        ++ check (negb (password =? "")) "password")%list in
     let* _ := reject_if (negb (is_nil errors)) 400 (b_errors errors) in
     let username := trim rawUsername in
     let* user :=
       getOne (fun db =>
                 find (fun u => (u_username u =? username)
                                || (u_email u =? username))
                      (users db)) in
     match user with
     | None => respond 401 (b_error "Invalid credentials")
     | Some user =>
         let* _ :=
           reject_if (negb (u_is_active user)) 401
                     (b_error "Account is deactivated") in
         let* _ :=
           reject_if (negb (bcrypt_compare password (u_password_hash user)))
                     401 (b_error "Invalid credentials") in
         let token := generateToken cfg (now env) user in
         let* _ :=
           runQuery (insert_activity (now env) (u_id user) "user_login"
                                     "session" None d_null) in
         ret (200%Z, ("Login successful", principal_of_row user, token))
     end)
    "Login failed".

(** The handler of POST /api/auth/change-password. *)
Definition changePassword_handler (env : environment)
  (currentPassword newPassword : string) (reqUser : principal)
  : database -> response * database :=
  try_catch
    (let errors :=
       (check (negb (currentPassword =? "")) "currentPassword"
        ++ check (6 <=? String.length newPassword)%nat "newPassword")%list in
     let* _ := reject_if (negb (is_nil errors)) 400 (b_errors errors) in
     let userId := id reqUser in
     let* user := getOne (user_by_id userId) in
     match user with
     | None => fun db => (Throw, db)
     | Some user =>
         let* _ :=
           reject_if (negb (bcrypt_compare currentPassword
                                           (u_password_hash user)))
                     401 (b_error "Current password is incorrect") in
         let newPasswordHash := bcrypt_hash newPassword (salt env) in
         let* _ := runQuery (update_user_password userId newPasswordHash) in
         let* _ :=
           runQuery (insert_activity (now env) userId "password_changed"
                                     "user" None d_null) in
         ret (json 200 (b_message "Password changed successfully"))
     end)
    "Failed to change password".

(** POST /api/auth/change-password *)
Definition changePassword (env : environment)
  (authHeader : option (list segment)) (currentPassword newPassword : string)
  : database -> response * database :=
  route (authenticateToken cfg (now env) authHeader)
        (changePassword_handler env currentPassword newPassword).

(** The handler of POST /api/auth/logout. *)
Definition logout_handler (env : environment) (reqUser : principal)
  : database -> response * database :=
  try_catch
    (let* _ :=
       runQuery (insert_activity (now env) (id reqUser) "user_logout"
                                 "session" None d_null) in
     ret (json 200 (b_message "Logout successful")))
    "Logout failed".

(** POST /api/auth/logout *)
Definition logout (env : environment) (authHeader : option (list segment))
  : database -> response * database :=
  route (authenticateToken cfg (now env) authHeader) (logout_handler env).

End SessionRoutes.

(** ** routes/users.js: editing a profile, resetting a password *)

Record profile_body := {
  pf_fullName : option string;
  pf_email : option string
}.

(** [UPDATE users SET full_name = ?, email = ? WHERE id = ?] with the fields
    the body has; [email] is UNIQUE. *)
Definition update_user_profile (uid : Z) (fullName mail : option string)
  (db : database) : option (run_result * database) :=
  let hit u := (u_id u =? uid)%Z in
  if match mail with
     | Some m =>
         existsb hit (users db)
         && existsb (fun u => (u_email u =? m) && negb (hit u)) (users db)
     | None => false
     end
  then None
  else
    Some ({| lastID := 0; changes := List.length (filter hit (users db)) |},
          set_users
            (map (fun u =>
                    if hit u then
                      {| u_id := u_id u; u_username := u_username u;
                         u_email := or_else mail (u_email u);
                         u_password_hash := u_password_hash u;
                         u_full_name := or_else fullName (u_full_name u);
                         u_role := u_role u; u_is_active := u_is_active u;
                         u_created_at := u_created_at u |}
                    else u)
                 (users db))
            db).

Section MoreUserRoutes.
Context {platform : Platform}.
Variable cfg : config.

(** [JSON.stringify(updates)] of the activity log. *)
Variable stringify : profile_body -> string.

Definition validate_profile (b : profile_body) : list string :=
  check (optional (fun s => isLength 2 100 (trim s)) (pf_fullName b))
        "fullName"
  ++ check (optional (fun s => isEmail (trim s)) (pf_email b)) "email".

Definition sanitize_profile (b : profile_body) : profile_body :=
  {| pf_fullName := option_map trim (pf_fullName b);
     pf_email := option_map (fun s => normalizeEmail (trim s)) (pf_email b) |}.

(** The handler of PUT /api/users/:id; the answer carries the message and
    [SELECT id, username, email, full_name, role, is_active] of the user. *)
Definition updateUser_handler (env : environment) (userId : Z)
  (raw : profile_body) (reqUser : principal)
  : database -> answer (string * option principal) * database :=
  try_catch_as
    (let errors := validate_profile raw in
     let* _ := reject_if (negb (is_nil errors)) 400 (b_errors errors) in
     let requestingUserId := id reqUser in
     let updates := sanitize_profile raw in
     let* _ :=
       reject_if (negb (userId =? requestingUserId)%Z
                  && negb (global_role_eqb (role reqUser) admin))
                 403 (b_error "Permission denied") in
     let* user := getOne (user_by_id userId) in
     match user with
     | None => respond 404 (b_error "User not found")
     | Some user =>
         let* _ :=
           match pf_email updates with
           | Some m =>
               let* existingEmail :=
                 getOne (fun db =>
                           find (fun u => (u_email u =? m)
                                          && negb (u_id u =? userId)%Z)
                                (users db)) in
               reject_if (is_some existingEmail) 409
                         (b_error "Email already in use")
           | None => ret tt
           end in
         let* _ :=
           reject_if (negb (is_some (pf_fullName updates))
                      && negb (is_some (pf_email updates)))
                     400 (b_error "No fields to update") in
         let* _ :=
           runQuery (update_user_profile userId (pf_fullName updates)
                                         (pf_email updates)) in
         let* updatedUser :=
           getOne (fun db => option_map principal_of_row
                                        (user_by_id userId db)) in
         let* _ :=
           runQuery (insert_activity (now env) requestingUserId
                                     "user_updated" "user" (Some userId)
                                     (d_text (stringify updates))) in
         ret (200%Z, ("Profile updated successfully", updatedUser))
     end)
    "Failed to update user".

(** PUT /api/users/:id *)
Definition updateUser (env : environment)
  (authHeader : option (list segment)) (userId : Z) (raw : profile_body)
  : database -> answer (string * option principal) * database :=
  route_as (authenticateToken cfg (now env) authHeader)
           (updateUser_handler env userId raw).

(** The handler of POST /api/users/:id/reset-password. *)
Definition resetPassword_handler (env : environment) (userId : Z)
  (newPassword : string) (reqUser : principal)
  : database -> response * database :=
  try_catch
    (let errors := check (6 <=? String.length newPassword)%nat "newPassword" in
     let* _ := reject_if (negb (is_nil errors)) 400 (b_errors errors) in
     let* user := getOne (user_by_id userId) in
     match user with
     | None => respond 404 (b_error "User not found")
     | Some _ =>
         let passwordHash := bcrypt_hash newPassword (salt env) in
         let* _ := runQuery (update_user_password userId passwordHash) in
         let* _ :=
           runQuery (insert_activity (now env) (id reqUser) "password_reset"
                                     "user" (Some userId)
                                     (d_text "Admin password reset")) in
         ret (json 200 (b_message "Password reset successfully"))
     end)
    "Failed to reset password".

(** POST /api/users/:id/reset-password *)
Definition resetPassword (env : environment)
  (authHeader : option (list segment)) (userId : Z) (newPassword : string)
  : database -> response * database :=
  route (admin_chain cfg (now env) authHeader)
        (resetPassword_handler env userId newPassword).

End MoreUserRoutes.

(** ** middleware/auth.js: the sliding session *)

Section Refresh.
Context {platform : Platform}.
Variable cfg : config.

(** [jwt.decode(token)]: the payload, unverified; [null] for anything that
    is not a token. *)
Definition jwt_decode (token : option segment) : option jwt_claims :=
  match token with
  | Some (seg_jwt t) => Some (claims t)
  | _ => None
  end.

(** [req.headers['authorization']] is truthy. *)
Definition header_truthy (authHeader : option (list segment)) : bool :=
  match authHeader with
  | None | Some [seg_text ""] => false
  | Some _ => true
  end.

(** [refreshTokenMiddleware] at [Date.now() = millis]: the value of the
    [X-New-Token] header it sets, if it sets one.  [decoded.exp] of a
    [null] payload throws, and the [catch] block only logs. *)
Definition refreshTokenMiddleware (millis : Z) (reqUser : option principal)
  (authHeader : option (list segment)) : option jwt :=
  match reqUser with
  | Some user =>
      if header_truthy authHeader then
        match jwt_decode (match authHeader with
                          | Some pieces => nth_error pieces 1
                          | None => None
                          end) with
        | Some decoded =>
            if (exp decoded * 1000 - millis <? 86400 * 1000)%Z
            then Some (generateToken cfg (millis / 1000) user)
            else None
        | None => None
        end
      else None
  | None => None
  end.

End Refresh.

(** ** app.js: the routes the application mounts

    A request to one of the routes above, by method and path, with what its
    handler reads: the clock and the salt it finds, its Authorization header,
    its path parameters and its body.  [unmatched] is a request that matches
    no route: the 404 handler of the application answers it and touches
    nothing.  The routes that are not embedded above (the listings of users
    and of projects, /auth/me, /tasks/my-tasks) are not among the
    requests. *)

Inductive request :=
| POST_auth_register (env : environment) (b : register_body)
| POST_auth_login (env : environment) (username password : string)
| POST_auth_change_password (env : environment)
    (hdr : option (list segment)) (currentPassword newPassword : string)
| POST_auth_logout (env : environment) (hdr : option (list segment))
| PUT_users (env : environment) (hdr : option (list segment)) (userId : Z)
    (b : profile_body)
| PUT_users_role (env : environment) (hdr : option (list segment))
    (userId : Z) (roleText : string)
| PUT_users_toggle_active (env : environment) (hdr : option (list segment))
    (userId : Z)
| POST_users_reset_password (env : environment)
    (hdr : option (list segment)) (userId : Z) (newPassword : string)
| POST_projects (env : environment) (hdr : option (list segment))
    (b : project_body)
| PUT_projects (env : environment) (hdr : option (list segment))
    (projectId : Z) (b : project_update_body)
| DELETE_projects (env : environment) (hdr : option (list segment))
    (projectId : Z)
| POST_projects_members (env : environment) (hdr : option (list segment))
    (projectId userId : Z) (roleText : option string)
| DELETE_projects_members (env : environment) (hdr : option (list segment))
    (projectId userId : Z)
| GET_tasks (env : environment) (hdr : option (list segment))
    (f : task_filters)
| GET_tasks_id (env : environment) (hdr : option (list segment)) (taskId : Z)
| POST_tasks (env : environment) (hdr : option (list segment)) (b : task_body)
| PUT_tasks (env : environment) (hdr : option (list segment)) (taskId : Z)
    (b : task_update_body)
| DELETE_tasks (env : environment) (hdr : option (list segment)) (taskId : Z)
| POST_tasks_comments (env : environment) (hdr : option (list segment))
    (taskId : Z) (content : string)
| unmatched.

Section Application.
Context {platform : Platform}.
Variable cfg : config.
Variable bcrypt_compare : string -> string -> bool.
Variable stringify_project : project_update_body -> string.
Variable stringify_profile : profile_body -> string.

(** The database a request leaves behind. *)
Definition serve (req : request) (db : database) : database :=
  match req with
  | POST_auth_register env b => snd (register cfg env b db)
  | POST_auth_login env name password =>
      snd (login cfg bcrypt_compare env name password db)
  | POST_auth_change_password env hdr current new =>
      snd (changePassword cfg bcrypt_compare env hdr current new db)
  | POST_auth_logout env hdr => snd (logout cfg env hdr db)
  | PUT_users env hdr uid b =>
      snd (updateUser cfg stringify_profile env hdr uid b db)
  | PUT_users_role env hdr uid roleText =>
      snd (updateRole cfg env hdr uid roleText db)
  | PUT_users_toggle_active env hdr uid => snd (toggleActive cfg env hdr uid db)
  | POST_users_reset_password env hdr uid new =>
      snd (resetPassword cfg env hdr uid new db)
  | POST_projects env hdr b => snd (createProject cfg env hdr b db)
  | PUT_projects env hdr pid b =>
      snd (updateProject cfg stringify_project env hdr pid b db)
  | DELETE_projects env hdr pid => snd (deleteProject cfg env hdr pid db)
  | POST_projects_members env hdr pid uid roleText =>
      snd (addMember cfg env hdr pid uid roleText db)
  | DELETE_projects_members env hdr pid uid =>
      snd (removeMember cfg env hdr pid uid db)
  | GET_tasks env hdr f => snd (listTasks cfg env hdr f db)
  | GET_tasks_id env hdr tid => snd (getTask cfg env hdr tid db)
  | POST_tasks env hdr b => snd (createTask cfg env hdr b db)
  | PUT_tasks env hdr tid b => snd (updateTask cfg env hdr tid b db)
  | DELETE_tasks env hdr tid => snd (deleteTask cfg env hdr tid db)
  | POST_tasks_comments env hdr tid content =>
      snd (addComment cfg env hdr tid content db)
  | unmatched => db
  end.

(** Requests are served one after the other. *)
Definition serve_all (reqs : list request) (db : database) : database :=
  fold_left (fun d req => serve req d) reqs db.

End Application.

(** ** A concrete platform and a small database

    Used to run the routes on explicit requests.  Text is left as it is by
    the sanitizers, LIKE is substring search, and the signature of a token
    is the secret followed by the username and the role it was issued for. *)

Definition text_of_role (r : global_role) : string :=
  match r with
  | admin => "admin"
  | manager => "manager"
  | member => "member"
  end.

Definition sample_hs256 (secret : string) (c : jwt_claims) : string :=
  secret ++ "." ++ claim_username c ++ "." ++ text_of_role (claim_role c).

#[export] Instance sample_platform : Platform :=
  {| hs256 := sample_hs256;
     bcrypt_hash := fun password salt => salt ++ "$" ++ password;
     sql_like := fun needle text => is_some (index 0 needle text);
     trim := fun s => s;
     isEmail := fun s => is_some (index 0 "@" s);
     normalizeEmail := fun s => s;
     isISO8601 := fun s => (String.length s =? 10)%nat |}.

Definition sample_env : environment := {| now := 1000; salt := "salt" |}.

Definition alice : user_row :=
  {| u_id := 1; u_username := "alice"; u_email := "alice@example.org";
     u_password_hash := "salt$secret1"; u_full_name := "Alice A";
     u_role := admin; u_is_active := true; u_created_at := 10 |}.

Definition bob : user_row :=
  {| u_id := 2; u_username := "bob"; u_email := "bob@example.org";
     u_password_hash := "salt$secret2"; u_full_name := "Bob B";
     u_role := member; u_is_active := true; u_created_at := 20 |}.

Definition carol : user_row :=
  {| u_id := 3; u_username := "carol"; u_email := "carol@example.org";
     u_password_hash := "salt$secret3"; u_full_name := "Carol C";
     u_role := member; u_is_active := true; u_created_at := 30 |}.

(** Project "Launch" of alice, with carol as a member and one task. *)
Definition launch : project_row :=
  {| p_id := 1; p_name := "Launch"; p_description := None; p_owner_id := 1;
     p_status := ps_active; p_color := "#3B82F6"; p_created_at := 40 |}.

Definition write_docs : task_row :=
  {| t_id := 1; t_title := "Write docs"; t_description := None;
     t_project_id := 1; t_assigned_to := Some 1; t_created_by := 1;
     t_status := todo; t_priority := medium; t_due_date := None;
     t_completed_at := None; t_created_at := 50 |}.

Definition sample_db : database :=
  {| users := [alice; bob; carol];
     projects := [launch];
     tasks := [write_docs];
     comments := [];
     project_members :=
       [ {| pm_project_id := 1; pm_user_id := 1; pm_role := pr_owner;
            pm_joined_at := 40 |};
         {| pm_project_id := 1; pm_user_id := 3; pm_role := pr_member;
            pm_joined_at := 45 |} ];
     activity_log := [];
     sequence := {| seq_users := 3; seq_projects := 1; seq_tasks := 1;
                    seq_comments := 0; seq_activity_log := 0 |} |}.

(** [Authorization: Bearer <token issued to u at time 900>] *)
Definition bearer_of (u : user_row) : option (list segment) :=
  Some [seg_text "Bearer"; seg_jwt (generateToken default_config 900 u)].

(** bob's token, issued while he was active, after his deactivation. *)
Definition bob_deactivated : database :=
  set_users
    [alice;
     {| u_id := 2; u_username := "bob"; u_email := "bob@example.org";
        u_password_hash := "salt$secret2"; u_full_name := "Bob B";
        u_role := member; u_is_active := false; u_created_at := 20 |};
     carol]
    sample_db.

(** A registration request. *)
Definition dave_body : register_body :=
  {| reg_username := "dave"; reg_email := "dave@example.org";
     reg_password := "secret4"; reg_fullName := "Dave D" |}.

(** alice asks to assign task 1 of her project to bob, who neither owns the
    project nor is a member of it. *)
Definition assign_to_bob : task_update_body :=
  {| ub_title := None; ub_description := None; ub_assignedTo := Some 2%Z;
     ub_priority := None; ub_status := None; ub_dueDate := None |}.

(** alice creates a task in her project with status done. *)
Definition ship_done : task_body :=
  {| tb_title := "Ship"; tb_projectId := 1; tb_description := None;
     tb_assignedTo := None; tb_priority := None; tb_status := Some "done";
     tb_dueDate := None |}.

(** Six tasks in alice's project, stored in the order of their ids. *)
Definition task_of (tid : Z) (pr : task_priority) (due : option string)
  (created : Z) : task_row :=
  {| t_id := tid; t_title := "task"; t_description := None;
     t_project_id := 1; t_assigned_to := None; t_created_by := 1;
     t_status := todo; t_priority := pr;
     t_due_date := option_map numeric_affinity due;
     t_completed_at := None; t_created_at := created |}.

Definition busy_db : database :=
  set_tasks
    [ write_docs;
      task_of 2 low (Some "2024-01-01") 60;
      task_of 3 urgent None 70;
      task_of 4 medium (Some "2024-05-01") 80;
      task_of 5 medium (Some "2024-05-01") 90;
      task_of 6 medium (Some "2024-02-01") 95 ]
    sample_db.

(** The validator passes a calendar date of ISO 8601 in the extended format
    [YYYY-MM-DD] and in the basic format [YYYYMMDD]; the platform below is
    [sample_platform] with a validator that does, by length. *)
Definition dates_platform : Platform :=
  {| hs256 := sample_hs256;
     bcrypt_hash := fun password salt => salt ++ "$" ++ password;
     sql_like := fun needle text => is_some (index 0 needle text);
     trim := fun s => s;
     isEmail := fun s => is_some (index 0 "@" s);
     normalizeEmail := fun s => s;
     isISO8601 := fun s =>
       ((String.length s =? 10) || (String.length s =? 8))%nat |}.

(** alice creates two tasks in her project: the first is due on 10 January
    2024, written "2024-01-10", the second on 15 January 2024, written
    "20240115". *)
Definition due_task (title due : string) : task_body :=
  {| tb_title := title; tb_projectId := 1; tb_description := None;
     tb_assignedTo := None; tb_priority := None; tb_status := None;
     tb_dueDate := Some due |}.

Definition dated_db : database :=
  snd (createTask (platform := dates_platform) default_config sample_env
         (bearer_of alice) (due_task "Later" "20240115")
         (snd (createTask (platform := dates_platform) default_config
                 sample_env (bearer_of alice) (due_task "Sooner" "2024-01-10")
                 sample_db))).

Definition no_filters : task_filters :=
  {| f_projectId := None; f_status := None; f_priority := None;
     f_assignedTo := None; f_search := None |}.

(** A password check that agrees with the hash of [sample_platform]: the
    text after the first "$" of the hash is the password. *)
Definition sample_compare (password hash : string) : bool :=
  match index 0 "$" hash with
  | Some n =>
      substring (S n) (String.length hash - S n) hash =? password
  | None => false
  end.

(** A registration request that reuses alice's email. *)
Definition alice_again : register_body :=
  {| reg_username := "alice2"; reg_email := "alice@example.org";
     reg_password := "secret5"; reg_fullName := "Alice Again" |}.

(** carol's request to create a project. *)
Definition beta_project : project_body :=
  {| pb_name := "Beta"; pb_description := None; pb_color := None |}.

(** bob wrote a task in project 1 while he was a member, and has left. *)
Definition bob_left_db : database :=
  set_tasks
    [ write_docs;
      {| t_id := 2; t_title := "Review"; t_description := None;
         t_project_id := 1; t_assigned_to := None; t_created_by := 2;
         t_status := todo; t_priority := low; t_due_date := None;
         t_completed_at := None; t_created_at := 60 |} ]
    sample_db.

(** Bodies for PUT /api/tasks/:id: one that names the title only, one that
    names nothing. *)
Definition retitle : task_update_body :=
  {| ub_title := Some "Write the docs"; ub_description := None;
     ub_assignedTo := None; ub_priority := None; ub_status := None;
     ub_dueDate := None |}.

Definition empty_update : task_update_body :=
  {| ub_title := None; ub_description := None; ub_assignedTo := None;
     ub_priority := None; ub_status := None; ub_dueDate := None |}.

(** alice creates a task in her project and assigns it to carol. *)
Definition ship_for_carol : task_body :=
  {| tb_title := "Ship"; tb_projectId := 1; tb_description := None;
     tb_assignedTo := Some 3%Z; tb_priority := None; tb_status := None;
     tb_dueDate := None |}.

(** ** Notions the statements use *)

(** The request's token is accepted and [user] becomes [req.user]. *)
Definition authenticated_as {platform : Platform} (cfg : config) (clock : Z)
  (authHeader : option (list segment)) (db : database) (user : principal)
  : Prop :=
  fst (authenticateToken cfg clock authHeader db) = Next user.

(** [uid] holds a Membership row for project [pid]. *)
Definition is_member (db : database) (pid uid : Z) : Prop :=
  exists m, In m (project_members db)
            /\ pm_project_id m = pid /\ pm_user_id m = uid.

(** [uid] owns project [pid]. *)
Definition is_owner (db : database) (pid uid : Z) : Prop :=
  exists p, In p (projects db) /\ p_id p = pid /\ p_owner_id p = uid.

(** The user store holds an active user whose global role is admin. *)
Definition has_active_admin (db : database) : Prop :=
  exists u, In u (users db) /\ u_role u = admin /\ u_is_active u = true.

(** [users.id] is the primary key. *)
Definition users_pk (db : database) : Prop :=
  NoDup (map u_id (users db)).

(** The order the listing is sorted by, key by key: priority rank
    ascending, then the stored due date in the engine's order (an INTEGER
    before a TEXT) with the tasks without a due date last, then creation
    time descending. *)
Definition due_before (a b : option sql_value) : Prop :=
  match a, b with
  | Some x, Some y => sql_value_compare x y = Lt
  | Some _, None => True
  | None, _ => False
  end.

Definition listed_before (a b : task_view) : Prop :=
  let ra := priority_rank (t_priority (tv_row a)) in
  let rb := priority_rank (t_priority (tv_row b)) in
  (ra < rb)%Z
  \/ (ra = rb
      /\ (due_before (t_due_date (tv_row a)) (t_due_date (tv_row b))
          \/ (t_due_date (tv_row a) = t_due_date (tv_row b)
              /\ (t_created_at (tv_row b) <= t_created_at (tv_row a))%Z))).

(** The day a stored due date names, as the number YYYYMMDD, for a calendar
    date that was given in the basic format [YYYYMMDD] or in the extended
    format [YYYY-MM-DD] of ISO 8601. *)
Fixpoint without_dashes (s : string) : string :=
  match s with
  | String "-"%char rest => without_dashes rest
  | String c rest => String c (without_dashes rest)
  | EmptyString => EmptyString
  end.

Definition calendar_day (v : sql_value) : option Z :=
  match v with
  | sql_integer n => Some n
  | sql_text s => integer_literal (without_dashes s)
  end.

(** [users.id] is the primary key, and [username] and [email] are
    UNIQUE. *)
Definition users_unique (db : database) : Prop :=
  NoDup (map u_id (users db))
  /\ NoDup (map u_username (users db))
  /\ NoDup (map u_email (users db)).

(** (project, user) is the primary key of the Membership rows. *)
Definition members_pk (db : database) : Prop :=
  NoDup (map (fun m => (pm_project_id m, pm_user_id m)) (project_members db)).

(** [keeps P h]: when [P] holds of the database [h] starts on, it holds of
    the database [h] leaves, whether [h] runs to its end, answers early or
    rejects. *)
Definition keeps {A} (P : database -> Prop) (h : handler A) : Prop :=
  forall db, P db -> P (snd (h db)).

(** * Properties *)

(** ** The middleware *)

Lemma global_role_eqb_eq (a b : global_role) :
  global_role_eqb a b = true <-> a = b.
Proof. destruct a, b; simpl; split; intros E; congruence. Qed.

Lemma user_by_id_some (uid : Z) (db : database) (u : user_row) :
  user_by_id uid db = Some u -> In u (users db) /\ u_id u = uid.
Proof.
  unfold user_by_id. intros E. apply find_some in E.
  destruct E as [I E]. apply Z.eqb_eq in E. auto.
Qed.

Lemma user_by_id_exists (uid : Z) (db : database) (u : user_row) :
  user_by_id uid db = Some u -> user_exists uid db = true.
Proof.
  intros E. apply user_by_id_some in E. destruct E as [I E].
  unfold user_exists. apply existsb_exists. exists u.
  split; [assumption | now apply Z.eqb_eq].
Qed.

Section MiddlewareFacts.
Context {platform : Platform}.
Variable cfg : config.

(** What an accepted token tells: the database is not written, and the
    principal is the stored row of an active user. *)
Lemma authenticateToken_next clock hdr db user db' :
  authenticateToken cfg clock hdr db = (Next user, db') ->
  db' = db
  /\ exists row, user_by_id (id user) db = Some row
                 /\ user = principal_of_row row
                 /\ u_is_active row = true.
Proof.
  unfold authenticateToken.
  destruct (bearer_token hdr) as [token|]; [|discriminate].
  destruct (jwt_verify token (JWT_SECRET cfg) clock) as [[|]|decoded];
    try discriminate.
  unfold bind, getOne.
  destruct (user_by_id (userId decoded) db) as [row|] eqn:E;
    [|discriminate].
  destruct (u_is_active row) eqn:A; simpl; [|discriminate].
  unfold ret. intros Q. inversion Q; subst. split; [reflexivity|].
  exists row. simpl.
  destruct (user_by_id_some _ _ _ E) as [_ I]. rewrite I.
  auto.
Qed.

Lemma authenticated_as_run clock hdr db user :
  authenticated_as cfg clock hdr db user ->
  authenticateToken cfg clock hdr db = (Next user, db).
Proof.
  unfold authenticated_as. intros E.
  destruct (authenticateToken cfg clock hdr db) as [s db'] eqn:R.
  simpl in E. subst s.
  destruct (authenticateToken_next _ _ _ _ _ R) as [-> _]. reflexivity.
Qed.

Lemma authenticated_as_row clock hdr db user :
  authenticated_as cfg clock hdr db user ->
  exists row, user_by_id (id user) db = Some row
              /\ user = principal_of_row row
              /\ u_is_active row = true.
Proof.
  intros E. apply authenticated_as_run in E.
  now destruct (authenticateToken_next _ _ _ _ _ E).
Qed.


(** The chain of the admin routes lets a request through only as an
    active stored admin, and writes nothing. *)
Lemma admin_chain_next clock hdr db user db' :
  admin_chain cfg clock hdr db = (Next user, db') ->
  db' = db /\ authenticated_as cfg clock hdr db user /\ role user = admin.
Proof.
  unfold admin_chain, bind.
  destruct (authenticateToken cfg clock hdr db) as [[u| |] db1] eqn:A;
    try discriminate.
  destruct (authenticateToken_next _ _ _ _ _ A) as [-> _].
  unfold requireAdmin, requireRole. simpl.
  destruct (global_role_eqb (role u) admin) eqn:R; simpl;
    [|discriminate].
  unfold ret. intros Q. inversion Q; subst.
  split; [reflexivity|]. split.
  - unfold authenticated_as. now rewrite A.
  - destruct (role user); simpl in R; congruence.
Qed.

(** The middleware either lets the request through or answers 401; it
    never rejects and never writes. *)
Lemma authenticateToken_cases clock hdr db :
  (exists user, authenticateToken cfg clock hdr db = (Next user, db))
  \/ (exists msg,
         authenticateToken cfg clock hdr db
         = (Reply (json 401 (b_error msg)), db)).
Proof.
  unfold authenticateToken.
  destruct (bearer_token hdr) as [token|]; [|right; eexists; reflexivity].
  destruct (jwt_verify token (JWT_SECRET cfg) clock) as [[|]|decoded];
    try (right; eexists; reflexivity).
  unfold bind, getOne.
  destruct (user_by_id (userId decoded) db) as [row|];
    [|right; eexists; reflexivity].
  destruct (u_is_active row); cbn [negb].
  - left. eexists. reflexivity.
  - right. eexists. reflexivity.
Qed.

Lemma admin_chain_cases clock hdr db :
  (exists user, admin_chain cfg clock hdr db = (Next user, db))
  \/ (exists r,
         admin_chain cfg clock hdr db = (Reply r, db)
         /\ (status r = 401 \/ status r = 403)%Z).
Proof.
  unfold admin_chain, bind.
  destruct (authenticateToken_cases clock hdr db) as [[u A]|[msg A]];
    rewrite A.
  - unfold requireAdmin, requireRole.
    destruct (negb (existsb (global_role_eqb (role u)) [admin])).
    + right. eexists. split; [reflexivity|]. now right.
    + left. eexists. reflexivity.
  - right. eexists. split; [reflexivity|]. now left.
Qed.

End MiddlewareFacts.

(** C4. A token issued for a stored, active user [u] at time [issued],
    presented with the service's secret at any time [clock] before its
    expiry, is accepted, and the principal attached to the request has the
    id, the username and the global role of [u]. *)
Theorem fresh_token_authenticates {platform : Platform} (cfg : config)
  (issued clock : Z) (db : database) (u : user_row)
  (scheme : segment) (rest : list segment) :
  user_by_id (u_id u) db = Some u ->
  u_is_active u = true ->
  (clock < issued + JWT_EXPIRY cfg)%Z ->
  exists p,
    authenticateToken cfg clock
      (Some (scheme :: seg_jwt (generateToken cfg issued u) :: rest)) db
    = (Next p, db)
    /\ id p = u_id u /\ username p = u_username u /\ role p = u_role u.
Proof.
  intros Stored Active Fresh.
  exists (principal_of_row u).
  split; [|repeat split].
  unfold authenticateToken, bearer_token, generateToken, jwt_sign, jwt_verify.
  cbn [nth_error claims signature exp userId subject_id user_row_subject].
  rewrite String.eqb_refl.
  destruct (issued + JWT_EXPIRY cfg <=? clock)%Z eqn:L.
  - apply Z.leb_le in L. lia.
  - unfold bind, getOne. cbn [userId]. rewrite Stored, Active. reflexivity.
Qed.

Lemma fresh_token_authenticates_witness :
  exists p,
    authenticateToken default_config 950
      (Some (seg_text "Bearer"
             :: seg_jwt (generateToken default_config 900 alice) :: []))
      sample_db
    = (Next p, sample_db)
    /\ id p = 1%Z /\ username p = "alice" /\ role p = admin.
Proof.
  apply (fresh_token_authenticates default_config 900 950 sample_db alice
           (seg_text "Bearer") []);
    reflexivity.
Defined.

(** C9. A token with a valid signature and an expiry still ahead is
    refused once its user is gone from the user store or is deactivated:
    the answer is 401 (Unauthorized), the database is not written, no
    principal is attached, and so no handler behind the middleware runs. *)
Theorem stale_user_token_unauthorized {platform : Platform} (cfg : config)
  (clock : Z) (hdr : option (list segment)) (t : jwt) (db : database) :
  bearer_token hdr = Some (seg_jwt t) ->
  signature t = hs256 (JWT_SECRET cfg) (claims t) ->
  (clock < exp (claims t))%Z ->
  user_by_id (userId (claims t)) db = None
  \/ (exists u, user_by_id (userId (claims t)) db = Some u
                /\ u_is_active u = false) ->
  exists r,
    authenticateToken cfg clock hdr db = (Reply r, db)
    /\ error_kind_of r = Some Unauthorized
    /\ (forall user, ~ authenticated_as cfg clock hdr db user)
    /\ (forall h, route (authenticateToken cfg clock hdr) h db = (r, db)).
Proof.
  intros Token Signed Fresh Stale.
  assert (R : exists msg, authenticateToken cfg clock hdr db
                          = (Reply (json 401 (b_error msg)), db)).
  { unfold authenticateToken. rewrite Token. unfold jwt_verify.
    rewrite Signed, String.eqb_refl.
    destruct (exp (claims t) <=? clock)%Z eqn:L;
      [apply Z.leb_le in L; lia|].
    unfold bind, getOne.
    destruct Stale as [Gone | [u [Found Off]]].
    - rewrite Gone. now exists "User not found".
    - rewrite Found, Off. now exists "Account is deactivated". }
  destruct R as [msg R]. exists (json 401 (b_error msg)).
  split; [exact R|]. split; [reflexivity|]. split.
  - intros user A. unfold authenticated_as in A. rewrite R in A.
    discriminate.
  - intros h. unfold route. now rewrite R.
Qed.

Lemma stale_user_token_unauthorized_witness :
  exists r,
    authenticateToken default_config 950 (bearer_of bob) bob_deactivated
    = (Reply r, bob_deactivated)
    /\ error_kind_of r = Some Unauthorized
    /\ (forall user,
           ~ authenticated_as default_config 950 (bearer_of bob)
               bob_deactivated user)
    /\ (forall h,
           route (authenticateToken default_config 950 (bearer_of bob)) h
                 bob_deactivated
           = (r, bob_deactivated)).
Proof.
  apply (stale_user_token_unauthorized default_config 950 (bearer_of bob)
           (generateToken default_config 900 bob) bob_deactivated).
  - reflexivity.
  - reflexivity.
  - reflexivity.
  - right. eexists. split; reflexivity.
Defined.



(** ** Registration *)

Lemma next_rowid_above (seq : Z) (ids : list Z) (x : Z) :
  In x ids -> (x < next_rowid seq ids)%Z.
Proof.
  unfold next_rowid. induction ids as [|a ids IH]; cbn [fold_right In].
  - intros [].
  - intros [E|I]; [subst; lia | specialize (IH I); lia].
Qed.

Lemma find_app_none {A} (f : A -> bool) (l l' : list A) :
  (forall x, In x l -> f x = false) -> find f (l ++ l') = find f l'.
Proof.
  induction l as [|a l IH]; simpl; intros F; [reflexivity|].
  rewrite (F a (or_introl eq_refl)). apply IH. intros x I. apply F. now right.
Qed.

(** The row [insert_user] adds is the one its [lastID] finds again. *)
Lemma insert_user_lookup clock name mail hash fullName r db res db' :
  insert_user clock name mail hash fullName r db = Some (res, db') ->
  exists row,
    users db' = (users db ++ [row])%list
    /\ u_id row = lastID res /\ u_role row = r /\ u_is_active row = true
    /\ user_by_id (lastID res) db' = Some row.
Proof.
  unfold insert_user.
  destruct (existsb _ (users db)); [discriminate|].
  intros Q. inversion Q; subst; clear Q. simpl.
  eexists. split; [reflexivity|]. repeat split.
  unfold user_by_id. simpl. rewrite find_app_none.
  - simpl. now rewrite Z.eqb_refl.
  - intros x I. apply Z.eqb_neq.
    assert (L := next_rowid_above (seq_users (sequence db))
                   (map u_id (users db)) (u_id x) (in_map u_id _ _ I)).
    lia.
Qed.

(** What a successful registration did: one row was added, it is the row
    its id finds in the new database, and the answer carries its view and a
    token issued for it at the time of the request. *)
Lemma register_created {platform : Platform} (cfg : config)
  (env : environment) (raw : register_body) (db db' : database)
  (r : response) :
  register cfg env raw db = (r, db') ->
  status r = 201%Z ->
  exists row,
    users db' = (users db ++ [row])%list
    /\ user_by_id (u_id row) db' = Some row
    /\ u_is_active row = true
    /\ u_role row
       = (if (List.length (users db) =? 0)%nat then admin else member)
    /\ payload r
       = b_registered "Registration successful" (user_view_of_row row)
                      (generateToken cfg (now env) (user_view_of_row row))
                      (List.length (users db) =? 0)%nat.
Proof.
  unfold register, try_catch, bind, reject_if, getOne, respond, ret, runQuery.
  intros R S.
  destruct (is_nil (validate_register raw)); simpl in R;
    [|inversion R; subst; discriminate].
  destruct (find _ (users db)); simpl in R;
    [inversion R; subst; discriminate|].
  destruct (insert_user _ _ _ _ _ _ db) as [[res db1]|] eqn:I;
    [|inversion R; subst; discriminate].
  destruct (insert_user_lookup _ _ _ _ _ _ _ _ _ I)
    as [row [Us [Id [Ro [Ac Look]]]]].
  rewrite Look in R. simpl in R.
  destruct (insert_activity _ _ _ _ _ _ db1) as [[res2 db2]|] eqn:L;
    [|inversion R; subst; discriminate].
  inversion R; subst; clear R.
  unfold insert_activity in L.
  destruct (user_exists _ db1); [|discriminate].
  inversion L; subst; clear L.
  exists row. cbn [users payload json].
  split; [exact Us|]. split; [|auto].
  rewrite Id. exact Look.
Qed.

(** C5. A registration that succeeds (201) creates one user, whose role is
    admin when the user store was empty and member when it held at least one
    user; the answer reports that same user. *)
Theorem registration_role {platform : Platform} (cfg : config)
  (env : environment) (raw : register_body) (db db' : database)
  (r : response) :
  register cfg env raw db = (r, db') ->
  status r = 201%Z ->
  exists row token first,
    users db' = (users db ++ [row])%list
    /\ payload r
       = b_registered "Registration successful" (user_view_of_row row)
                      token first
    /\ (users db = [] -> u_role row = admin)
    /\ (users db <> [] -> u_role row = member).
Proof.
  intros R S.
  destruct (register_created cfg env raw db db' r R S)
    as [row [Us [_ [_ [Ro Pay]]]]].
  exists row. eexists. eexists.
  split; [exact Us|]. split; [exact Pay|].
  rewrite Ro. split.
  - intros E. now rewrite E.
  - intros N. destruct (users db); [congruence | reflexivity].
Qed.

Lemma registration_role_witness :
  exists row token first,
    users (snd (register default_config sample_env dave_body sample_db))
    = (users sample_db ++ [row])%list
    /\ payload (fst (register default_config sample_env dave_body sample_db))
       = b_registered "Registration successful" (user_view_of_row row)
                      token first
    /\ (users sample_db = [] -> u_role row = admin)
    /\ (users sample_db <> [] -> u_role row = member).
Proof.
  apply (registration_role default_config sample_env dave_body sample_db
           (snd (register default_config sample_env dave_body sample_db))
           (fst (register default_config sample_env dave_body sample_db)));
    reflexivity.
Defined.

(** ** Project access *)

Lemma access_row_some (pid uid : Z) (db : database) :
  access_row pid uid db = Some tt <-> is_member db pid uid \/ is_owner db pid uid.
Proof.
  unfold access_row, is_member, is_owner. split.
  - destruct (existsb _ (project_members db)) eqn:M; simpl.
    + intros _. left. apply existsb_exists in M. destruct M as [m [I E]].
      apply andb_true_iff in E. destruct E as [E1 E2].
      apply Z.eqb_eq in E1. apply Z.eqb_eq in E2. eauto.
    + destruct (existsb _ (projects db)) eqn:P; [|discriminate].
      intros _. right. apply existsb_exists in P. destruct P as [p [I E]].
      apply andb_true_iff in E. destruct E as [E1 E2].
      apply Z.eqb_eq in E1. apply Z.eqb_eq in E2. eauto.
  - intros [[m [I [E1 E2]]] | [p [I [E1 E2]]]].
    + replace (existsb _ (project_members db)) with true; [reflexivity|].
      symmetry. apply existsb_exists. exists m. split; [assumption|].
      apply andb_true_iff. split; now apply Z.eqb_eq.
    + replace (existsb _ (projects db)) with true;
        [now rewrite orb_true_r|].
      symmetry. apply existsb_exists. exists p. split; [assumption|].
      apply andb_true_iff. split; now apply Z.eqb_eq.
Qed.

Lemma access_row_none (pid uid : Z) (db : database) :
  access_row pid uid db = None
  <-> ~ is_member db pid uid /\ ~ is_owner db pid uid.
Proof.
  split.
  - intros N. split; intros H;
      assert (S : access_row pid uid db = Some tt)
        by (apply access_row_some; auto);
      congruence.
  - intros [NM NO]. destruct (access_row pid uid db) as [[]|] eqn:E;
      [|reflexivity].
    apply access_row_some in E. tauto.
Qed.

(** C1, as the code has it. For an authenticated principal who neither owns
    the project of an existing task nor is a member of it, reading the task
    is refused with Forbidden (403, "Access denied") and nothing is
    written; reading an id no task has is refused with NotFound (404). The
    two answers differ. *)
Theorem hidden_task_is_forbidden {platform : Platform} (cfg : config)
  (env : environment) (hdr : option (list segment)) (db : database)
  (u : principal) (taskId : Z) (task : task_view) :
  authenticated_as cfg (now env) hdr db u ->
  task_view_by_id taskId db = Some task ->
  ~ is_owner db (t_project_id (tv_row task)) (id u) ->
  ~ is_member db (t_project_id (tv_row task)) (id u) ->
  getTask cfg env hdr taskId db = (json 403 (b_error "Access denied"), db)
  /\ error_kind_of (fst (getTask cfg env hdr taskId db)) = Some Forbidden
  /\ (forall missing,
         task_view_by_id missing db = None ->
         getTask cfg env hdr missing db
         = (json 404 (b_error "Task not found"), db)).
Proof.
  intros Auth Found NotOwner NotMember.
  assert (Hidden : access_row (t_project_id (tv_row task)) (id u) db = None)
    by (apply access_row_none; auto).
  assert (E : getTask cfg env hdr taskId db
              = (json 403 (b_error "Access denied"), db)).
  { unfold getTask, route. rewrite (authenticated_as_run cfg _ _ _ _ Auth).
    unfold getTask_handler, try_catch, bind, getOne, reject_if.
    rewrite Found, Hidden. reflexivity. }
  rewrite E. repeat split.
  intros missing Missing.
  unfold getTask, route. rewrite (authenticated_as_run cfg _ _ _ _ Auth).
  unfold getTask_handler, try_catch, bind, getOne.
  rewrite Missing. reflexivity.
Qed.

Lemma hidden_task_is_forbidden_witness :
  getTask default_config sample_env (bearer_of bob) 1 sample_db
  = (json 403 (b_error "Access denied"), sample_db)
  /\ error_kind_of
       (fst (getTask default_config sample_env (bearer_of bob) 1 sample_db))
     = Some Forbidden
  /\ (forall missing,
         task_view_by_id missing sample_db = None ->
         getTask default_config sample_env (bearer_of bob) missing sample_db
         = (json 404 (b_error "Task not found"), sample_db)).
Proof.
  apply (hidden_task_is_forbidden default_config sample_env (bearer_of bob)
           sample_db (principal_of_row bob) 1
           {| tv_row := write_docs; tv_project_name := "Launch";
              tv_assigned_to_name := Some "Alice A" |}).
  - reflexivity.
  - reflexivity.
  - apply (access_row_none 1 2 sample_db). reflexivity.
  - apply (access_row_none 1 2 sample_db). reflexivity.
Defined.

(** C1 as stated fails: bob, authenticated, neither owner nor member of
    project 1, reads its task 1 and is answered Forbidden, not NotFound,
    while the id 7 that no task has is answered NotFound. *)
Lemma hidden_task_not_answered_NotFound :
  authenticated_as default_config (now sample_env) (bearer_of bob) sample_db
                   (principal_of_row bob)
  /\ task_by_id 1 sample_db = Some write_docs
  /\ ~ is_owner sample_db (t_project_id write_docs) (u_id bob)
  /\ ~ is_member sample_db (t_project_id write_docs) (u_id bob)
  /\ error_kind_of
       (fst (getTask default_config sample_env (bearer_of bob) 1 sample_db))
     <> Some NotFound
  /\ error_kind_of
       (fst (getTask default_config sample_env (bearer_of bob) 1 sample_db))
     = Some Forbidden
  /\ error_kind_of
       (fst (getTask default_config sample_env (bearer_of bob) 7 sample_db))
     = Some NotFound.
Proof.
  split; [reflexivity|]. split; [reflexivity|].
  split; [apply (access_row_none 1 2 sample_db); reflexivity|].
  split; [apply (access_row_none 1 2 sample_db); reflexivity|].
  split; [discriminate|]. split; reflexivity.
Qed.

(** ** Leaving a project *)

Lemma filter_length_pos {A} (f : A -> bool) (l : list A) (a : A) :
  In a l -> f a = true -> (List.length (filter f l) =? 0)%nat = false.
Proof.
  intros I E. apply Nat.eqb_neq. intros Z0.
  apply length_zero_iff_nil in Z0.
  assert (F : In a (filter f l)) by (apply filter_In; auto).
  rewrite Z0 in F. exact F.
Qed.

(** C8, as the code has it. A member of a project who is not its owner can
    always remove the own membership: the request succeeds (200) and the
    Membership row is gone. For the owner the same request is refused (400,
    "Cannot remove project owner") and nothing is written. *)
Theorem member_removes_self {platform : Platform} (cfg : config)
  (env : environment) (hdr : option (list segment)) (db : database)
  (u : principal) (projectId : Z) (project : project_row) :
  authenticated_as cfg (now env) hdr db u ->
  project_by_id projectId db = Some project ->
  is_member db projectId (id u) ->
  (p_owner_id project <> id u ->
   exists db',
     removeMember cfg env hdr projectId (id u) db
     = (json 200 (b_message "Member removed successfully"), db')
     /\ ~ is_member db' projectId (id u))
  /\ (p_owner_id project = id u ->
      removeMember cfg env hdr projectId (id u) db
      = (json 400 (b_error "Cannot remove project owner"), db)).
Proof.
  intros Auth Found [m [In_m [Mp Mu]]].
  destruct (authenticated_as_row cfg _ _ _ _ Auth) as [row [Stored _]].
  apply user_by_id_exists in Stored.
  split; intros Owner.
  - unfold removeMember, route.
    rewrite (authenticated_as_run cfg _ _ _ _ Auth).
    unfold removeMember_handler, try_catch, bind, getOne, reject_if.
    rewrite Found.
    replace (id u =? p_owner_id project)%Z with false
      by (symmetry; apply Z.eqb_neq; congruence).
    cbn [ret]. rewrite Z.eqb_refl. cbn [negb andb ret].
    unfold runQuery, delete_member. cbn [changes].
    rewrite (filter_length_pos _ _ m In_m)
      by (rewrite Mp, Mu, !Z.eqb_refl; reflexivity).
    cbn [ret]. unfold insert_activity.
    replace (user_exists (id u) (set_project_members _ db)) with true
      by (symmetry; exact Stored).
    eexists. split; [reflexivity|].
    intros [m' [In_m' [Mp' Mu']]]. cbn [project_members] in In_m'.
    apply filter_In in In_m'. destruct In_m' as [_ Kept].
    rewrite Mp', Mu', !Z.eqb_refl in Kept. discriminate.
  - unfold removeMember, route.
    rewrite (authenticated_as_run cfg _ _ _ _ Auth).
    unfold removeMember_handler, try_catch, bind, getOne, reject_if.
    rewrite Found, Owner, Z.eqb_refl. reflexivity.
Qed.

Lemma member_removes_self_witness :
  (p_owner_id launch <> u_id carol ->
   exists db',
     removeMember default_config sample_env (bearer_of carol) 1 3 sample_db
     = (json 200 (b_message "Member removed successfully"), db')
     /\ ~ is_member db' 1 3)
  /\ (p_owner_id launch = u_id carol ->
      removeMember default_config sample_env (bearer_of carol) 1 3 sample_db
      = (json 400 (b_error "Cannot remove project owner"), sample_db)).
Proof.
  apply (member_removes_self default_config sample_env (bearer_of carol)
           sample_db (principal_of_row carol) 1 launch).
  - reflexivity.
  - reflexivity.
  - eexists. split; [right; left; reflexivity|]. split; reflexivity.
Defined.

(** C8 as stated fails: alice owns project 1 and holds its Membership row
    with role owner, and her request to remove herself is refused. *)
Lemma owner_cannot_remove_self :
  authenticated_as default_config (now sample_env) (bearer_of alice)
                   sample_db (principal_of_row alice)
  /\ is_owner sample_db 1 (u_id alice)
  /\ is_member sample_db 1 (u_id alice)
  /\ member_role 1 (u_id alice) sample_db = Some pr_owner
  /\ removeMember default_config sample_env (bearer_of alice) 1 (u_id alice)
                  sample_db
     = (json 400 (b_error "Cannot remove project owner"), sample_db)
  /\ status (fst (removeMember default_config sample_env (bearer_of alice) 1
                               (u_id alice) sample_db))
     <> 200%Z.
Proof.
  split; [reflexivity|].
  split; [exists launch; split; [left; reflexivity | split; reflexivity]|].
  split; [eexists; split; [left; reflexivity | split; reflexivity]|].
  split; [reflexivity|]. split; [reflexivity | discriminate].
Qed.

(** ** Assignees and completion timestamps *)

Lemma check_nil (ok : bool) (field : string) : check ok field = [] -> ok = true.
Proof. destruct ok; [reflexivity | discriminate]. Qed.

Lemma task_by_id_update (clock tid : Z) (u : task_updates) (db : database) :
  task_by_id tid
    (set_tasks (map (fun t => if (t_id t =? tid)%Z
                              then apply_updates clock u t else t)
                    (tasks db)) db)
  = option_map (apply_updates clock u) (task_by_id tid db).
Proof.
  unfold task_by_id. cbn [tasks set_tasks].
  induction (tasks db) as [|t ts IH]; [reflexivity|].
  cbn [map find]. destruct (t_id t =? tid)%Z eqn:E.
  - cbn [apply_updates t_id]. rewrite E. reflexivity.
  - rewrite E. exact IH.
Qed.

Section TaskFacts.
Context {platform : Platform}.
Variable cfg : config.

(** A body that passes the chains of POST /api/tasks names a priority and
    a status of the schema, or leaves them to their defaults. *)
Lemma validate_task_parses b :
  validate_task b = [] ->
  exists pr st,
    match tb_priority b with
    | Some s => task_priority_of_string s
    | None => Some medium
    end = Some pr
    /\ match tb_status b with
       | Some s => task_status_of_string s
       | None => Some todo
       end = Some st.
Proof.
  unfold validate_task. intros Valid.
  apply app_eq_nil in Valid. destruct Valid as [_ Valid].
  apply app_eq_nil in Valid. destruct Valid as [_ Valid].
  apply app_eq_nil in Valid. destruct Valid as [Prio Valid].
  apply app_eq_nil in Valid. destruct Valid as [Stat _].
  apply check_nil in Prio. apply check_nil in Stat.
  destruct (tb_priority b) as [s|]; cbn in Prio;
    [destruct (task_priority_of_string s) as [pr|]; [|discriminate]|];
    (destruct (tb_status b) as [s'|]; cbn in Stat;
     [destruct (task_status_of_string s') as [st|]; [|discriminate]|]);
    eauto.
Qed.

(** POST /api/tasks checks the assignee: a valid request by a principal
    with access to the project, naming an assignee who neither owns the
    project nor is a member of it, is refused with 400 and writes
    nothing. *)
Lemma createTask_refuses_outsider_assignee env hdr db u b a :
  authenticated_as cfg (now env) hdr db u ->
  validate_task b = [] ->
  access_row (tb_projectId b) (id u) db = Some tt ->
  tb_assignedTo b = Some a -> a <> 0%Z ->
  ~ is_owner db (tb_projectId b) a ->
  ~ is_member db (tb_projectId b) a ->
  createTask cfg env hdr b db
  = (json 400 (b_error "Assigned user is not a project member"), db).
Proof.
  intros Auth Valid Access Assignee Truthy NotOwner NotMember.
  assert (Outsider : access_row (tb_projectId b) a db = None)
    by (apply access_row_none; auto).
  destruct (validate_task_parses b Valid) as [pr [st [Prio Stat]]].
  unfold createTask, route. rewrite (authenticated_as_run cfg _ _ _ _ Auth).
  unfold createTask_handler, try_catch, bind, reject_if, getOne.
  cbv zeta. rewrite Valid, Prio, Stat. cbn [is_nil negb ret].
  rewrite Access, Assignee. cbn [is_some negb ret].
  destruct a; [congruence| |]; cbn [number_or_null];
    rewrite Outsider; reflexivity.
Qed.

(** PUT /api/tasks/:id keeps [completed_at] in step with [status]: after
    an update that succeeds and carries a status, the stored task has
    that status, and its completion timestamp is the time of the request
    when the status is done and NULL for every other status. *)
Lemma updateTask_completedAt env hdr taskId b db r db' st :
  updateTask cfg env hdr taskId b db = (r, db') ->
  status r = 200%Z ->
  upd_status (sanitize_update b) = Some st ->
  exists t,
    task_by_id taskId db' = Some t
    /\ t_status t = st
    /\ t_completed_at t
       = match st with done => Some (now env) | _ => None end.
Proof.
  unfold updateTask, route. intros R S St.
  destruct (authenticateToken_cases cfg (now env) hdr db)
    as [[u A]|[msg A]]; rewrite A in R;
    [|inversion R; subst; discriminate].
  unfold updateTask_handler, try_catch, bind, reject_if, getOne, runQuery,
    respond, ret in R.
  destruct (is_nil (validate_update b)); cbn [negb] in R;
    [|inversion R; subst; discriminate].
  destruct (task_by_id taskId db) as [t|] eqn:T;
    [|inversion R; subst; discriminate].
  destruct (is_some (access_row (t_project_id t) (id u) db)); cbn [negb] in R;
    [|inversion R; subst; discriminate].
  destruct (update_field_count (sanitize_update b) =? 0)%nat;
    [inversion R; subst; discriminate|].
  destruct (update_task (now env) taskId (sanitize_update b) db)
    as [[res db2]|] eqn:U; [|inversion R; subst; discriminate].
  unfold update_task in U.
  destruct (existsb _ (tasks db) && _); [discriminate|].
  inversion U; subst; clear U.
  unfold insert_activity in R.
  destruct (user_exists (id u) _); [|inversion R; subst; discriminate].
  inversion R; subst; clear R.
  exists (apply_updates (now env) (sanitize_update b) t).
  split.
  - unfold task_by_id. cbn [tasks].
    change (task_by_id taskId
              (set_tasks
                 (map (fun t0 => if (t_id t0 =? taskId)%Z
                                 then apply_updates (now env)
                                                    (sanitize_update b) t0
                                 else t0)
                      (tasks db)) db)
            = Some (apply_updates (now env) (sanitize_update b) t)).
    rewrite task_by_id_update, T. reflexivity.
  - cbn [apply_updates t_status t_completed_at]. rewrite St.
    split; [reflexivity|]. destruct st; reflexivity.
Qed.

End TaskFacts.

(** C2 fails on the update path. PUT /api/tasks/:id writes the assignee
    without the membership test that POST /api/tasks makes: the request
    above succeeds (200) and the stored task, assigned to alice before, is
    assigned to bob after. *)
Theorem updateTask_accepts_outsider_assignee :
  ~ is_owner sample_db (t_project_id write_docs) (u_id bob)
  /\ ~ is_member sample_db (t_project_id write_docs) (u_id bob)
  /\ option_map t_assigned_to (task_by_id 1 sample_db) = Some (Some (u_id alice))
  /\ status (fst (updateTask default_config sample_env (bearer_of alice) 1
                             assign_to_bob sample_db))
     = 200%Z
  /\ option_map t_assigned_to
       (task_by_id 1
          (snd (updateTask default_config sample_env (bearer_of alice) 1
                           assign_to_bob sample_db)))
     = Some (Some (u_id bob)).
Proof.
  split; [apply (access_row_none 1 2 sample_db); reflexivity|].
  split; [apply (access_row_none 1 2 sample_db); reflexivity|].
  repeat split.
Qed.

(** C6 fails on the creation path. POST /api/tasks stores the status it is
    given and leaves [completed_at] NULL: the request above succeeds (201)
    and the task it stores is done without a completion timestamp. *)
Theorem createTask_done_without_completedAt :
  status (fst (createTask default_config sample_env (bearer_of alice)
                          ship_done sample_db))
  = 201%Z
  /\ exists t,
       task_by_id 2
         (snd (createTask default_config sample_env (bearer_of alice)
                          ship_done sample_db))
       = Some t
       /\ t_status t = done
       /\ t_completed_at t = None.
Proof.
  split; [reflexivity|]. eexists. repeat split.
Qed.

(** ** The last admin *)

Lemma active_admin_true (u : user_row) :
  active_admin u = true <-> u_role u = admin /\ u_is_active u = true.
Proof.
  unfold active_admin. rewrite andb_true_iff, global_role_eqb_eq. tauto.
Qed.

Lemma in_map_unchanged {A} (hit : A -> bool) (g : A -> A) (l : list A) (v : A) :
  In v l -> hit v = false -> In v (map (fun x => if hit x then g x else x) l).
Proof.
  intros I H. apply in_map_iff. exists v. now rewrite H.
Qed.

(** With unique keys, two rows that pass a test cannot both carry the key
    [k]. *)
Lemma two_rows_other_key {A} (key : A -> Z) (f : A -> bool) (k : Z)
  (l : list A) :
  NoDup (map key l) -> (2 <= List.length (filter f l))%nat ->
  exists v, In v l /\ f v = true /\ key v <> k.
Proof.
  induction l as [|a l IH]; cbn [map filter]; intros U L.
  - cbn in L. lia.
  - inversion U as [|? ? Fresh U']; subst.
    destruct (f a) eqn:Fa.
    + destruct (Z.eq_dec (key a) k) as [E|N].
      * cbn [List.length] in L.
        destruct (filter f l) as [|v rest] eqn:F; [cbn in L; lia|].
        assert (I : In v (filter f l)) by (rewrite F; now left).
        apply filter_In in I. destruct I as [I Fv].
        exists v. split; [now right|]. split; [assumption|].
        intros E'. apply Fresh. rewrite E, <- E'. now apply in_map.
      * exists a. split; [now left|]. auto.
    + destruct (IH U' L) as [v [I [Fv N]]].
      exists v. split; [now right|]. auto.
Qed.


Section AdminFacts.
Context {platform : Platform}.
Variable cfg : config.

(** A request that passed the admin chain was made by a stored, active
    admin. *)
Lemma admin_chain_row clock hdr db user db' :
  admin_chain cfg clock hdr db = (Next user, db') ->
  db' = db
  /\ exists row, user_by_id (id user) db = Some row
                 /\ In row (users db) /\ u_id row = id user
                 /\ u_role row = admin /\ u_is_active row = true.
Proof.
  intros C. destruct (admin_chain_next cfg _ _ _ _ _ C) as [-> [A R]].
  split; [reflexivity|].
  destruct (authenticated_as_row cfg _ _ _ _ A) as [row [S [P Act]]].
  exists row. destruct (user_by_id_some _ _ _ S) as [I E].
  subst user. cbn [role id principal_of_row] in *. auto.
Qed.





End AdminFacts.





(** ** The order of the listing *)

Lemma string_compare_refl (s : string) : String.compare s s = Eq.
Proof.
  induction s as [|c s IH]; cbn; [reflexivity|].
  unfold Ascii.compare. now rewrite N.compare_refl.
Qed.

Lemma string_compare_lt_trans (x y z : string) :
  String.compare x y = Lt -> String.compare y z = Lt ->
  String.compare x z = Lt.
Proof.
  revert y z. induction x as [|a x IH]; intros [|b y] [|c z]; cbn;
    try discriminate; auto.
  unfold Ascii.compare.
  destruct (N.compare_spec (N_of_ascii a) (N_of_ascii b)) as [E1|L1|G1];
    try discriminate;
    destruct (N.compare_spec (N_of_ascii b) (N_of_ascii c)) as [E2|L2|G2];
    try discriminate; intros XY YZ.
  - rewrite E1, E2, N.compare_refl. eauto.
  - replace (N_of_ascii a ?= N_of_ascii c)%N with Lt; [reflexivity|].
    symmetry. apply N.compare_lt_iff. lia.
  - replace (N_of_ascii a ?= N_of_ascii c)%N with Lt; [reflexivity|].
    symmetry. apply N.compare_lt_iff. lia.
  - replace (N_of_ascii a ?= N_of_ascii c)%N with Lt; [reflexivity|].
    symmetry. apply N.compare_lt_iff. lia.
Qed.

Lemma sql_value_compare_antisym (a b : sql_value) :
  sql_value_compare a b = CompOpp (sql_value_compare b a).
Proof.
  destruct a, b; cbn;
    auto using String.compare_antisym, Z.compare_antisym.
Qed.

Lemma sql_value_compare_eq (a b : sql_value) :
  sql_value_compare a b = Eq <-> a = b.
Proof.
  destruct a as [m|x], b as [n|y]; cbn; split; intros E;
    try discriminate.
  - apply Z.compare_eq_iff in E. now subst.
  - inversion E; subst. apply Z.compare_refl.
  - now rewrite (String.compare_eq_iff _ _ E).
  - inversion E; subst. apply string_compare_refl.
Qed.

Lemma sql_value_compare_lt_trans (a b c : sql_value) :
  sql_value_compare a b = Lt -> sql_value_compare b c = Lt ->
  sql_value_compare a c = Lt.
Proof.
  destruct a, b, c; cbn; try discriminate; auto.
  - rewrite !Z.compare_lt_iff. lia.
  - apply string_compare_lt_trans.
Qed.

Lemma due_date_compare_antisym (a b : option sql_value) :
  due_date_compare a b = CompOpp (due_date_compare b a).
Proof.
  destruct a, b; cbn; auto using sql_value_compare_antisym.
Qed.

Lemma due_date_compare_eq (a b : option sql_value) :
  due_date_compare a b = Eq <-> a = b.
Proof.
  destruct a as [x|], b as [y|]; cbn;
    [|split; discriminate..|tauto].
  rewrite sql_value_compare_eq. split; congruence.
Qed.

Lemma due_date_compare_lt (a b : option sql_value) :
  due_date_compare a b = Lt <-> due_before a b.
Proof.
  destruct a as [x|], b as [y|]; cbn; try tauto;
    split; try discriminate; intros [].
Qed.

Lemma due_date_compare_lt_trans (a b c : option sql_value) :
  due_date_compare a b = Lt -> due_date_compare b c = Lt ->
  due_date_compare a c = Lt.
Proof.
  destruct a, b, c; cbn; try discriminate; auto.
  apply sql_value_compare_lt_trans.
Qed.

(** The comparison the ORDER BY clause makes, key by key. *)
Lemma order_by_leb_keys (a b : task_row) :
  order_by_leb a b = true
  <-> (priority_rank (t_priority a) < priority_rank (t_priority b))%Z
      \/ (priority_rank (t_priority a) = priority_rank (t_priority b)
          /\ (due_date_compare (t_due_date a) (t_due_date b) = Lt
              \/ (t_due_date a = t_due_date b
                  /\ (t_created_at b <= t_created_at a)%Z))).
Proof.
  unfold order_by_leb.
  destruct (Z.compare_spec (priority_rank (t_priority a))
                           (priority_rank (t_priority b))) as [E|L|G].
  - destruct (due_date_compare (t_due_date a) (t_due_date b)) eqn:D.
    + apply due_date_compare_eq in D. rewrite Z.leb_le. split.
      * intros C. right. split; [assumption|]. right. auto.
      * intros [L|[_ [L|[_ C]]]]; [lia | discriminate | assumption].
    + split; [intros _; right; auto | reflexivity].
    + split; [discriminate|].
      intros [L|[_ [L|[Same _]]]]; [lia | discriminate |].
      apply due_date_compare_eq in Same. congruence.
  - split; [intros _; now left | reflexivity].
  - split; [discriminate|]. intros [L|[E _]]; lia.
Qed.

Lemma order_by_leb_total (a b : task_row) :
  order_by_leb a b = true \/ order_by_leb b a = true.
Proof.
  unfold order_by_leb.
  rewrite (Z.compare_antisym (priority_rank (t_priority a))).
  rewrite (due_date_compare_antisym (t_due_date b)).
  destruct (priority_rank (t_priority a) ?= priority_rank (t_priority b))%Z;
    cbn; auto.
  destruct (due_date_compare (t_due_date a) (t_due_date b)); cbn; auto.
  rewrite !Z.leb_le. lia.
Qed.

Lemma order_by_leb_trans (a b c : task_row) :
  order_by_leb a b = true -> order_by_leb b c = true ->
  order_by_leb a c = true.
Proof.
  rewrite !order_by_leb_keys.
  intros [L1|[E1 D1]] [L2|[E2 D2]]; try (left; lia).
  right. split; [congruence|].
  destruct D1 as [D1|[S1 C1]], D2 as [D2|[S2 C2]].
  - left. eapply due_date_compare_lt_trans; eauto.
  - left. now rewrite <- S2.
  - left. now rewrite S1.
  - right. split; [congruence | lia].
Qed.

(** [listed_before] is the order the ORDER BY clause compares by. *)
Lemma order_by_leb_listed_before (a b : task_view) :
  order_by_leb (tv_row a) (tv_row b) = true <-> listed_before a b.
Proof.
  unfold listed_before. cbv zeta.
  rewrite order_by_leb_keys, due_date_compare_lt. reflexivity.
Qed.

Section Sorting.
Variable A : Type.
Variable leb : A -> A -> bool.
Hypothesis leb_total : forall a b, leb a b = true \/ leb b a = true.
Hypothesis leb_trans :
  forall a b c, leb a b = true -> leb b c = true -> leb a c = true.

Lemma insert_by_in (x z : A) (l : list A) :
  In z (insert_by leb x l) <-> z = x \/ In z l.
Proof.
  induction l as [|y l IH]; cbn.
  - intuition.
  - destruct (leb x y); cbn; [intuition|]. rewrite IH. intuition.
Qed.

Lemma insert_by_sorted (x : A) (l : list A) :
  StronglySorted (fun a b => leb a b = true) l ->
  StronglySorted (fun a b => leb a b = true) (insert_by leb x l).
Proof.
  induction 1 as [|y l S IH F]; cbn.
  - constructor; constructor.
  - destruct (leb x y) eqn:XY.
    + constructor; [now constructor|].
      constructor; [assumption|].
      apply Forall_forall. intros z I.
      apply (leb_trans _ _ _ XY).
      exact (proj1 (Forall_forall _ _) F z I).
    + constructor; [assumption|].
      apply Forall_forall. intros z I.
      apply insert_by_in in I. destruct I as [->|I].
      * destruct (leb_total x y); congruence.
      * exact (proj1 (Forall_forall _ _) F z I).
Qed.

Lemma order_by_sorted (l : list A) :
  StronglySorted (fun a b => leb a b = true) (order_by leb l).
Proof.
  induction l as [|x l IH]; cbn.
  - constructor.
  - now apply insert_by_sorted.
Qed.

Lemma insert_by_permutation (x : A) (l : list A) :
  Permutation (x :: l) (insert_by leb x l).
Proof.
  induction l as [|y l IH]; cbn; [reflexivity|].
  destruct (leb x y); [reflexivity|].
  rewrite perm_swap. now constructor.
Qed.

(** Sorting keeps the rows it is given. *)
Lemma order_by_permutation (l : list A) : Permutation l (order_by leb l).
Proof.
  induction l as [|x l IH]; cbn; [reflexivity|].
  rewrite <- insert_by_permutation. now constructor.
Qed.

End Sorting.

Lemma strongly_sorted_impl {A} (R S : A -> A -> Prop) (l : list A) :
  (forall a b, R a b -> S a b) -> StronglySorted R l -> StronglySorted S l.
Proof.
  intros RS. induction 1 as [|x l Sorted IH F]; constructor; [assumption|].
  eapply Forall_impl; [|exact F]. intros b. apply RS.
Qed.

Lemma list_query_sorted {platform : Platform} (userId : Z) (f : task_filters)
  (db : database) :
  StronglySorted listed_before (list_query userId f db).
Proof.
  unfold list_query.
  eapply strongly_sorted_impl;
    [|apply order_by_sorted].
  - intros a b. apply order_by_leb_listed_before.
  - intros a b. apply order_by_leb_total.
  - intros a b c. apply order_by_leb_trans.
Qed.

(** What the listing is sorted by. Every list of tasks GET /api/tasks
    answers with is sorted by priority rank ascending (urgent, high, medium,
    low), then by the stored due date in the engine's order with the tasks
    without a due date last, then by creation time descending: each task is
    listed before every task that follows it. *)
Lemma listTasks_sorted_as_stored {platform : Platform} (cfg : config)
  (env : environment) (hdr : option (list segment)) (f : task_filters)
  (db : database) (ts : list task_view) (n : nat) :
  payload (fst (listTasks cfg env hdr f db)) = b_tasks ts n ->
  StronglySorted listed_before ts.
Proof.
  unfold listTasks, route.
  destruct (authenticateToken_cases cfg (now env) hdr db)
    as [[u A]|[msg A]]; rewrite A; [|discriminate].
  unfold listTasks_handler, try_catch, bind, reject_if, getAll, ret, respond.
  destruct (is_nil (validate_filters f)); cbn; [|discriminate].
  intros Q. inversion Q; subst. apply list_query_sorted.
Qed.

Example busy_listing_order :
  map (fun v => t_id (tv_row v)) (list_query 1 no_filters busy_db)
  = [3; 6; 5; 4; 1; 2]%Z.
Proof. reflexivity. Qed.

(** The two requests that build [dated_db] are accepted, and their due
    dates are stored as a TEXT and as an INTEGER. *)
Example dated_db_tasks :
  map (fun t => (t_id t, t_title t, t_priority t, t_due_date t))
      (tasks dated_db)
  = [(1%Z, "Write docs", medium, None);
     (2%Z, "Sooner", medium, Some (sql_text "2024-01-10"));
     (3%Z, "Later", medium, Some (sql_integer 20240115))].
Proof. reflexivity. Qed.

(** C7 fails on the due dates. The due date of a task is kept in a column
    of declared type DATE, where a date written with digits only is stored
    as a number and sorts before every date written with dashes. Of two
    tasks of the same priority, the one due on 15 January 2024 ("20240115")
    is listed before the one due on 10 January 2024 ("2024-01-10"). *)
Theorem listTasks_due_dates_out_of_order :
  exists first second third,
    fst (listTasks (platform := dates_platform) default_config sample_env
                   (bearer_of alice) no_filters dated_db)
    = json 200 (b_tasks [first; second; third] 3)
    /\ map (fun v => (t_id (tv_row v), t_title (tv_row v)))
           [first; second; third]
       = [(3%Z, "Later"); (2%Z, "Sooner"); (1%Z, "Write docs")]
    /\ t_priority (tv_row first) = t_priority (tv_row second)
    /\ t_due_date (tv_row first) = Some (sql_integer 20240115)
    /\ t_due_date (tv_row second) = Some (sql_text "2024-01-10")
    /\ t_due_date (tv_row third) = None
    /\ option_map calendar_day (t_due_date (tv_row first))
       = Some (Some 20240115%Z)
    /\ option_map calendar_day (t_due_date (tv_row second))
       = Some (Some 20240110%Z).
Proof.
  do 3 eexists. split; [reflexivity|]. repeat split.
Qed.

(** ** From issuing to verifying, and from deactivating to refusing *)

(** The first registration on an empty database makes an admin. *)
Example first_registration_is_admin :
  status (fst (register default_config sample_env dave_body empty_database))
  = 201%Z
  /\ map u_role
         (users (snd (register default_config sample_env dave_body
                               empty_database)))
     = [admin].
Proof. split; reflexivity. Qed.

(** The token a registration answers with is accepted on the database the
    registration leaves, at any time before its expiry, as the user that
    was registered. *)
Lemma registered_token_authenticates {platform : Platform} (cfg : config)
  (env : environment) (raw : register_body) (db db' : database)
  (r : response) (clock : Z) :
  register cfg env raw db = (r, db') ->
  status r = 201%Z ->
  (clock < now env + JWT_EXPIRY cfg)%Z ->
  exists u token first p,
    payload r = b_registered "Registration successful" u token first
    /\ authenticateToken cfg clock (Some [seg_text "Bearer"; seg_jwt token])
                         db'
       = (Next p, db')
    /\ id p = uv_id u /\ username p = uv_username u /\ role p = uv_role u.
Proof.
  intros R S Fresh.
  destruct (register_created cfg env raw db db' r R S)
    as [row [_ [Look [Act [_ Pay]]]]].
  exists (user_view_of_row row). eexists. eexists.
  exists (principal_of_row row).
  split; [exact Pay|]. split; [|repeat split].
  unfold authenticateToken, bearer_token, generateToken, jwt_sign, jwt_verify.
  cbn [nth_error claims signature exp userId].
  rewrite String.eqb_refl.
  destruct (now env + JWT_EXPIRY cfg <=? clock)%Z eqn:L;
    [apply Z.leb_le in L; lia|].
  unfold bind, getOne.
  cbn [userId subject_id user_view_subject uv_id user_view_of_row].
  rewrite Look, Act. reflexivity.
Qed.

Lemma user_by_id_update_active (uid : Z) (a : bool) (db : database) :
  option_map u_is_active
    (user_by_id uid
       (set_users
          (map (fun x : user_row =>
                  if (u_id x =? uid)%Z
                  then {| u_id := u_id x; u_username := u_username x;
                          u_email := u_email x;
                          u_password_hash := u_password_hash x;
                          u_full_name := u_full_name x; u_role := u_role x;
                          u_is_active := a; u_created_at := u_created_at x |}
                  else x)
               (users db)) db))
  = option_map (fun _ => a) (user_by_id uid db).
Proof.
  unfold user_by_id. cbn [users set_users].
  induction (users db) as [|x us IH]; [reflexivity|].
  cbn [map find]. destruct (u_id x =? uid)%Z eqn:E.
  - cbn [u_id]. rewrite E. reflexivity.
  - rewrite E. exact IH.
Qed.

(** Once a toggle has answered that it deactivated a user, every token of
    that user is refused with 401, however long it still has to run and
    whatever its signature. *)
Lemma deactivation_refuses_tokens {platform : Platform} (cfg : config)
  (env : environment) (hdr : option (list segment)) (target : Z)
  (db db' : database) (r : response) (msg : string) :
  toggleActive cfg env hdr target db = (r, db') ->
  r = json 200 (b_active msg false) ->
  forall clock hdr' t,
    bearer_token hdr' = Some (seg_jwt t) ->
    userId (claims t) = target ->
    exists why,
      authenticateToken cfg clock hdr' db'
      = (Reply (json 401 (b_error why)), db').
Proof.
  unfold toggleActive, route. intros R Answer clock hdr' t Token Subject.
  destruct (admin_chain_cases cfg (now env) hdr db)
    as [[u C]|[r0 [C S0]]]; rewrite C in R;
    [|inversion R; subst; cbn in S0; lia].
  unfold toggleActive_handler, try_catch, bind, getOne, reject_if,
    runQuery, respond, ret in R.
  destruct (target =? id u)%Z; [inversion R; subst; discriminate|].
  destruct (user_by_id target db) as [stored|] eqn:T;
    [|inversion R; subst; discriminate].
  assert (Off : forall a, a = false ->
              option_map u_is_active
                (user_by_id target
                   (set_users
                      (map (fun x : user_row =>
                              if (u_id x =? target)%Z
                              then {| u_id := u_id x;
                                      u_username := u_username x;
                                      u_email := u_email x;
                                      u_password_hash := u_password_hash x;
                                      u_full_name := u_full_name x;
                                      u_role := u_role x; u_is_active := a;
                                      u_created_at := u_created_at x |}
                              else x)
                           (users db)) db))
              = Some false).
  { intros a ->. now rewrite user_by_id_update_active, T. }
  assert (Stored : option_map u_is_active (user_by_id target db')
                   = Some false).
  { destruct (u_is_active stored && global_role_eqb (u_role stored) admin);
      [destruct (active_admin_count db <=? 1)%nat;
       [inversion R; subst; discriminate|]|];
      cbn [update_user_active] in R; unfold insert_activity in R;
      (destruct (user_exists (id u) _);
       [|inversion R; subst; discriminate]);
      inversion R as [[Q1 Q2]]; rewrite Answer in Q1;
      apply Off; inversion Q1; reflexivity. }
  unfold authenticateToken. rewrite Token. unfold jwt_verify.
  destruct (signature t =? hs256 (JWT_SECRET cfg) (claims t));
    [|eexists; reflexivity].
  destruct (exp (claims t) <=? clock)%Z; [eexists; reflexivity|].
  unfold bind, getOne. rewrite Subject.
  destruct (user_by_id target db') as [row|]; [|eexists; reflexivity].
  cbn in Stored. inversion Stored as [Off']. rewrite Off'.
  eexists. reflexivity.
Qed.

(** * Further properties of the routes *)

(** ** What authentication guarantees *)

(** A request is let through exactly when the second piece of its
    Authorization header is a token signed with the service's secret, whose
    expiry is still ahead, and whose user id finds an active user in the
    store; the principal is that user's stored row. The signature is looked
    at before the expiry, the store after both. *)
Theorem authenticated_as_iff {platform : Platform} (cfg : config) (clock : Z)
  (hdr : option (list segment)) (db : database) (p : principal) :
  authenticated_as cfg clock hdr db p
  <-> exists t row,
        bearer_token hdr = Some (seg_jwt t)
        /\ signature t = hs256 (JWT_SECRET cfg) (claims t)
        /\ (clock < exp (claims t))%Z
        /\ user_by_id (userId (claims t)) db = Some row
        /\ u_is_active row = true
        /\ p = principal_of_row row.
Proof.
  unfold authenticated_as, authenticateToken. split.
  - destruct (bearer_token hdr) as [[t|s]|]; cbn; try discriminate.
    destruct (signature t =? hs256 (JWT_SECRET cfg) (claims t)) eqn:Sig;
      [|discriminate].
    destruct (exp (claims t) <=? clock)%Z eqn:Exp; [discriminate|].
    unfold bind, getOne.
    destruct (user_by_id (userId (claims t)) db) as [row|] eqn:U;
      [|discriminate].
    destruct (u_is_active row) eqn:A; cbn; [|discriminate].
    intros Q. inversion Q. exists t, row.
    apply String.eqb_eq in Sig. apply Z.leb_gt in Exp. auto 8.
  - intros [t [row [B [Sig [Exp [U [A ->]]]]]]].
    rewrite B. cbn. rewrite Sig, String.eqb_refl.
    replace (exp (claims t) <=? clock)%Z with false
      by (symmetry; apply Z.leb_gt; lia).
    unfold bind, getOne. rewrite U, A. reflexivity.
Qed.

(** A token that is expired, forged, or no token at all stops the request
    at the middleware: the answer is 401 with the message of the first
    check that fails (the signature before the expiry), and no handler
    behind the middleware runs or writes. *)
Theorem bad_token_stops_request {platform : Platform} (cfg : config)
  (clock : Z) (hdr : option (list segment)) (db : database) (t : jwt) :
  bearer_token hdr = Some (seg_jwt t) ->
  signature t <> hs256 (JWT_SECRET cfg) (claims t)
  \/ (exp (claims t) <= clock)%Z ->
  forall h,
    route (authenticateToken cfg clock hdr) h db
    = (json 401
         (b_error (if signature t =? hs256 (JWT_SECRET cfg) (claims t)
                   then "Token expired" else "Invalid token")),
       db).
Proof.
  intros B Bad h. unfold route, authenticateToken. rewrite B. cbn.
  destruct (signature t =? hs256 (JWT_SECRET cfg) (claims t)) eqn:Sig;
    [|reflexivity].
  apply String.eqb_eq in Sig. destruct Bad as [Forged|Late]; [congruence|].
  replace (exp (claims t) <=? clock)%Z with true
    by (symmetry; apply Z.leb_le; lia).
  reflexivity.
Qed.

Lemma bad_token_stops_request_witness :
  route (authenticateToken default_config (900 + 7 * 86400)
                           (bearer_of alice))
        (toggleActive_handler sample_env 2) sample_db
  = (json 401 (b_error "Token expired"), sample_db).
Proof.
  refine (bad_token_stops_request default_config (900 + 7 * 86400)
            (bearer_of alice) sample_db
            (generateToken default_config 900 alice) eq_refl (or_intror _)
            (toggleActive_handler sample_env 2)).
  cbn. lia.
Defined.

(** The admin routes refuse every authenticated user whose global role is
    not admin with 403 and write nothing: changing a role, toggling an
    activation and resetting a password. *)
Theorem admin_routes_refuse_non_admin {platform : Platform} (cfg : config)
  (env : environment) (hdr : option (list segment)) (db : database)
  (u : principal) :
  authenticated_as cfg (now env) hdr db u ->
  role u <> admin ->
  (forall userId roleText,
      updateRole cfg env hdr userId roleText db
      = (json 403 (b_insufficient [admin] (role u)), db))
  /\ (forall userId,
         toggleActive cfg env hdr userId db
         = (json 403 (b_insufficient [admin] (role u)), db))
  /\ (forall userId newPassword,
         resetPassword cfg env hdr userId newPassword db
         = (json 403 (b_insufficient [admin] (role u)), db)).
Proof.
  intros Auth NotAdmin.
  assert (C : admin_chain cfg (now env) hdr db
              = (Reply (json 403 (b_insufficient [admin] (role u))), db)).
  { unfold admin_chain, bind. rewrite (authenticated_as_run cfg _ _ _ _ Auth).
    unfold requireAdmin, requireRole.
    destruct (role u); cbn; congruence. }
  repeat split; intros;
    unfold updateRole, toggleActive, resetPassword, route; now rewrite C.
Qed.

Lemma admin_routes_refuse_non_admin_witness :
  (forall userId roleText,
      updateRole default_config sample_env (bearer_of bob) userId roleText
                 sample_db
      = (json 403 (b_insufficient [admin] member), sample_db))
  /\ (forall userId,
         toggleActive default_config sample_env (bearer_of bob) userId
                      sample_db
         = (json 403 (b_insufficient [admin] member), sample_db))
  /\ (forall userId newPassword,
         resetPassword default_config sample_env (bearer_of bob) userId
                       newPassword sample_db
         = (json 403 (b_insufficient [admin] member), sample_db)).
Proof.
  apply (admin_routes_refuse_non_admin default_config sample_env
           (bearer_of bob) sample_db (principal_of_row bob)).
  - reflexivity.
  - discriminate.
Defined.

(** ** Registration and login *)

Lemma find_exists {A} (f : A -> bool) (l : list A) (a : A) :
  In a l -> f a = true -> exists b, find f l = Some b.
Proof.
  intros I E. destruct (find f l) as [b|] eqn:F; [eauto|].
  rewrite (find_none f l F a I) in E. discriminate.
Qed.

Lemma find_unique_key {A} (key : A -> Z) (l : list A) (a : A) :
  NoDup (map key l) -> In a l ->
  find (fun x => (key x =? key a)%Z) l = Some a.
Proof.
  induction l as [|x l IH]; cbn [map find In]; intros U I; [contradiction|].
  inversion U as [|? ? Fresh U']; subst.
  destruct I as [->|I]; [now rewrite Z.eqb_refl|].
  destruct (key x =? key a)%Z eqn:E; [|auto].
  apply Z.eqb_eq in E. exfalso. apply Fresh. rewrite E. now apply in_map.
Qed.

Lemma user_by_id_of_in (db : database) (u : user_row) :
  users_pk db -> In u (users db) -> user_by_id (u_id u) db = Some u.
Proof. apply find_unique_key. Qed.

(** A registration that does not answer 201 has written nothing. *)
Lemma register_refused {platform : Platform} (cfg : config)
  (env : environment) (raw : register_body) (db db' : database)
  (r : response) :
  register cfg env raw db = (r, db') -> status r <> 201%Z -> db' = db.
Proof.
  unfold register, try_catch, bind, reject_if, getOne, respond, ret, runQuery.
  intros R S.
  destruct (is_nil (validate_register raw)); cbn [negb] in R;
    [|now inversion R].
  destruct (find _ (users db)); cbn [is_some] in R; [now inversion R|].
  destruct (insert_user _ _ _ _ _ _ db) as [[res db1]|] eqn:I;
    [|now inversion R].
  destruct (insert_user_lookup _ _ _ _ _ _ _ _ _ I)
    as [row [Us [Id [Ro [Ac Look]]]]].
  rewrite Look in R. cbn [option_map] in R.
  unfold insert_activity in R.
  cbn [uv_id user_view_of_row] in R. rewrite Id in R.
  rewrite (user_by_id_exists _ _ _ Look) in R.
  inversion R; subst. cbn in S. congruence.
Qed.

(** A valid registration that names a username or an email a stored user
    already has is refused with 409 (Conflict) and writes nothing. *)
Theorem register_conflict {platform : Platform} (cfg : config)
  (env : environment) (raw : register_body) (db : database)
  (existing : user_row) :
  validate_register raw = [] ->
  In existing (users db) ->
  u_username existing = reg_username (sanitize_register raw)
  \/ u_email existing = reg_email (sanitize_register raw) ->
  register cfg env raw db
  = (json 409 (b_error "User already exists with this username or email"),
     db).
Proof.
  intros Valid Stored Same.
  unfold register, try_catch, bind, reject_if, getOne, respond.
  rewrite Valid. cbn [is_nil negb ret].
  destruct (find_exists
              (fun u => (u_username u =? reg_username (sanitize_register raw))
                        || (u_email u =? reg_email (sanitize_register raw)))
              (users db) existing Stored) as [b F].
  { apply orb_true_iff. destruct Same as [E|E]; [left|right];
      now apply String.eqb_eq. }
  rewrite F. reflexivity.
Qed.

Lemma register_conflict_witness :
  register default_config sample_env alice_again sample_db
  = (json 409 (b_error "User already exists with this username or email"),
     sample_db).
Proof.
  apply (register_conflict default_config sample_env alice_again sample_db
           alice).
  - reflexivity.
  - left. reflexivity.
  - right. reflexivity.
Defined.

Lemma insert_user_fresh clock name mail hash fullName r db res db' :
  insert_user clock name mail hash fullName r db = Some (res, db') ->
  exists row,
    users db' = (users db ++ [row])%list
    /\ u_username row = name /\ u_email row = mail
    /\ ~ In (u_id row) (map u_id (users db))
    /\ ~ In name (map u_username (users db))
    /\ ~ In mail (map u_email (users db)).
Proof.
  unfold insert_user.
  destruct (existsb _ (users db)) eqn:Taken; [discriminate|].
  intros Q. inversion Q; subst; clear Q. cbn [users].
  eexists. split; [reflexivity|]. cbn [u_username u_email u_id].
  split; [reflexivity|]. split; [reflexivity|].
  assert (None_taken : forall u, In u (users db) ->
            u_username u <> name /\ u_email u <> mail).
  { intros u I.
    assert (E := existsb_exists
                   (fun u => (u_username u =? name) || (u_email u =? mail))
                   (users db)).
    split; intros Same;
      assert (T : existsb (fun u => (u_username u =? name)
                                    || (u_email u =? mail)) (users db) = true)
        by (apply E; exists u; split; [assumption|];
            apply orb_true_iff; rewrite !String.eqb_eq; auto);
      congruence. }
  split; [|split].
  - intros I. apply (next_rowid_above (seq_users (sequence db))) in I. lia.
  - intros I. apply in_map_iff in I. destruct I as [u [E I]].
    now destruct (None_taken u I).
  - intros I. apply in_map_iff in I. destruct I as [u [E I]].
    now destruct (None_taken u I).
Qed.

Lemma NoDup_snoc {A} (l : list A) (a : A) :
  NoDup l -> ~ In a l -> NoDup (l ++ [a]).
Proof.
  intros U F. apply NoDup_app; [assumption | repeat constructor; intros [] |].
  intros x I [<-|[]]. contradiction.
Qed.

(** Registration keeps user ids, usernames and emails unique, whatever it
    answers. *)
Theorem register_keeps_users_unique {platform : Platform} (cfg : config)
  (env : environment) (raw : register_body) (db db' : database)
  (r : response) :
  users_unique db ->
  register cfg env raw db = (r, db') ->
  users_unique db'.
Proof.
  intros [Ids [Names Mails]] R.
  destruct (Z.eq_dec (status r) 201) as [Ok|Refused];
    [|now rewrite (register_refused cfg env raw db db' r R Refused)].
  clear Ok. revert R.
  unfold register, try_catch, bind, reject_if, getOne, respond, ret, runQuery.
  intros R.
  destruct (is_nil (validate_register raw)); cbn [negb] in R;
    [|inversion R; subst; now split].
  destruct (find _ (users db)); cbn [is_some] in R;
    [inversion R; subst; now split|].
  destruct (insert_user _ _ _ _ _ _ db) as [[res db1]|] eqn:I;
    [|inversion R; subst; now split].
  destruct (insert_user_fresh _ _ _ _ _ _ _ _ _ I)
    as [row [Us [Name [Mail [FreshId [FreshName FreshMail]]]]]].
  assert (Unique1 : users_unique db1).
  { unfold users_unique. rewrite Us, !map_app. cbn [map].
    rewrite Name, Mail. repeat split; now apply NoDup_snoc. }
  assert (Same : users db' = users db1).
  { destruct (option_map user_view_of_row (user_by_id (lastID res) db1));
      [|now inversion R].
    unfold insert_activity in R.
    destruct (user_exists _ db1); inversion R; reflexivity. }
  unfold users_unique. now rewrite Same.
Qed.

Lemma register_keeps_users_unique_witness :
  users_unique (snd (register default_config sample_env dave_body sample_db)).
Proof.
  apply (register_keeps_users_unique default_config sample_env dave_body
           sample_db _
           (fst (register default_config sample_env dave_body sample_db))).
  - unfold users_unique. cbn.
    repeat split;
      repeat (constructor; [cbn; intuition discriminate|]); constructor.
  - reflexivity.
Defined.

Section LoginFacts.
Context {platform : Platform}.
Variable cfg : config.
Variable bcrypt_compare : string -> string -> bool.

(** What a login that answers with a token did: the user it found is
    stored and active, the password matched its hash, the token was issued
    for it at the time of the request, and one row was added to the
    activity log. *)
Lemma login_sent env name password db code msg p token db' :
  login cfg bcrypt_compare env name password db
  = (sent code (msg, p, token), db') ->
  exists user,
    In user (users db)
    /\ u_is_active user = true
    /\ bcrypt_compare password (u_password_hash user) = true
    /\ p = principal_of_row user
    /\ token = generateToken cfg (now env) user
    /\ code = 200%Z
    /\ users db' = users db
    /\ exists entry,
         activity_log db' = (activity_log db ++ [entry])%list
         /\ a_user_id entry = u_id user /\ a_action entry = "user_login".
Proof.
  unfold login, try_catch_as, bind, reject_if, getOne, respond, ret, runQuery.
  intros R.
  destruct (is_nil _); cbn [negb] in R; [|discriminate].
  destruct (find _ (users db)) as [user|] eqn:F; [|discriminate].
  destruct (u_is_active user) eqn:A; cbn [negb] in R; [|discriminate].
  destruct (bcrypt_compare password (u_password_hash user)) eqn:C;
    cbn [negb] in R; [|discriminate].
  unfold insert_activity in R.
  destruct (user_exists (u_id user) db); [|discriminate].
  inversion R; subst; clear R.
  exists user. destruct (find_some _ _ F) as [I _].
  repeat (split; [auto; fail|]). cbn [users activity_log].
  eexists. split; [reflexivity|]. split; reflexivity.
Qed.

(** An unknown user and a wrong password get the same answer, 401 "Invalid
    credentials", and neither writes anything: the answer does not tell
    whether the username exists. *)
Theorem login_failures_agree env name password db :
  trim name <> "" -> password <> "" ->
  find (fun u => (u_username u =? trim name) || (u_email u =? trim name))
       (users db) = None
  \/ (exists user,
        find (fun u => (u_username u =? trim name) || (u_email u =? trim name))
             (users db) = Some user
        /\ u_is_active user = true
        /\ bcrypt_compare password (u_password_hash user) = false) ->
  login cfg bcrypt_compare env name password db
  = (failed (json 401 (b_error "Invalid credentials")), db).
Proof.
  intros Name Pass Why.
  unfold login, try_catch_as, bind, reject_if, getOne, respond, ret.
  replace (trim name =? "") with false
    by (symmetry; now apply String.eqb_neq).
  replace (password =? "") with false
    by (symmetry; now apply String.eqb_neq).
  cbn [negb check app is_nil].
  destruct Why as [Unknown | [user [Found [Active Wrong]]]].
  - rewrite Unknown. reflexivity.
  - rewrite Found, Active, Wrong. reflexivity.
Qed.

(** The token of a successful login is accepted, on the database the login
    leaves and at any time before its expiry, as the user who logged in. *)
Theorem login_token_authenticates env name password db code msg p token db'
  clock :
  users_pk db ->
  login cfg bcrypt_compare env name password db
  = (sent code (msg, p, token), db') ->
  (clock < now env + JWT_EXPIRY cfg)%Z ->
  authenticateToken cfg clock (Some [seg_text "Bearer"; seg_jwt token]) db'
  = (Next p, db').
Proof.
  intros PK R Fresh.
  destruct (login_sent _ _ _ _ _ _ _ _ _ R)
    as [user [Stored [Active [_ [-> [-> [_ [Same _]]]]]]]].
  assert (Look : user_by_id (u_id user) db' = Some user).
  { unfold user_by_id. rewrite Same. now apply find_unique_key. }
  unfold authenticateToken, bearer_token, generateToken, jwt_sign, jwt_verify.
  cbn [nth_error claims signature exp userId].
  rewrite String.eqb_refl.
  destruct (now env + JWT_EXPIRY cfg <=? clock)%Z eqn:L;
    [apply Z.leb_le in L; lia|].
  unfold bind, getOne. cbn [userId subject_id user_row_subject].
  rewrite Look, Active. reflexivity.
Qed.

End LoginFacts.

Lemma sample_users_pk : users_pk sample_db.
Proof.
  unfold users_pk. cbn.
  repeat (constructor; [cbn; intuition discriminate|]). constructor.
Qed.

Lemma login_failures_agree_witness :
  login default_config sample_compare sample_env "mallory" "secret1" sample_db
  = (failed (json 401 (b_error "Invalid credentials")), sample_db)
  /\ login default_config sample_compare sample_env "alice" "wrong" sample_db
     = (failed (json 401 (b_error "Invalid credentials")), sample_db).
Proof.
  split.
  - apply (login_failures_agree default_config sample_compare sample_env
             "mallory" "secret1" sample_db);
      [discriminate | discriminate | left; reflexivity].
  - apply (login_failures_agree default_config sample_compare sample_env
             "alice" "wrong" sample_db);
      [discriminate | discriminate |].
    right. exists alice. repeat split.
Defined.

Lemma login_token_authenticates_witness :
  exists p token,
    fst (login default_config sample_compare sample_env "alice" "secret1"
               sample_db)
    = sent 200 ("Login successful", p, token)
    /\ authenticateToken default_config 2000
         (Some [seg_text "Bearer"; seg_jwt token])
         (snd (login default_config sample_compare sample_env "alice"
                     "secret1" sample_db))
       = (Next p,
          snd (login default_config sample_compare sample_env "alice"
                     "secret1" sample_db)).
Proof.
  eexists. eexists. split; [reflexivity|].
  apply (login_token_authenticates default_config sample_compare sample_env
           "alice" "secret1" sample_db 200 "Login successful" _ _ _ 2000
           sample_users_pk);
    reflexivity.
Defined.

(** ** Projects and their members *)

(** Writing the activity log leaves every table but the log as it was. *)
Lemma insert_activity_frame clock uid action entity eid details db res db' :
  insert_activity clock uid action entity eid details db = Some (res, db') ->
  users db' = users db /\ projects db' = projects db
  /\ tasks db' = tasks db /\ comments db' = comments db
  /\ project_members db' = project_members db
  /\ exists entry,
       activity_log db' = (activity_log db ++ [entry])%list
       /\ a_user_id entry = uid /\ a_action entry = action.
Proof.
  unfold insert_activity. destruct (user_exists uid db); [|discriminate].
  intros Q. inversion Q; subst. cbn.
  repeat (split; [reflexivity|]). eexists. repeat split.
Qed.

Ltac unfold_handler R :=
  unfold try_catch, try_catch_as, bind, reject_if, getOne, getAll, runQuery,
    respond, ret in R.

(** A project that was created is stored under a new id, is owned by its
    creator, and its creator holds the Membership row with role owner. *)
Theorem createProject_owner_is_member {platform : Platform} (cfg : config)
  (env : environment) (hdr : option (list segment)) (b : project_body)
  (db db' : database) (u : principal) (r : response) :
  authenticated_as cfg (now env) hdr db u ->
  createProject cfg env hdr b db = (r, db') ->
  status r = 201%Z ->
  exists p,
    payload r = b_project "Project created successfully" (Some p)
    /\ project_by_id (p_id p) db' = Some p
    /\ ~ In (p_id p) (map p_id (projects db))
    /\ p_owner_id p = id u
    /\ member_role (p_id p) (id u) db' = Some pr_owner.
Proof.
  intros Auth R S. unfold createProject, route in R.
  rewrite (authenticated_as_run cfg _ _ _ _ Auth) in R.
  unfold createProject_handler in R. unfold_handler R.
  destruct (is_nil (validate_project b)); cbn [negb] in R;
    [|inversion R; subst; discriminate].
  unfold insert_project in R.
  destruct (user_exists (id u) db) eqn:Stored;
    [|inversion R; subst; discriminate].
  cbn [lastID] in R.
  set (pid := next_rowid (seq_projects (sequence db))
                         (map p_id (projects db))) in *.
  assert (Fresh : forall x, In x (projects db) -> (p_id x =? pid)%Z = false).
  { intros x I. apply Z.eqb_neq.
    assert (L := next_rowid_above (seq_projects (sequence db))
                   (map p_id (projects db)) (p_id x) (in_map p_id _ _ I)).
    fold pid in L. lia. }
  unfold insert_member in R. cbn [project_members users] in R.
  match type of R with
  | context [if ?c then _ else _] => destruct c eqn:Member
  end; [|inversion R; subst; discriminate].
  apply andb_true_iff in Member. destruct Member as [_ NoRow].
  apply negb_true_iff in NoRow.
  unfold project_by_id in R. cbn [projects set_project_members] in R.
  rewrite (find_app_none _ _ _ Fresh) in R. cbn [find p_id] in R.
  rewrite Z.eqb_refl in R.
  unfold insert_activity in R. unfold user_exists in R, Stored.
  cbn [users set_project_members] in R.
  rewrite Stored in R. inversion R; subst; clear R.
  eexists. split; [reflexivity|]. cbn [p_id p_owner_id].
  split; [|split; [|split; [reflexivity|]]].
  - unfold project_by_id. cbn [projects].
    rewrite (find_app_none _ _ _ Fresh). cbn. now rewrite Z.eqb_refl.
  - intros I. apply in_map_iff in I. destruct I as [x [E I]].
    specialize (Fresh x I). apply Z.eqb_neq in Fresh. contradiction.
  - unfold member_role. cbn [project_members].
    rewrite find_app_none.
    + cbn. now rewrite !Z.eqb_refl.
    + intros m I. destruct (_ && _) eqn:Hit; [|reflexivity].
      assert (T : existsb (fun m => (pm_project_id m =? pid)%Z
                                    && (pm_user_id m =? id u)%Z)
                          (project_members db) = true)
        by (apply existsb_exists; eauto).
      congruence.
Qed.

Lemma createProject_owner_is_member_witness :
  exists p,
    payload (fst (createProject default_config sample_env (bearer_of carol)
                                beta_project sample_db))
    = b_project "Project created successfully" (Some p)
    /\ project_by_id (p_id p)
         (snd (createProject default_config sample_env (bearer_of carol)
                             beta_project sample_db))
       = Some p
    /\ ~ In (p_id p) (map p_id (projects sample_db))
    /\ p_owner_id p = 3%Z
    /\ member_role (p_id p) 3
         (snd (createProject default_config sample_env (bearer_of carol)
                             beta_project sample_db))
       = Some pr_owner.
Proof.
  apply (createProject_owner_is_member default_config sample_env
           (bearer_of carol) beta_project sample_db
           (snd (createProject default_config sample_env (bearer_of carol)
                               beta_project sample_db))
           (principal_of_row carol)
           (fst (createProject default_config sample_env (bearer_of carol)
                               beta_project sample_db)));
    reflexivity.
Defined.

Lemma insert_activity_members_pk clock uid action entity eid details db res db' :
  insert_activity clock uid action entity eid details db = Some (res, db') ->
  members_pk db -> members_pk db'.
Proof.
  intros I. destruct (insert_activity_frame _ _ _ _ _ _ _ _ _ I)
    as [_ [_ [_ [_ [M _]]]]].
  unfold members_pk. now rewrite M.
Qed.

Lemma insert_project_members_pk clock name description owner color db res db' :
  insert_project clock name description owner color db = Some (res, db') ->
  members_pk db -> members_pk db'.
Proof.
  unfold insert_project. destruct (user_exists owner db); [|discriminate].
  intros Q. now inversion Q.
Qed.

Lemma insert_member_members_pk clock pid uid r db res db' :
  insert_member clock pid uid r db = Some (res, db') ->
  members_pk db -> members_pk db'.
Proof.
  unfold insert_member, members_pk.
  destruct (project_exists pid db && user_exists uid db); [|discriminate].
  destruct (existsb _ (project_members db)) eqn:Row; [discriminate|].
  intros Q PK. inversion Q; subst. cbn [project_members set_project_members].
  rewrite map_app. apply NoDup_snoc; [assumption|]. cbn.
  intros I. apply in_map_iff in I. destruct I as [m [E I]].
  inversion E as [[E1 E2]].
  assert (T : existsb (fun m => (pm_project_id m =? pid)%Z
                                && (pm_user_id m =? uid)%Z)
                      (project_members db) = true).
  { apply existsb_exists. exists m. split; [assumption|].
    rewrite E1, E2, !Z.eqb_refl. reflexivity. }
  congruence.
Qed.

Lemma NoDup_map_filter {A B} (key : A -> B) (f : A -> bool) (l : list A) :
  NoDup (map key l) -> NoDup (map key (filter f l)).
Proof.
  induction l as [|a l IH]; cbn; intros U; [constructor|].
  inversion U as [|? ? Fresh U']; subst.
  destruct (f a); cbn; [|auto].
  constructor; [|auto]. intros I. apply Fresh.
  apply in_map_iff in I. destruct I as [x [E I]].
  apply filter_In in I. rewrite <- E. apply in_map. tauto.
Qed.

Lemma delete_member_members_pk pid uid db res db' :
  delete_member pid uid db = Some (res, db') ->
  members_pk db -> members_pk db'.
Proof.
  unfold delete_member, members_pk. intros Q PK. inversion Q; subst.
  cbn [project_members set_project_members]. now apply NoDup_map_filter.
Qed.

(** *** Invariants of handlers *)

Lemma keeps_ret {A} (P : database -> Prop) (a : A) : keeps P (ret a).
Proof. now intros db H. Qed.

Lemma keeps_respond {A} (P : database -> Prop) (code : Z) (b : body) :
  keeps P (@respond A code b).
Proof. now intros db H. Qed.

Lemma keeps_throw {A} (P : database -> Prop) :
  keeps P (fun db => (@Throw A, db)).
Proof. now intros db H. Qed.

Lemma keeps_reject_if (P : database -> Prop) (c : bool) (code : Z) (b : body) :
  keeps P (reject_if c code b).
Proof. destruct c; now intros db H. Qed.

Lemma keeps_getOne {A} (P : database -> Prop) (q : database -> option A) :
  keeps P (getOne q).
Proof. now intros db H. Qed.

Lemma keeps_getAll {A} (P : database -> Prop) (q : database -> list A) :
  keeps P (getAll q).
Proof. now intros db H. Qed.

Lemma keeps_runQuery (P : database -> Prop)
  (stmt : database -> option (run_result * database)) :
  (forall db res db', stmt db = Some (res, db') -> P db -> P db') ->
  keeps P (runQuery stmt).
Proof.
  intros S db H. unfold runQuery.
  destruct (stmt db) as [[res db']|] eqn:E; cbn; eauto.
Qed.

Lemma keeps_bind {A B} (P : database -> Prop) (h : handler A)
  (k : A -> handler B) :
  keeps P h -> (forall a, keeps P (k a)) -> keeps P (bind h k).
Proof.
  intros H K db Pdb. unfold bind. specialize (H db Pdb).
  destruct (h db) as [[a|r|] db1]; cbn in *; auto. now apply K.
Qed.

Lemma keeps_try_catch (P : database -> Prop) (h : handler response)
  (msg : string) (db : database) :
  keeps P h -> P db -> P (snd (try_catch h msg db)).
Proof.
  intros H Pdb. unfold try_catch. specialize (H db Pdb).
  now destruct (h db) as [[a|r|] db1].
Qed.

Lemma keeps_try_catch_as {A} (P : database -> Prop) (h : handler (Z * A))
  (msg : string) (db : database) :
  keeps P h -> P db -> P (snd (try_catch_as h msg db)).
Proof.
  intros H Pdb. unfold try_catch_as. specialize (H db Pdb).
  now destruct (h db) as [[[code a]|r|] db1].
Qed.

Lemma keeps_authenticateToken {platform : Platform} (P : database -> Prop)
  (cfg : config) (clock : Z) (hdr : option (list segment)) :
  keeps P (authenticateToken cfg clock hdr).
Proof.
  intros db H.
  destruct (authenticateToken_cases cfg clock hdr db) as [[u A]|[msg A]];
    now rewrite A.
Qed.

Lemma keeps_admin_chain {platform : Platform} (P : database -> Prop)
  (cfg : config) (clock : Z) (hdr : option (list segment)) :
  keeps P (admin_chain cfg clock hdr).
Proof.
  intros db H.
  destruct (admin_chain_cases cfg clock hdr db) as [[u A]|[r [A _]]];
    now rewrite A.
Qed.

Lemma keeps_route (P : database -> Prop) (chain : handler principal)
  (h : principal -> database -> response * database) (db : database) :
  keeps P chain -> (forall u db1, P db1 -> P (snd (h u db1))) ->
  P db -> P (snd (route chain h db)).
Proof.
  intros C H Pdb. unfold route. specialize (C db Pdb).
  destruct (chain db) as [[u|r|] db1]; cbn in *; auto.
Qed.

Lemma keeps_route_as {A} (P : database -> Prop) (chain : handler principal)
  (h : principal -> database -> answer A * database) (db : database) :
  keeps P chain -> (forall u db1, P db1 -> P (snd (h u db1))) ->
  P db -> P (snd (route_as chain h db)).
Proof.
  intros C H Pdb. unfold route_as. specialize (C db Pdb).
  destruct (chain db) as [[u|r|] db1]; cbn in *; auto.
Qed.

(** One step through the body of a handler. *)
Ltac keeps_step :=
  match goal with
  | |- keeps _ (bind _ _) => apply keeps_bind; [|intros ?]
  | |- keeps _ (ret _) => apply keeps_ret
  | |- keeps _ (respond _ _) => apply keeps_respond
  | |- keeps _ (reject_if _ _ _) => apply keeps_reject_if
  | |- keeps _ (getOne _) => apply keeps_getOne
  | |- keeps _ (getAll _) => apply keeps_getAll
  | |- keeps _ (runQuery _) => apply keeps_runQuery; intros ? ? ?
  | |- keeps _ (fun db => (Throw, db)) => apply keeps_throw
  | |- keeps _ (authenticateToken _ _ _) => apply keeps_authenticateToken
  | |- keeps _ (admin_chain _ _ _) => apply keeps_admin_chain
  | |- keeps _ (match ?x with _ => _ end) => destruct x
  end.

(** Through a whole route, leaving the statements to [tac]. *)
Ltac keeps_route_with tac :=
  first [apply keeps_route | apply keeps_route_as];
  [keeps_step | intros ? ? ?; first [apply keeps_try_catch
                                    | apply keeps_try_catch_as];
                [cbv zeta; repeat (keeps_step; cbv zeta); tac | assumption]
  | assumption].

(** No route that writes Membership rows ever stores two rows for the same
    project and user: creating a project, adding a member and removing one
    keep the primary key, whatever they answer. *)
Theorem membership_key_kept {platform : Platform} (cfg : config)
  (env : environment) (hdr : option (list segment)) (db : database) :
  members_pk db ->
  (forall b, members_pk (snd (createProject cfg env hdr b db)))
  /\ (forall pid uid roleText,
         members_pk (snd (addMember cfg env hdr pid uid roleText db)))
  /\ (forall pid uid, members_pk (snd (removeMember cfg env hdr pid uid db))).
Proof.
  intros PK. split; [|split]; intros.
  - unfold createProject, createProject_handler.
    keeps_route_with
      ltac:(eauto using insert_activity_members_pk, insert_project_members_pk,
              insert_member_members_pk).
  - unfold addMember, addMember_handler.
    keeps_route_with
      ltac:(eauto using insert_activity_members_pk, insert_member_members_pk).
  - unfold removeMember, removeMember_handler.
    keeps_route_with
      ltac:(eauto using insert_activity_members_pk, delete_member_members_pk).
Qed.

Lemma sample_members_pk : members_pk sample_db.
Proof.
  unfold members_pk. cbn.
  repeat (constructor; [cbn; intuition congruence|]). constructor.
Qed.

Lemma membership_key_kept_witness :
  members_pk
    (snd (addMember default_config sample_env (bearer_of alice) 1 2 None
                    sample_db))
  /\ is_member
       (snd (addMember default_config sample_env (bearer_of alice) 1 2 None
                       sample_db)) 1 2.
Proof.
  split.
  - apply (membership_key_kept default_config sample_env (bearer_of alice)
             sample_db sample_members_pk).
  - eexists. split; [right; right; left; reflexivity|]. split; reflexivity.
Defined.

Lemma update_project_keys pid name description st color db res db' :
  update_project pid name description st color db = Some (res, db') ->
  map (fun p => (p_id p, p_owner_id p, p_created_at p)) (projects db')
  = map (fun p => (p_id p, p_owner_id p, p_created_at p)) (projects db).
Proof.
  unfold update_project. intros Q. inversion Q; subst. cbn [projects].
  rewrite map_map. apply map_ext. intros p.
  now destruct (p_id p =? pid)%Z.
Qed.

Section ProjectFacts.
Context {platform : Platform}.
Variable cfg : config.

(** Only the owner of a project and its members with role owner or admin
    may add members: any other authenticated user is refused with 403 and
    nothing is written. *)
Theorem addMember_needs_project_admin env hdr db u projectId project newId
  roleText :
  authenticated_as cfg (now env) hdr db u ->
  optional (fun s => is_some (member_role_of_string s)) roleText = true ->
  project_by_id projectId db = Some project ->
  p_owner_id project <> id u ->
  not_project_admin (member_role projectId (id u) db) = true ->
  addMember cfg env hdr projectId newId roleText db
  = (failed (json 403 (b_error "Permission denied")), db).
Proof.
  intros Auth Valid Found NotOwner Plain.
  unfold addMember, route_as.
  rewrite (authenticated_as_run cfg _ _ _ _ Auth).
  unfold addMember_handler, try_catch_as, bind, reject_if, getOne, respond.
  rewrite Valid. cbn [check is_nil negb ret].
  assert (Role : exists r, match roleText with
                           | Some s => member_role_of_string s
                           | None => Some pr_member
                           end = Some r).
  { destruct roleText as [s|]; cbn in Valid; [|eauto].
    destruct (member_role_of_string s); [eauto | discriminate]. }
  destruct Role as [r Role]. rewrite Role, Found, Plain.
  replace (p_owner_id project =? id u)%Z with false
    by (symmetry; now apply Z.eqb_neq).
  reflexivity.
Qed.

(** A member that was added was not a member before, holds afterwards the
    role the answer names, and that role is never owner. *)
Theorem addMember_grants_role env hdr db db' projectId newId roleText code
  msg mv :
  addMember cfg env hdr projectId newId roleText db
  = (sent code (msg, mv), db') ->
  member_role projectId newId db = None
  /\ member_role projectId newId db' = Some (mv_role mv)
  /\ mv_role mv <> pr_owner
  /\ mv_id mv = newId
  /\ user_exists newId db = true.
Proof.
  unfold addMember, route_as. intros R.
  destruct (authenticateToken_cases cfg (now env) hdr db)
    as [[u A]|[m A]]; rewrite A in R; [|discriminate].
  unfold addMember_handler in R. unfold_handler R.
  destruct (is_nil _) eqn:Valid; cbn [negb] in R; [|discriminate].
  destruct (match roleText with
            | Some s => member_role_of_string s
            | None => Some pr_member
            end) as [r|] eqn:Role; [|discriminate].
  destruct (project_by_id projectId db) as [project|]; [|discriminate].
  destruct (negb _ && _); [discriminate|].
  destruct (user_by_id newId db) as [newMember|] eqn:New; [|discriminate].
  destruct (member_role projectId newId db) eqn:Existing;
    cbn [is_some] in R; [discriminate|].
  unfold insert_member in R.
  destruct (project_exists projectId db && user_exists newId db
            && negb _) eqn:Ok; [|discriminate].
  unfold insert_activity in R.
  destruct (user_exists (id u) _); [|discriminate].
  inversion R; subst; clear R. cbn [mv_role mv_id].
  split; [reflexivity|]. split; [|split; [|split]].
  - unfold member_role in *. cbn [project_members set_project_members].
    destruct (find _ (project_members db)) eqn:F; [discriminate|].
    rewrite find_app_none.
    + cbn. now rewrite !Z.eqb_refl.
    + intros x I. apply (find_none _ _ F x I).
  - destruct roleText as [s|]; [|inversion Role; discriminate].
    unfold member_role_of_string in Role.
    destruct (s =? "admin"); [inversion Role; discriminate|].
    destruct (s =? "member"); [inversion Role; discriminate|].
    destruct (s =? "viewer"); [inversion Role; discriminate|discriminate].
  - now destruct (user_by_id_some _ _ _ New).
  - eapply user_by_id_exists; eassumption.
Qed.

(** Editing a project never changes the id, the owner or the creation time
    of any project, and adds or removes none, whatever the request and
    whatever the answer: the owner of a project is fixed at creation. *)
Theorem updateProject_keeps_owner stringify env hdr projectId raw db :
  map (fun p => (p_id p, p_owner_id p, p_created_at p))
      (projects (snd (updateProject cfg stringify env hdr projectId raw db)))
  = map (fun p => (p_id p, p_owner_id p, p_created_at p)) (projects db).
Proof.
  set (P := fun d : database =>
              map (fun p => (p_id p, p_owner_id p, p_created_at p))
                  (projects d)
              = map (fun p => (p_id p, p_owner_id p, p_created_at p))
                    (projects db)).
  change (P (snd (updateProject cfg stringify env hdr projectId raw db))).
  assert (Start : P db) by reflexivity.
  unfold updateProject, updateProject_handler.
  keeps_route_with
    ltac:(intros E Pd; unfold P in *;
          first [ rewrite (update_project_keys _ _ _ _ _ _ _ _ E)
                | destruct (insert_activity_frame _ _ _ _ _ _ _ _ _ E)
                    as [_ [Same _]]; rewrite Same ];
          exact Pd).
Qed.

End ProjectFacts.

(** carol, a plain member of project 1, tries to add bob. *)
Lemma addMember_needs_project_admin_witness :
  addMember default_config sample_env (bearer_of carol) 1 2 None sample_db
  = (failed (json 403 (b_error "Permission denied")), sample_db).
Proof.
  apply (addMember_needs_project_admin default_config sample_env
           (bearer_of carol) sample_db (principal_of_row carol) 1 launch 2
           None);
    try reflexivity.
  discriminate.
Defined.

(** alice, the owner of project 1, adds bob as a viewer. *)
Lemma addMember_grants_role_witness :
  member_role 1 2 sample_db = None
  /\ member_role 1 2
       (snd (addMember default_config sample_env (bearer_of alice) 1 2
                       (Some "viewer") sample_db))
     = Some pr_viewer
  /\ pr_viewer <> pr_owner
  /\ 2%Z = 2%Z
  /\ user_exists 2 sample_db = true.
Proof.
  apply (addMember_grants_role default_config sample_env (bearer_of alice)
           sample_db
           (snd (addMember default_config sample_env (bearer_of alice) 1 2
                           (Some "viewer") sample_db))
           1 2 (Some "viewer") 201 "Member added successfully"
           {| mv_id := 2; mv_username := "bob"; mv_full_name := "Bob B";
              mv_role := pr_viewer |}).
  reflexivity.
Defined.

Section DeleteProjectFacts.
Context {platform : Platform}.
Variable cfg : config.

(** Deleting a project is for its owner and for global admins only: any
    other authenticated user, a project admin included, is refused with
    403 and nothing is written. *)
Theorem deleteProject_owner_or_admin_only env hdr db u projectId project :
  authenticated_as cfg (now env) hdr db u ->
  project_by_id projectId db = Some project ->
  p_owner_id project <> id u ->
  role u <> admin ->
  deleteProject cfg env hdr projectId db
  = (json 403 (b_error "Only project owner can delete project"), db).
Proof.
  intros Auth Found NotOwner NotAdmin.
  unfold deleteProject, route.
  rewrite (authenticated_as_run cfg _ _ _ _ Auth).
  unfold deleteProject_handler, try_catch, bind, reject_if, getOne, respond.
  rewrite Found.
  replace (p_owner_id project =? id u)%Z with false
    by (symmetry; now apply Z.eqb_neq).
  replace (global_role_eqb (role u) admin) with false
    by (destruct (role u); cbn; congruence).
  reflexivity.
Qed.

(** A project that was deleted takes with it its tasks, its Membership
    rows and the comments of its tasks; the tasks of the other projects
    stay. *)
Theorem deleteProject_cascades env hdr db db' projectId r :
  deleteProject cfg env hdr projectId db = (r, db') ->
  status r = 200%Z ->
  project_by_id projectId db' = None
  /\ (forall t, In t (tasks db') -> t_project_id t <> projectId)
  /\ (forall m, In m (project_members db') -> pm_project_id m <> projectId)
  /\ (forall c t, In c (comments db') -> In t (tasks db) ->
                  t_project_id t = projectId -> c_task_id c <> t_id t)
  /\ (forall t, In t (tasks db) -> t_project_id t <> projectId ->
                In t (tasks db')).
Proof.
  unfold deleteProject, route. intros R S.
  destruct (authenticateToken_cases cfg (now env) hdr db)
    as [[u A]|[m A]]; rewrite A in R; [|inversion R; subst; discriminate].
  unfold deleteProject_handler in R. unfold_handler R.
  destruct (project_by_id projectId db) as [project|];
    [|inversion R; subst; discriminate].
  destruct (negb _ && negb _); [inversion R; subst; discriminate|].
  destruct (insert_activity _ _ _ _ _ _ db) as [[res db1]|] eqn:L;
    [|inversion R; subst; discriminate].
  destruct (insert_activity_frame _ _ _ _ _ _ _ _ _ L)
    as [_ [Ps [Ts [Cs [Ms _]]]]].
  unfold delete_project in R. inversion R; subst; clear R.
  cbn [projects tasks comments project_members].
  rewrite ?Ps, ?Ts, ?Cs, ?Ms.
  split; [|split; [|split; [|split]]].
  - unfold project_by_id. cbn [projects]. rewrite ?Ps.
    destruct (find _ (filter _ (projects db))) as [p|] eqn:F; [|reflexivity].
    apply find_some in F. destruct F as [I E].
    apply filter_In in I. destruct I as [_ N]. rewrite E in N. discriminate.
  - intros t I. apply filter_In in I. destruct I as [_ N].
    apply negb_true_iff, Z.eqb_neq in N. exact N.
  - intros m0 I. apply filter_In in I. destruct I as [_ N].
    apply negb_true_iff, Z.eqb_neq in N. exact N.
  - intros c t I It Gone Same. apply filter_In in I. destruct I as [_ N].
    apply negb_true_iff in N.
    assert (T : existsb (fun t => (t_project_id t =? projectId)%Z
                                  && (t_id t =? c_task_id c)%Z)
                        (tasks db) = true).
    { apply existsb_exists. exists t. split; [assumption|].
      rewrite Gone, Same, !Z.eqb_refl. reflexivity. }
    congruence.
  - intros t I N. apply filter_In. split; [assumption|].
    now apply negb_true_iff, Z.eqb_neq.
Qed.

End DeleteProjectFacts.

(** carol is a member of project 1, not its owner, and no global admin. *)
Lemma deleteProject_owner_or_admin_only_witness :
  deleteProject default_config sample_env (bearer_of carol) 1 sample_db
  = (json 403 (b_error "Only project owner can delete project"), sample_db).
Proof.
  apply (deleteProject_owner_or_admin_only default_config sample_env
           (bearer_of carol) sample_db (principal_of_row carol) 1 launch);
    try reflexivity; discriminate.
Defined.

Lemma deleteProject_cascades_witness :
  project_by_id 1
    (snd (deleteProject default_config sample_env (bearer_of alice) 1
                        busy_db))
  = None
  /\ tasks (snd (deleteProject default_config sample_env (bearer_of alice) 1
                               busy_db))
     = []
  /\ project_members
       (snd (deleteProject default_config sample_env (bearer_of alice) 1
                           busy_db))
     = [].
Proof.
  assert (Run : deleteProject default_config sample_env (bearer_of alice) 1
                              busy_db
                = (fst (deleteProject default_config sample_env
                                      (bearer_of alice) 1 busy_db),
                   snd (deleteProject default_config sample_env
                                      (bearer_of alice) 1 busy_db)))
    by reflexivity.
  destruct (deleteProject_cascades default_config sample_env
              (bearer_of alice) busy_db _ 1 _ Run eq_refl) as [Gone _].
  split; [exact Gone|]. split; reflexivity.
Defined.

(** ** Tasks and comments *)

Lemma task_by_id_some (tid : Z) (db : database) (t : task_row) :
  task_by_id tid db = Some t -> In t (tasks db) /\ t_id t = tid.
Proof.
  unfold task_by_id. intros E. apply find_some in E.
  destruct E as [I E]. apply Z.eqb_eq in E. auto.
Qed.

(** Authentication reads the user store only. *)
Lemma authenticateToken_same_users {platform : Platform} (cfg : config)
  (clock : Z) (hdr : option (list segment)) (db db' : database)
  (u : principal) :
  users db' = users db ->
  authenticated_as cfg clock hdr db u ->
  authenticated_as cfg clock hdr db' u.
Proof.
  unfold authenticated_as, authenticateToken. intros Same.
  destruct (bearer_token hdr) as [token|]; [|auto].
  destruct (jwt_verify token (JWT_SECRET cfg) clock) as [[|]|decoded]; auto.
  unfold bind, getOne, user_by_id. rewrite Same.
  destruct (find _ (users db)) as [row|]; [|auto].
  destruct (negb (u_is_active row)); auto.
Qed.

Section TaskDeletion.
Context {platform : Platform}.
Variable cfg : config.

(** A task that was deleted is gone together with its comments; every
    other task and every comment of another task stays. *)
Theorem deleteTask_removes env hdr db db' taskId r :
  deleteTask cfg env hdr taskId db = (r, db') ->
  status r = 200%Z ->
  task_by_id taskId db' = None
  /\ (forall c, In c (comments db') -> c_task_id c <> taskId)
  /\ (forall t, In t (tasks db) -> t_id t <> taskId -> In t (tasks db'))
  /\ (forall c, In c (comments db) -> c_task_id c <> taskId ->
                In c (comments db')).
Proof.
  unfold deleteTask, route. intros R S.
  destruct (authenticateToken_cases cfg (now env) hdr db)
    as [[u A]|[m A]]; rewrite A in R; [|inversion R; subst; discriminate].
  unfold deleteTask_handler in R. unfold_handler R.
  destruct (task_by_id taskId db) as [task|];
    [|inversion R; subst; discriminate].
  destruct (negb _); [inversion R; subst; discriminate|].
  destruct (insert_activity _ _ _ _ _ _ db) as [[res db1]|] eqn:L;
    [|inversion R; subst; discriminate].
  destruct (insert_activity_frame _ _ _ _ _ _ _ _ _ L)
    as [_ [_ [Ts [Cs _]]]].
  unfold delete_task in R. inversion R; subst; clear R.
  cbn [tasks comments]. rewrite ?Ts, ?Cs.
  split; [|split; [|split]].
  - unfold task_by_id. cbn [tasks]. rewrite ?Ts.
    destruct (find _ (filter _ (tasks db))) as [t|] eqn:F; [|reflexivity].
    apply find_some in F. destruct F as [I E].
    apply filter_In in I. destruct I as [_ N]. rewrite E in N. discriminate.
  - intros c I. apply filter_In in I. destruct I as [_ N].
    apply negb_true_iff, Z.eqb_neq in N. exact N.
  - intros t I N. apply filter_In. split; [assumption|].
    now apply negb_true_iff, Z.eqb_neq.
  - intros c I N. apply filter_In. split; [assumption|].
    now apply negb_true_iff, Z.eqb_neq.
Qed.

(** Deleting a task needs a stake in it: a user who neither created the
    task nor is its assignee, does not own its project and holds no
    Membership row with role owner or admin for it, is refused with 403 and
    nothing is written. Plain members and viewers are among them. *)
Theorem deleteTask_needs_stake env hdr db u taskId task :
  authenticated_as cfg (now env) hdr db u ->
  task_by_id taskId db = Some task ->
  (forall t, In t (tasks db) -> t_id t = taskId ->
             t_created_by t <> id u /\ t_assigned_to t <> Some (id u)) ->
  ~ is_owner db (t_project_id task) (id u) ->
  (forall m, In m (project_members db) ->
             pm_project_id m = t_project_id task -> pm_user_id m = id u ->
             pm_role m = pr_member \/ pm_role m = pr_viewer) ->
  deleteTask cfg env hdr taskId db
  = (json 403 (b_error "Permission denied"), db).
Proof.
  intros Auth Found NoStake NotOwner Plain.
  assert (Denied : delete_permission_row taskId (id u) (t_project_id task) db
                   = None).
  { unfold delete_permission_row.
    replace (existsb _ (tasks db)) with false.
    2:{ symmetry. apply not_true_is_false. intros T.
        apply existsb_exists in T. destruct T as [t [I E]].
        apply andb_true_iff in E. destruct E as [E1 E2].
        apply Z.eqb_eq in E1. destruct (NoStake t I E1) as [N1 N2].
        apply orb_true_iff in E2. destruct E2 as [E2|E2].
        - apply Z.eqb_eq in E2. contradiction.
        - destruct (t_assigned_to t) as [a|]; [|discriminate].
          apply Z.eqb_eq in E2. congruence. }
    replace (existsb _ (project_members db)) with false.
    2:{ symmetry. apply not_true_is_false. intros T.
        apply existsb_exists in T. destruct T as [m [I E]].
        apply andb_true_iff in E. destruct E as [E E3].
        apply andb_true_iff in E. destruct E as [E1 E2].
        apply Z.eqb_eq in E1. apply Z.eqb_eq in E2.
        destruct (Plain m I E1 E2) as [R|R]; rewrite R in E3; discriminate. }
    replace (existsb _ (projects db)) with false; [reflexivity|].
    symmetry. apply not_true_is_false. intros T.
    apply existsb_exists in T. destruct T as [p [I E]].
    apply andb_true_iff in E. destruct E as [E1 E2].
    apply Z.eqb_eq in E1. apply Z.eqb_eq in E2.
    apply NotOwner. exists p. auto. }
  unfold deleteTask, route.
  rewrite (authenticated_as_run cfg _ _ _ _ Auth).
  unfold deleteTask_handler, try_catch, bind, reject_if, getOne, respond.
  rewrite Found, Denied. reflexivity.
Qed.

(** Whoever created a task, and whoever it is assigned to, can delete it,
    with or without access to its project. *)
Theorem deleteTask_by_creator_or_assignee env hdr db u taskId task :
  authenticated_as cfg (now env) hdr db u ->
  task_by_id taskId db = Some task ->
  t_created_by task = id u \/ t_assigned_to task = Some (id u) ->
  exists db',
    deleteTask cfg env hdr taskId db
    = (json 200 (b_message "Task deleted successfully"), db')
    /\ task_by_id taskId db' = None.
Proof.
  intros Auth Found Stake.
  destruct (authenticated_as_row cfg _ _ _ _ Auth) as [row [Stored _]].
  apply user_by_id_exists in Stored.
  destruct (task_by_id_some _ _ _ Found) as [In_task Id].
  assert (Granted : delete_permission_row taskId (id u) (t_project_id task) db
                    = Some tt).
  { unfold delete_permission_row.
    replace (existsb _ (tasks db)) with true; [reflexivity|].
    symmetry. apply existsb_exists. exists task. split; [assumption|].
    rewrite Id, Z.eqb_refl. cbn [andb].
    destruct Stake as [E|E]; rewrite E.
    - now rewrite Z.eqb_refl.
    - rewrite Z.eqb_refl. apply orb_true_r. }
  unfold deleteTask, route.
  rewrite (authenticated_as_run cfg _ _ _ _ Auth).
  unfold deleteTask_handler, try_catch, bind, reject_if, getOne, respond,
    runQuery, ret.
  rewrite Found, Granted. cbn [is_some negb].
  unfold insert_activity. rewrite Stored. cbn [delete_task].
  eexists. split; [reflexivity|].
  unfold task_by_id. cbn [tasks].
  destruct (find _ (filter _ (tasks db))) as [t|] eqn:F; [|reflexivity].
  apply find_some in F. destruct F as [I E].
  apply filter_In in I. destruct I as [_ N]. rewrite E in N. discriminate.
Qed.

End TaskDeletion.

Lemma order_by_in {A} (leb : A -> A -> bool) (l : list A) (a : A) :
  In a (order_by leb l) <-> In a l.
Proof.
  induction l as [|x l IH]; cbn; [tauto|].
  rewrite insert_by_in, IH. intuition.
Qed.

Lemma task_by_id_update_other (clock tid other : Z) (u : task_updates)
  (db : database) :
  other <> tid ->
  task_by_id other
    (set_tasks (map (fun t => if (t_id t =? tid)%Z
                              then apply_updates clock u t else t)
                    (tasks db)) db)
  = task_by_id other db.
Proof.
  intros N. unfold task_by_id. cbn [tasks set_tasks].
  induction (tasks db) as [|t ts IH]; [reflexivity|].
  cbn [map find]. destruct (t_id t =? tid)%Z eqn:Hit.
  - cbn [apply_updates t_id].
    replace (t_id t =? other)%Z with false; [exact IH|].
    symmetry. apply Z.eqb_neq. apply Z.eqb_eq in Hit. congruence.
  - destruct (t_id t =? other)%Z; [reflexivity | exact IH].
Qed.

Lemma project_exists_find (pid : Z) (db : database) :
  project_exists pid db = true -> exists p, project_by_id pid db = Some p.
Proof.
  unfold project_exists, project_by_id. intros E.
  apply existsb_exists in E. destruct E as [p [I E]].
  now apply (find_exists _ _ p).
Qed.

(** The row [insert_task] adds is the one its [lastID] finds again, under
    an id no stored task has. *)
Lemma insert_task_lookup clock title description pid who creator st pr due
  db res db1 :
  insert_task clock title description pid who creator st pr due db
  = Some (res, db1) ->
  let row := {| t_id := lastID res; t_title := title;
                t_description := description; t_project_id := pid;
                t_assigned_to := who; t_created_by := creator;
                t_status := st; t_priority := pr;
                t_due_date := option_map numeric_affinity due;
                t_completed_at := None; t_created_at := clock |} in
  tasks db1 = (tasks db ++ [row])%list
  /\ task_by_id (lastID res) db1 = Some row
  /\ ~ In (lastID res) (map t_id (tasks db))
  /\ users db1 = users db /\ projects db1 = projects db
  /\ project_members db1 = project_members db
  /\ project_exists pid db = true /\ user_exists creator db = true.
Proof.
  unfold insert_task.
  destruct (project_exists pid db) eqn:P; [|discriminate].
  destruct (opt_user_exists who db); [|discriminate].
  destruct (user_exists creator db) eqn:U; [|discriminate].
  intros Q. inversion Q; subst; clear Q.
  cbn [lastID tasks users projects project_members].
  assert (Fresh : ~ In (next_rowid (seq_tasks (sequence db))
                                   (map t_id (tasks db)))
                       (map t_id (tasks db))).
  { intros I. apply (next_rowid_above (seq_tasks (sequence db))) in I. lia. }
  split; [reflexivity|]. split; [|auto 8].
  unfold task_by_id. cbn [tasks]. rewrite find_app_none.
  - cbn [find t_id]. now rewrite Z.eqb_refl.
  - intros x I. apply Z.eqb_neq. intros E. apply Fresh. rewrite <- E.
    now apply in_map.
Qed.

Section TaskWriting.
Context {platform : Platform}.
Variable cfg : config.

(** A comment that was added is read back: it is stored for the task under
    the author's id with the trimmed content, and the next read of the task
    by the same caller lists it. *)
Theorem addComment_then_getTask env hdr db db' u taskId raw code msg comment
  view :
  authenticated_as cfg (now env) hdr db u ->
  task_view_by_id taskId db = Some view ->
  addComment cfg env hdr taskId raw db = (sent code (msg, comment), db') ->
  exists c,
    comment = Some c
    /\ c_task_id c = taskId /\ c_user_id c = id u /\ c_content c = trim raw
    /\ exists view' cs,
         getTask cfg env hdr taskId db'
         = (json 200 (b_task_detail view' cs), db')
         /\ In c cs.
Proof.
  intros Auth View R. unfold addComment, route_as in R.
  rewrite (authenticated_as_run cfg _ _ _ _ Auth) in R.
  unfold addComment_handler in R. unfold_handler R.
  destruct (is_nil _); cbn [negb] in R; [|discriminate].
  destruct (task_by_id taskId db) as [task|] eqn:Found; [|discriminate].
  destruct (access_row (t_project_id task) (id u) db) as [[]|] eqn:Access;
    cbn [is_some negb] in R; [|discriminate].
  unfold insert_comment in R.
  destruct (existsb _ (tasks db) && user_exists (id u) db) eqn:Fk;
    [|discriminate].
  apply andb_true_iff in Fk. destruct Fk as [_ Stored].
  cbn [lastID] in R.
  set (cid := next_rowid (seq_comments (sequence db))
                         (map c_id (comments db))) in *.
  set (row := {| c_id := cid; c_task_id := taskId; c_user_id := id u;
                 c_content := trim raw; c_created_at := now env |}) in *.
  assert (Fresh : forall x, In x (comments db) -> (c_id x =? cid)%Z = false).
  { intros x I. apply Z.eqb_neq.
    assert (L := next_rowid_above (seq_comments (sequence db))
                   (map c_id (comments db)) (c_id x) (in_map c_id _ _ I)).
    fold cid in L. lia. }
  unfold comment_by_id, insert_activity, user_exists in R.
  cbn [comments users] in R. unfold user_exists in Stored.
  rewrite find_app_none in R.
  2:{ intros x I. now rewrite (Fresh x I). }
  cbn [find c_id c_user_id row] in R. rewrite Z.eqb_refl, Stored in R.
  cbn [andb] in R. inversion R; subst; clear R.
  exists row. split; [reflexivity|]. repeat (split; [reflexivity|]).
  match goal with
  | |- exists _ _, getTask _ _ _ _ ?d = _ /\ _ => set (db' := d)
  end.
  assert (Auth' : authenticated_as cfg (now env) hdr db' u)
    by (apply (authenticateToken_same_users cfg _ _ db); [reflexivity | exact Auth]).
  unfold getTask, route. rewrite (authenticated_as_run cfg _ _ _ _ Auth').
  unfold getTask_handler, try_catch, bind, getOne, getAll, reject_if, ret.
  change (task_view_by_id taskId db') with (task_view_by_id taskId db).
  rewrite View.
  assert (Same : t_project_id (tv_row view) = t_project_id task).
  { unfold task_view_by_id in View. rewrite Found in View.
    unfold join_task in View.
    destruct (project_by_id (t_project_id task) db); [|discriminate].
    now inversion View. }
  change (access_row (t_project_id (tv_row view)) (id u) db')
    with (access_row (t_project_id (tv_row view)) (id u) db).
  rewrite Same, Access. cbn [is_some negb].
  eexists. eexists. split; [reflexivity|].
  unfold comments_query. apply order_by_in. apply filter_In. split.
  - cbn [comments db']. apply in_or_app. right. now left.
  - cbn [c_task_id c_user_id row]. rewrite Z.eqb_refl. exact Stored.
Qed.

(** A task that was created is stored under a new id with the caller as
    its creator, in the project the request names, a project the caller
    has access to; if it has an assignee, the assignee owns that project or
    is a member of it. *)
Theorem createTask_stores env hdr db db' u b r :
  authenticated_as cfg (now env) hdr db u ->
  createTask cfg env hdr b db = (r, db') ->
  status r = 201%Z ->
  exists view,
    payload r = b_task "Task created successfully" (Some view)
    /\ task_by_id (t_id (tv_row view)) db' = Some (tv_row view)
    /\ ~ In (t_id (tv_row view)) (map t_id (tasks db))
    /\ t_created_by (tv_row view) = id u
    /\ t_project_id (tv_row view) = tb_projectId b
    /\ t_title (tv_row view) = trim (tb_title b)
    /\ (is_member db (tb_projectId b) (id u)
        \/ is_owner db (tb_projectId b) (id u))
    /\ (forall a, t_assigned_to (tv_row view) = Some a ->
                  is_member db (tb_projectId b) a
                  \/ is_owner db (tb_projectId b) a).
Proof.
  intros Auth R S. unfold createTask, route in R.
  rewrite (authenticated_as_run cfg _ _ _ _ Auth) in R.
  unfold createTask_handler in R. unfold_handler R. cbv zeta in R.
  destruct (is_nil (validate_task b)); cbn [negb] in R;
    [|inversion R; subst; discriminate].
  destruct (match tb_priority b with
            | Some s => task_priority_of_string s
            | None => Some medium
            end) as [pr|]; [|inversion R; subst; discriminate].
  destruct (match tb_status b with
            | Some s => task_status_of_string s
            | None => Some todo
            end) as [st|]; [|inversion R; subst; discriminate].
  destruct (access_row (tb_projectId b) (id u) db) as [[]|] eqn:Access;
    cbn [is_some negb] in R; [|inversion R; subst; discriminate].
  apply access_row_some in Access.
  destruct (number_or_null (tb_assignedTo b)) as [a|] eqn:Who;
    [destruct (access_row (tb_projectId b) a db) as [[]|] eqn:AccessA;
     cbn [is_some negb] in R; [|inversion R; subst; discriminate]|];
    (destruct (insert_task _ _ _ _ _ _ _ _ _ db) as [[res db1]|] eqn:I;
     [|inversion R; subst; discriminate];
     destruct (insert_task_lookup _ _ _ _ _ _ _ _ _ _ _ _ I)
       as [Ts [Look [Fresh [Us [Ps [_ [Project Creator]]]]]]];
     destruct (project_exists_find _ _ Project) as [p Found];
     unfold task_view_by_id in R; rewrite Look in R;
     unfold join_task, project_by_id in R; cbn [t_project_id] in R;
     rewrite Ps in R; unfold project_by_id in Found; rewrite Found in R;
     unfold insert_activity, user_exists in R; rewrite Us in R;
     unfold user_exists in Creator; rewrite Creator in R;
     inversion R; subst; clear R;
     eexists; split; [reflexivity|]; cbn [tv_row t_id t_created_by
       t_project_id t_title t_assigned_to];
     split; [exact Look|]; split; [exact Fresh|];
     repeat (split; [reflexivity|]); split; [exact Access|];
     intros a' E; inversion E; subst;
     now apply access_row_some).
Qed.

(** An update that names no field is refused with 400 "No fields to
    update" and writes nothing. *)
Theorem updateTask_without_fields env hdr db u taskId task b :
  authenticated_as cfg (now env) hdr db u ->
  task_by_id taskId db = Some task ->
  access_row (t_project_id task) (id u) db = Some tt ->
  ub_title b = None -> ub_description b = None -> ub_assignedTo b = None ->
  ub_priority b = None -> ub_status b = None -> ub_dueDate b = None ->
  updateTask cfg env hdr taskId b db
  = (json 400 (b_error "No fields to update"), db).
Proof.
  intros Auth Found Access T D A P St Du.
  unfold updateTask, route. rewrite (authenticated_as_run cfg _ _ _ _ Auth).
  unfold updateTask_handler, try_catch, bind, reject_if, getOne, respond.
  unfold validate_update, sanitize_update, update_field_count.
  rewrite T, D, A, P, St, Du. cbn. rewrite Found, Access. reflexivity.
Qed.

(** An update is partial: the stored task changes in the fields the body
    names and in [completed_at] when it names a status; its id, project,
    creator and creation time never change, a field the body leaves out
    keeps its value, and every other task is untouched. *)
Theorem updateTask_is_partial env hdr db db' taskId b r :
  updateTask cfg env hdr taskId b db = (r, db') ->
  status r = 200%Z ->
  exists old new,
    task_by_id taskId db = Some old
    /\ task_by_id taskId db' = Some new
    /\ t_id new = t_id old /\ t_project_id new = t_project_id old
    /\ t_created_by new = t_created_by old
    /\ t_created_at new = t_created_at old
    /\ (ub_title b = None -> t_title new = t_title old)
    /\ (ub_description b = None -> t_description new = t_description old)
    /\ (ub_assignedTo b = None -> t_assigned_to new = t_assigned_to old)
    /\ (ub_priority b = None -> t_priority new = t_priority old)
    /\ (ub_dueDate b = None -> t_due_date new = t_due_date old)
    /\ (ub_status b = None ->
        t_status new = t_status old
        /\ t_completed_at new = t_completed_at old)
    /\ (forall other, other <> taskId ->
                      task_by_id other db' = task_by_id other db).
Proof.
  unfold updateTask, route. intros R S.
  destruct (authenticateToken_cases cfg (now env) hdr db)
    as [[u A]|[msg A]]; rewrite A in R;
    [|inversion R; subst; discriminate].
  unfold updateTask_handler in R. unfold_handler R.
  destruct (is_nil (validate_update b)); cbn [negb] in R;
    [|inversion R; subst; discriminate].
  destruct (task_by_id taskId db) as [old|] eqn:T;
    [|inversion R; subst; discriminate].
  destruct (is_some (access_row (t_project_id old) (id u) db));
    cbn [negb] in R; [|inversion R; subst; discriminate].
  destruct (update_field_count (sanitize_update b) =? 0)%nat;
    [inversion R; subst; discriminate|].
  destruct (update_task (now env) taskId (sanitize_update b) db)
    as [[res db2]|] eqn:U; [|inversion R; subst; discriminate].
  unfold update_task in U.
  destruct (existsb _ (tasks db) && _); [discriminate|].
  inversion U; subst; clear U.
  destruct (insert_activity _ _ _ _ _ _ _) as [[res3 db3]|] eqn:L;
    [|inversion R; subst; discriminate].
  destruct (insert_activity_frame _ _ _ _ _ _ _ _ _ L)
    as [_ [_ [Ts _]]].
  inversion R; subst; clear R.
  assert (Look : forall x, task_by_id x db'
                           = task_by_id x
                               (set_tasks
                                  (map (fun t => if (t_id t =? taskId)%Z
                                                 then apply_updates (now env)
                                                        (sanitize_update b) t
                                                 else t)
                                       (tasks db)) db)).
  { intros x. unfold task_by_id. now rewrite Ts. }
  exists old, (apply_updates (now env) (sanitize_update b) old).
  split; [reflexivity|]. split.
  { rewrite Look, task_by_id_update, T. reflexivity. }
  cbn [apply_updates t_id t_project_id t_created_by t_created_at t_title
       t_description t_assigned_to t_priority t_due_date t_status
       t_completed_at sanitize_update upd_title upd_description
       upd_assignedTo upd_priority upd_status upd_dueDate].
  repeat (split; [reflexivity|]).
  repeat (split; [intros E; rewrite E; reflexivity|]).
  split; [intros E; rewrite E; split; reflexivity|].
  intros other N. rewrite Look. now apply task_by_id_update_other.
Qed.

(** A user without access to a project can write nothing in it: creating
    a task there, updating one of its tasks and commenting on one are all
    refused with 403, and the database stays as it was. *)
Theorem outsider_cannot_write_tasks env hdr db u taskId task :
  authenticated_as cfg (now env) hdr db u ->
  task_by_id taskId db = Some task ->
  ~ is_member db (t_project_id task) (id u) ->
  ~ is_owner db (t_project_id task) (id u) ->
  (forall b, validate_task b = [] -> tb_projectId b = t_project_id task ->
             createTask cfg env hdr b db
             = (json 403 (b_error "No access to this project"), db))
  /\ (forall b, validate_update b = [] ->
                updateTask cfg env hdr taskId b db
                = (json 403 (b_error "No access to this task"), db))
  /\ (forall raw, isLength 1 1000 (trim raw) = true ->
                  addComment cfg env hdr taskId raw db
                  = (failed (json 403 (b_error "No access to this task")),
                     db)).
Proof.
  intros Auth Found NotMember NotOwner.
  assert (Hidden : access_row (t_project_id task) (id u) db = None)
    by (apply access_row_none; auto).
  split; [|split].
  - intros b Valid Project.
    destruct (validate_task_parses b Valid) as [pr [st [Prio Stat]]].
    unfold createTask, route. rewrite (authenticated_as_run cfg _ _ _ _ Auth).
    unfold createTask_handler, try_catch, bind, reject_if, getOne, respond.
    cbv zeta. rewrite Valid, Prio, Stat. cbn [is_nil negb ret].
    rewrite Project, Hidden. reflexivity.
  - intros b Valid.
    unfold updateTask, route. rewrite (authenticated_as_run cfg _ _ _ _ Auth).
    unfold updateTask_handler, try_catch, bind, reject_if, getOne, respond.
    rewrite Valid. cbn [is_nil negb ret]. rewrite Found, Hidden.
    reflexivity.
  - intros raw Valid.
    unfold addComment, route_as.
    rewrite (authenticated_as_run cfg _ _ _ _ Auth).
    unfold addComment_handler, try_catch_as, bind, reject_if, getOne,
      respond.
    rewrite Valid. cbn [check is_nil negb ret]. rewrite Found, Hidden.
    reflexivity.
Qed.

End TaskWriting.

Lemma sample_db_carol_not_owner : ~ is_owner sample_db 1 3.
Proof.
  intros [p [I [E1 E2]]]. cbn in I. destruct I as [<-|[]]. discriminate.
Qed.

Lemma deleteTask_removes_witness :
  task_by_id 1
    (snd (deleteTask default_config sample_env (bearer_of alice) 1 busy_db))
  = None
  /\ map t_id
         (tasks (snd (deleteTask default_config sample_env (bearer_of alice)
                                 1 busy_db)))
     = [2; 3; 4; 5; 6]%Z.
Proof.
  assert (Run : deleteTask default_config sample_env (bearer_of alice) 1
                           busy_db
                = (fst (deleteTask default_config sample_env
                                   (bearer_of alice) 1 busy_db),
                   snd (deleteTask default_config sample_env
                                   (bearer_of alice) 1 busy_db)))
    by reflexivity.
  destruct (deleteTask_removes default_config sample_env (bearer_of alice)
              busy_db _ 1 _ Run eq_refl) as [Gone _].
  split; [exact Gone | reflexivity].
Defined.

(** carol, a plain member of project 1, may not delete alice's task. *)
Lemma deleteTask_needs_stake_witness :
  deleteTask default_config sample_env (bearer_of carol) 1 sample_db
  = (json 403 (b_error "Permission denied"), sample_db).
Proof.
  apply (deleteTask_needs_stake default_config sample_env (bearer_of carol)
           sample_db (principal_of_row carol) 1 write_docs).
  - reflexivity.
  - reflexivity.
  - intros t I E. cbn in I. destruct I as [<-|[]]. split; discriminate.
  - exact sample_db_carol_not_owner.
  - intros m I E1 E2. cbn in I.
    destruct I as [<-|[<-|[]]]; [discriminate E2 | now left].
Defined.

(** bob has no access to project 1 any more and still deletes the task he
    created there. *)
Lemma deleteTask_by_creator_or_assignee_witness :
  access_row 1 2 bob_left_db = None
  /\ exists db',
       deleteTask default_config sample_env (bearer_of bob) 2 bob_left_db
       = (json 200 (b_message "Task deleted successfully"), db')
       /\ task_by_id 2 db' = None.
Proof.
  split; [reflexivity|].
  apply (deleteTask_by_creator_or_assignee default_config sample_env
           (bearer_of bob) bob_left_db (principal_of_row bob) 2
           {| t_id := 2; t_title := "Review"; t_description := None;
              t_project_id := 1; t_assigned_to := None; t_created_by := 2;
              t_status := todo; t_priority := low; t_due_date := None;
              t_completed_at := None; t_created_at := 60 |}).
  - reflexivity.
  - reflexivity.
  - left. reflexivity.
Defined.

(** carol comments on task 1 and reads the task again. *)
Lemma addComment_then_getTask_witness :
  exists c,
    c_task_id c = 1%Z /\ c_user_id c = 3%Z /\ c_content c = "Looks good"
    /\ exists view' cs,
         getTask default_config sample_env (bearer_of carol) 1
                 (snd (addComment default_config sample_env (bearer_of carol)
                                  1 "Looks good" sample_db))
         = (json 200 (b_task_detail view' cs),
            snd (addComment default_config sample_env (bearer_of carol) 1
                            "Looks good" sample_db))
         /\ In c cs.
Proof.
  destruct (addComment_then_getTask (platform := sample_platform)
              default_config sample_env
              (bearer_of carol) sample_db
              (snd (addComment default_config sample_env (bearer_of carol) 1
                               "Looks good" sample_db))
              (principal_of_row carol) 1 "Looks good" 201
              "Comment added successfully"
              (Some {| c_id := 1; c_task_id := 1; c_user_id := 3;
                       c_content := "Looks good"; c_created_at := 1000 |})
              {| tv_row := write_docs; tv_project_name := "Launch";
                 tv_assigned_to_name := Some "Alice A" |}
              ltac:(reflexivity) ltac:(reflexivity) ltac:(reflexivity))
    as [c [_ [T [U [C Read]]]]].
  exists c. auto.
Defined.

(** alice creates a task for carol, a member of her project. *)
Lemma createTask_stores_witness :
  exists view,
    payload (fst (createTask default_config sample_env (bearer_of alice)
                             ship_for_carol sample_db))
    = b_task "Task created successfully" (Some view)
    /\ t_id (tv_row view) = 2%Z
    /\ t_created_by (tv_row view) = 1%Z
    /\ t_assigned_to (tv_row view) = Some 3%Z
    /\ (is_member sample_db 1 3 \/ is_owner sample_db 1 3).
Proof.
  assert (Run : createTask default_config sample_env (bearer_of alice)
                           ship_for_carol sample_db
                = (fst (createTask default_config sample_env
                                   (bearer_of alice) ship_for_carol sample_db),
                   snd (createTask default_config sample_env
                                   (bearer_of alice) ship_for_carol
                                   sample_db)))
    by reflexivity.
  destruct (createTask_stores (platform := sample_platform)
              default_config sample_env (bearer_of alice)
              sample_db _ (principal_of_row alice) ship_for_carol _
              ltac:(reflexivity) Run ltac:(reflexivity))
    as [view [Pay [_ [_ [Creator [_ [_ [_ Assignee]]]]]]]].
  exists view. split; [exact Pay|].
  cbn in Pay. inversion Pay; subst. cbn.
  repeat (split; [reflexivity|]).
  apply (Assignee 3%Z). reflexivity.
Defined.

Lemma updateTask_without_fields_witness :
  updateTask default_config sample_env (bearer_of alice) 1 empty_update
             sample_db
  = (json 400 (b_error "No fields to update"), sample_db).
Proof.
  apply (updateTask_without_fields default_config sample_env
           (bearer_of alice) sample_db (principal_of_row alice) 1 write_docs
           empty_update);
    reflexivity.
Defined.

(** carol retitles task 1: the title changes, the assignee stays. *)
Lemma updateTask_is_partial_witness :
  exists old new,
    task_by_id 1 sample_db = Some old
    /\ task_by_id 1
         (snd (updateTask default_config sample_env (bearer_of carol) 1
                          retitle sample_db))
       = Some new
    /\ t_title new = "Write the docs"
    /\ t_assigned_to new = t_assigned_to old
    /\ t_status new = t_status old.
Proof.
  assert (Run : updateTask default_config sample_env (bearer_of carol) 1
                           retitle sample_db
                = (fst (updateTask default_config sample_env
                                   (bearer_of carol) 1 retitle sample_db),
                   snd (updateTask default_config sample_env
                                   (bearer_of carol) 1 retitle sample_db)))
    by reflexivity.
  destruct (updateTask_is_partial (platform := sample_platform)
              default_config sample_env (bearer_of carol)
              sample_db _ 1 retitle _ Run ltac:(reflexivity))
    as [old [new [Old [New [_ [_ [_ [_ [_ [_ [Who [_ [_ [St _]]]]]]]]]]]]]].
  exists old, new. split; [exact Old|]. split; [exact New|].
  split; [|split; [apply Who; reflexivity | apply St; reflexivity]].
  cbn in New. inversion New. reflexivity.
Defined.

(** bob has no access to project 1. *)
Lemma outsider_cannot_write_tasks_witness :
  createTask default_config sample_env (bearer_of bob) ship_done sample_db
  = (json 403 (b_error "No access to this project"), sample_db)
  /\ updateTask default_config sample_env (bearer_of bob) 1 retitle sample_db
     = (json 403 (b_error "No access to this task"), sample_db)
  /\ addComment default_config sample_env (bearer_of bob) 1 "Hello" sample_db
     = (failed (json 403 (b_error "No access to this task")), sample_db).
Proof.
  destruct (outsider_cannot_write_tasks (platform := sample_platform)
              default_config sample_env
              (bearer_of bob) sample_db (principal_of_row bob) 1 write_docs
              ltac:(reflexivity) ltac:(reflexivity)
              (proj1 (proj1 (access_row_none 1 2 sample_db)
                            ltac:(reflexivity)))
              (proj2 (proj1 (access_row_none 1 2 sample_db)
                            ltac:(reflexivity))))
    as [Create [Update Comment]].
  split; [|split].
  - apply Create; reflexivity.
  - apply Update; reflexivity.
  - apply Comment; reflexivity.
Defined.

(** ** What a listing shows *)

Lemma filter_map_in {A B} (f : A -> option B) (l : list A) (b : B) :
  In b (filter_map f l) <-> exists a, In a l /\ f a = Some b.
Proof.
  induction l as [|x l IH]; cbn.
  - split; [intros [] | intros [a [[] _]]].
  - destruct (f x) as [y|] eqn:E; cbn; rewrite ?IH; split.
    + intros [<-|[a [I F]]]; [exists x; auto | exists a; auto].
    + intros [a [[<-|I] F]]; [left; congruence | right; eauto].
    + intros [a [I F]]. exists a; auto.
    + intros [a [[<-|I] F]]; [congruence | eauto].
Qed.

(** The listing shows a caller the tasks of the projects the caller owns
    or is a member of, and no other: every listed task is a stored task of
    such a project and passes each filter of the request, the count is the
    length of the list, and without filters every stored task of such a
    project (whose project row exists) is listed. *)
Theorem listTasks_shows_accessible {platform : Platform} (cfg : config)
  (env : environment) (hdr : option (list segment)) (f : task_filters)
  (db : database) (u : principal) (ts : list task_view) (n : nat) :
  authenticated_as cfg (now env) hdr db u ->
  payload (fst (listTasks cfg env hdr f db)) = b_tasks ts n ->
  n = List.length ts
  /\ (forall view, In view ts ->
        In (tv_row view) (tasks db)
        /\ (is_member db (t_project_id (tv_row view)) (id u)
            \/ is_owner db (t_project_id (tv_row view)) (id u))
        /\ (forall pid, f_projectId f = Some pid ->
                        t_project_id (tv_row view) = pid)
        /\ (forall a, f_assignedTo f = Some a ->
                      t_assigned_to (tv_row view) = Some a)
        /\ (forall s, f_status f = Some s ->
                      task_status_of_string s = Some (t_status (tv_row view)))
        /\ (forall s, f_priority f = Some s ->
                      task_priority_of_string s
                      = Some (t_priority (tv_row view))))
  /\ (f_projectId f = None -> f_assignedTo f = None -> f_status f = None ->
      f_priority f = None -> f_search f = None ->
      forall t p,
        In t (tasks db) -> project_by_id (t_project_id t) db = Some p ->
        is_member db (t_project_id t) (id u)
        \/ is_owner db (t_project_id t) (id u) ->
        exists view, In view ts /\ tv_row view = t).
Proof.
  intros Auth. unfold listTasks, route.
  rewrite (authenticated_as_run cfg _ _ _ _ Auth).
  unfold listTasks_handler, try_catch, bind, reject_if, getAll, ret, respond.
  destruct (is_nil (validate_filters f)); cbn; [|discriminate].
  intros Q. inversion Q; subst; clear Q.
  split; [reflexivity|]. split.
  - intros view I. unfold list_query in I.
    apply order_by_in, filter_map_in in I. destruct I as [t [I J]].
    apply filter_In in I. destruct I as [I W].
    assert (Row : tv_row view = t).
    { unfold join_task in J.
      destruct (project_by_id (t_project_id t) db); [|discriminate].
      now inversion J. }
    rewrite Row. unfold list_where in W.
    repeat (apply andb_true_iff in W; destruct W as [W ?]).
    split; [assumption|]. split.
    { apply access_row_some.
      destruct (access_row (t_project_id t) (id u) db) as [[]|];
        [reflexivity | discriminate]. }
    split; [|split; [|split]].
    + intros pid E.
      match goal with
      | H : optional _ (f_projectId f) = true |- _ =>
          rewrite E in H; cbn [optional] in H; now apply Z.eqb_eq in H
      end.
    + intros a E.
      match goal with
      | H : optional _ (f_assignedTo f) = true |- _ =>
          rewrite E in H; cbn [optional] in H;
          destruct (t_assigned_to t) as [b|]; [|discriminate];
          apply Z.eqb_eq in H; now subst
      end.
    + intros s E.
      match goal with
      | H : optional _ (f_status f) = true |- _ =>
          rewrite E in H; cbn [optional] in H;
          destruct (task_status_of_string s) as [st|]; [|discriminate];
          destruct (t_status t), st; cbn in H; congruence
      end.
    + intros s E.
      match goal with
      | H : optional _ (f_priority f) = true |- _ =>
          rewrite E in H; cbn [optional] in H;
          destruct (task_priority_of_string s) as [pr|]; [|discriminate];
          destruct (t_priority t), pr; cbn in H; congruence
      end.
  - intros F1 F2 F3 F4 F5 t p I Found Access.
    exists {| tv_row := t; tv_project_name := p_name p;
              tv_assigned_to_name :=
                match t_assigned_to t with
                | Some a => option_map u_full_name (user_by_id a db)
                | None => None
                end |}.
    split; [|reflexivity].
    unfold list_query. apply order_by_in, filter_map_in. exists t. split.
    + apply filter_In. split; [assumption|].
      unfold list_where. rewrite F1, F2, F3, F4, F5.
      apply access_row_some in Access. rewrite Access. reflexivity.
    + unfold join_task. now rewrite Found.
Qed.

Lemma listTasks_shows_accessible_witness :
  List.length (list_query 3 no_filters busy_db) = 6%nat
  /\ forall view,
       In view (list_query 3 no_filters busy_db) ->
       is_member busy_db (t_project_id (tv_row view)) 3
       \/ is_owner busy_db (t_project_id (tv_row view)) 3.
Proof.
  destruct (listTasks_shows_accessible (platform := sample_platform)
              default_config sample_env (bearer_of carol) no_filters busy_db
              (principal_of_row carol) (list_query 3 no_filters busy_db) 6
              ltac:(reflexivity) ltac:(reflexivity)) as [Count [Shown _]].
  split; [now rewrite <- Count|].
  intros view I. now destruct (Shown view I) as [_ [Access _]].
Defined.

(** ** The user store *)

Lemma user_by_id_map (g : user_row -> user_row) (uid x : Z) (db : database) :
  (forall u, u_id (g u) = u_id u) ->
  user_by_id x
    (set_users (map (fun u => if (u_id u =? uid)%Z then g u else u)
                    (users db)) db)
  = if (x =? uid)%Z then option_map g (user_by_id x db)
    else user_by_id x db.
Proof.
  intros Id. unfold user_by_id. cbn [users set_users].
  induction (users db) as [|u us IH]; cbn [map find].
  - now destruct (x =? uid)%Z.
  - destruct (u_id u =? uid)%Z eqn:Hit.
    + rewrite Id. destruct (u_id u =? x)%Z eqn:E.
      * apply Z.eqb_eq in Hit, E.
        replace (x =? uid)%Z with true
          by (symmetry; apply Z.eqb_eq; congruence).
        reflexivity.
      * exact IH.
    + destruct (u_id u =? x)%Z eqn:E; [|exact IH].
      apply Z.eqb_eq in E. apply Z.eqb_neq in Hit.
      replace (x =? uid)%Z with false
        by (symmetry; apply Z.eqb_neq; congruence).
      reflexivity.
Qed.

Section UserFacts.
Context {platform : Platform}.
Variable cfg : config.

(** A toggle that succeeds flips the activation of its target and nothing
    else: the answer reports the new value, the stored flag is the negation
    of the old one, the target keeps its role, and every other user is as
    before. *)
Theorem toggleActive_flips env hdr db db' target r :
  toggleActive cfg env hdr target db = (r, db') ->
  status r = 200%Z ->
  exists row msg,
    user_by_id target db = Some row
    /\ payload r = b_active msg (negb (u_is_active row))
    /\ option_map u_is_active (user_by_id target db')
       = Some (negb (u_is_active row))
    /\ option_map u_role (user_by_id target db') = Some (u_role row)
    /\ (forall other, other <> target ->
                      user_by_id other db' = user_by_id other db).
Proof.
  unfold toggleActive, route. intros R S.
  destruct (admin_chain_cases cfg (now env) hdr db)
    as [[u C]|[r0 [C [S0|S0]]]]; rewrite C in R;
    [|inversion R; subst; lia..].
  unfold toggleActive_handler in R. unfold_handler R.
  destruct (target =? id u)%Z; [inversion R; subst; discriminate|].
  destruct (user_by_id target db) as [row|] eqn:T;
    [|inversion R; subst; discriminate].
  assert (Flip : forall x,
            user_by_id x
              (set_users
                 (map (fun v : user_row =>
                         if (u_id v =? target)%Z
                         then {| u_id := u_id v; u_username := u_username v;
                                 u_email := u_email v;
                                 u_password_hash := u_password_hash v;
                                 u_full_name := u_full_name v;
                                 u_role := u_role v;
                                 u_is_active := negb (u_is_active row);
                                 u_created_at := u_created_at v |}
                         else v)
                      (users db)) db)
            = if (x =? target)%Z
              then option_map
                     (fun v => {| u_id := u_id v; u_username := u_username v;
                                  u_email := u_email v;
                                  u_password_hash := u_password_hash v;
                                  u_full_name := u_full_name v;
                                  u_role := u_role v;
                                  u_is_active := negb (u_is_active row);
                                  u_created_at := u_created_at v |})
                     (user_by_id x db)
              else user_by_id x db).
  { intros x. now apply user_by_id_map. }
  assert (Done :
    forall d, users d
              = users (set_users
                         (map (fun v : user_row =>
                                 if (u_id v =? target)%Z
                                 then {| u_id := u_id v;
                                         u_username := u_username v;
                                         u_email := u_email v;
                                         u_password_hash := u_password_hash v;
                                         u_full_name := u_full_name v;
                                         u_role := u_role v;
                                         u_is_active := negb (u_is_active row);
                                         u_created_at := u_created_at v |}
                                 else v)
                              (users db)) db) ->
      option_map u_is_active (user_by_id target d)
      = Some (negb (u_is_active row))
      /\ option_map u_role (user_by_id target d) = Some (u_role row)
      /\ (forall other, other <> target ->
                        user_by_id other d = user_by_id other db)).
  { intros d Same.
    assert (Look : forall x, user_by_id x d
                             = user_by_id x
                                 (set_users
                                    (map (fun v : user_row =>
                                            if (u_id v =? target)%Z
                                            then {| u_id := u_id v;
                                                    u_username := u_username v;
                                                    u_email := u_email v;
                                                    u_password_hash :=
                                                      u_password_hash v;
                                                    u_full_name :=
                                                      u_full_name v;
                                                    u_role := u_role v;
                                                    u_is_active :=
                                                      negb (u_is_active row);
                                                    u_created_at :=
                                                      u_created_at v |}
                                            else v)
                                         (users db)) db))
      by (intros x; unfold user_by_id; now rewrite Same).
    split; [|split].
    - rewrite Look, Flip, Z.eqb_refl, T. reflexivity.
    - rewrite Look, Flip, Z.eqb_refl, T. reflexivity.
    - intros other N. rewrite Look, Flip.
      now replace (other =? target)%Z with false
        by (symmetry; now apply Z.eqb_neq). }
  exists row.
  destruct (u_is_active row && global_role_eqb (u_role row) admin);
    [destruct (active_admin_count db <=? 1)%nat;
     [inversion R; subst; discriminate|]|];
    cbn [update_user_active] in R;
    (destruct (insert_activity _ _ _ _ _ _ _) as [[res d0]|] eqn:L;
     [|inversion R; subst; discriminate]);
    destruct (insert_activity_frame _ _ _ _ _ _ _ _ _ L) as [Us _];
    inversion R; subst; clear R;
    eexists; (split; [reflexivity|]); (split; [reflexivity|]);
    apply Done; exact Us.
Qed.

End UserFacts.

Lemma update_user_profile_keys uid fullName mail db res db' :
  update_user_profile uid fullName mail db = Some (res, db') ->
  map (fun u => (u_id u, u_username u, u_password_hash u, u_role u,
                 u_is_active u))
      (users db')
  = map (fun u => (u_id u, u_username u, u_password_hash u, u_role u,
                   u_is_active u))
        (users db).
Proof.
  unfold update_user_profile.
  destruct (match mail with Some _ => _ | None => false end);
    [discriminate|].
  intros Q. inversion Q; subst. cbn [users set_users].
  rewrite map_map. apply map_ext. intros u.
  now destruct (u_id u =? uid)%Z.
Qed.

Section ProfileFacts.
Context {platform : Platform}.
Variable cfg : config.
Variable stringify : profile_body -> string.

(** Editing a profile can change a full name and an email and nothing
    else: whatever the request and the answer, every user keeps id,
    username, password hash, global role and activation, and no user is
    added or removed. *)
Theorem updateUser_confined env hdr userId raw db :
  map (fun u => (u_id u, u_username u, u_password_hash u, u_role u,
                 u_is_active u))
      (users (snd (updateUser cfg stringify env hdr userId raw db)))
  = map (fun u => (u_id u, u_username u, u_password_hash u, u_role u,
                   u_is_active u))
        (users db).
Proof.
  set (P := fun d : database =>
              map (fun u => (u_id u, u_username u, u_password_hash u,
                             u_role u, u_is_active u)) (users d)
              = map (fun u => (u_id u, u_username u, u_password_hash u,
                               u_role u, u_is_active u)) (users db)).
  change (P (snd (updateUser cfg stringify env hdr userId raw db))).
  assert (Start : P db) by reflexivity.
  unfold updateUser, updateUser_handler.
  keeps_route_with
    ltac:(intros E Pd; unfold P in *;
          first [ rewrite (update_user_profile_keys _ _ _ _ _ _ E)
                | destruct (insert_activity_frame _ _ _ _ _ _ _ _ _ E)
                    as [Same _]; rewrite Same ];
          exact Pd).
Qed.

(** A user who is no admin can edit the own profile only: a valid request
    for any other id is refused with 403 before the id is looked up, so the
    answer is the same whether that user exists or not, and nothing is
    written. *)
Theorem updateUser_own_profile_only env hdr db u userId raw :
  authenticated_as cfg (now env) hdr db u ->
  role u <> admin ->
  userId <> id u ->
  validate_profile raw = [] ->
  updateUser cfg stringify env hdr userId raw db
  = (failed (json 403 (b_error "Permission denied")), db).
Proof.
  intros Auth NotAdmin Other Valid.
  unfold updateUser, route_as.
  rewrite (authenticated_as_run cfg _ _ _ _ Auth).
  unfold updateUser_handler, try_catch_as, bind, reject_if, respond.
  rewrite Valid. cbn [is_nil negb ret].
  replace (userId =? id u)%Z with false
    by (symmetry; now apply Z.eqb_neq).
  replace (global_role_eqb (role u) admin) with false
    by (destruct (role u); cbn; congruence).
  reflexivity.
Qed.

End ProfileFacts.

(** bob asks to rename carol (id 3) and a user that does not exist (id 9). *)
Lemma updateUser_own_profile_only_witness :
  updateUser default_config (fun _ => "{}") sample_env (bearer_of bob) 3
             {| pf_fullName := Some "Carol X"; pf_email := None |} sample_db
  = (failed (json 403 (b_error "Permission denied")), sample_db)
  /\ updateUser default_config (fun _ => "{}") sample_env (bearer_of bob) 9
                {| pf_fullName := Some "Carol X"; pf_email := None |}
                sample_db
     = (failed (json 403 (b_error "Permission denied")), sample_db).
Proof.
  split;
    apply (updateUser_own_profile_only default_config (fun _ => "{}")
             sample_env (bearer_of bob) sample_db (principal_of_row bob));
    try reflexivity; discriminate.
Defined.

Lemma toggleActive_flips_witness :
  exists row msg,
    user_by_id 2 sample_db = Some row
    /\ payload (fst (toggleActive default_config sample_env (bearer_of alice)
                                  2 sample_db))
       = b_active msg (negb (u_is_active row))
    /\ option_map u_is_active
         (user_by_id 2
            (snd (toggleActive default_config sample_env (bearer_of alice) 2
                               sample_db)))
       = Some (negb (u_is_active row))
    /\ option_map u_role
         (user_by_id 2
            (snd (toggleActive default_config sample_env (bearer_of alice) 2
                               sample_db)))
       = Some (u_role row)
    /\ (forall other, other <> 2%Z ->
          user_by_id other
            (snd (toggleActive default_config sample_env (bearer_of alice) 2
                               sample_db))
          = user_by_id other sample_db).
Proof.
  apply (toggleActive_flips default_config sample_env (bearer_of alice)
           sample_db
           (snd (toggleActive default_config sample_env (bearer_of alice) 2
                              sample_db))
           2
           (fst (toggleActive default_config sample_env (bearer_of alice) 2
                              sample_db)));
    reflexivity.
Defined.


Section PasswordFacts.
Context {platform : Platform}.
Variable cfg : config.
Variable bcrypt_compare : string -> string -> bool.


End PasswordFacts.




(** ** The sliding session *)

Lemma bearer_token_pieces (hdr : option (list segment)) (t : jwt) :
  bearer_token hdr = Some (seg_jwt t) ->
  exists pieces,
    hdr = Some pieces /\ nth_error pieces 1 = Some (seg_jwt t)
    /\ header_truthy hdr = true.
Proof.
  unfold bearer_token. destruct hdr as [pieces|]; [|discriminate].
  destruct (nth_error pieces 1) as [[t'|s]|] eqn:N; try discriminate.
  - intros Q. inversion Q; subst. exists pieces.
    split; [reflexivity|]. split; [assumption|].
    destruct pieces as [|a [|b rest]]; try discriminate.
    unfold header_truthy. destruct a as [?|s]; [reflexivity|].
    destruct s; reflexivity.
  - destruct s; discriminate.
Qed.

(** The refresh policy. For an authenticated request whose token has a day
    or more to run no new token is issued. When less than a day is left a
    new token is issued for the principal of the request; it expires a full
    lifetime after the refresh and is accepted, until then, as the same
    principal. *)
Theorem refresh_policy {platform : Platform} (cfg : config) (clock0 millis : Z)
  (hdr : option (list segment)) (db : database) (p : principal) :
  authenticated_as cfg clock0 hdr db p ->
  exists t,
    bearer_token hdr = Some (seg_jwt t)
    /\ (86400 * 1000 <= exp (claims t) * 1000 - millis ->
        refreshTokenMiddleware cfg millis (Some p) hdr = None)%Z
    /\ (exp (claims t) * 1000 - millis < 86400 * 1000 ->
        exists token,
          refreshTokenMiddleware cfg millis (Some p) hdr = Some token
          /\ exp (claims token) = millis / 1000 + JWT_EXPIRY cfg
          /\ forall clock,
               clock < millis / 1000 + JWT_EXPIRY cfg ->
               authenticateToken cfg clock
                 (Some [seg_text "Bearer"; seg_jwt token]) db
               = (Next p, db))%Z.
Proof.
  intros Auth.
  assert (Facts : exists t row,
             bearer_token hdr = Some (seg_jwt t)
             /\ user_by_id (id p) db = Some row
             /\ u_is_active row = true /\ p = principal_of_row row).
  { destruct (authenticated_as_row cfg _ _ _ _ Auth) as [row [S [E A]]].
    unfold authenticated_as, authenticateToken in Auth.
    destruct (bearer_token hdr) as [[t|s]|]; try discriminate.
    exists t, row. auto. }
  destruct Facts as [t [row [B [Stored [Active Who]]]]].
  destruct (bearer_token_pieces hdr t B) as [pieces [-> [Second Truthy]]].
  exists t. split; [exact B|].
  unfold refreshTokenMiddleware. rewrite Truthy, Second. cbn [jwt_decode].
  split.
  - intros Long.
    replace (exp (claims t) * 1000 - millis <? 86400 * 1000)%Z with false
      by (symmetry; apply Z.ltb_ge; lia).
    reflexivity.
  - intros Short.
    replace (exp (claims t) * 1000 - millis <? 86400 * 1000)%Z with true
      by (symmetry; apply Z.ltb_lt; lia).
    eexists. split; [reflexivity|]. split; [reflexivity|].
    intros clock Fresh.
    unfold authenticateToken, bearer_token, generateToken, jwt_sign,
      jwt_verify.
    cbn [nth_error claims signature exp userId].
    rewrite String.eqb_refl.
    destruct (millis / 1000 + JWT_EXPIRY cfg <=? clock)%Z eqn:L;
      [apply Z.leb_le in L; lia|].
    unfold bind, getOne. cbn [userId subject_id principal_subject].
    rewrite Stored, Active. cbn [negb ret]. now rewrite Who.
Qed.

(** alice's token of time 900 runs until 900 + 7 days; one hour before
    that it is replaced, one hour after it was issued it is not. *)
Lemma refresh_policy_witness :
  refreshTokenMiddleware default_config (4500 * 1000)
    (Some (principal_of_row alice)) (bearer_of alice)
  = None
  /\ exists token,
       refreshTokenMiddleware default_config ((900 + 7 * 86400 - 3600) * 1000)
         (Some (principal_of_row alice)) (bearer_of alice)
       = Some token
       /\ exp (claims token) = (900 + 7 * 86400 - 3600 + 7 * 86400)%Z.
Proof.
  split.
  - destruct (refresh_policy (platform := sample_platform) default_config
                1000 (4500 * 1000) (bearer_of alice) sample_db
                (principal_of_row alice) ltac:(reflexivity))
      as [t [B [Long _]]].
    cbn in B. inversion B; subst. apply Long. cbn. lia.
  - destruct (refresh_policy (platform := sample_platform) default_config
                1000 ((900 + 7 * 86400 - 3600) * 1000) (bearer_of alice)
                sample_db (principal_of_row alice) ltac:(reflexivity))
      as [t [B [_ Short]]].
    cbn in B. inversion B; subst.
    destruct Short as [token [Issued [Expiry _]]]; [cbn; lia|].
    exists token. split; [exact Issued|]. rewrite Expiry. reflexivity.
Defined.

(** ** The application as a whole *)

(** What a statement other than the INSERT into the activity log leaves of
    the log. *)
Ltac log_untouched E :=
  unfold insert_user, insert_task, update_task, delete_task, insert_comment,
    insert_project, update_project, delete_project, insert_member,
    delete_member, update_user_role, update_user_active,
    update_user_password, update_user_profile in E;
  repeat match type of E with
         | (if ?c then _ else _) = Some _ => destruct c
         end;
  try discriminate E; inversion E; subst; reflexivity.

Ltac log_grows :=
  let E := fresh "E" in
  let l := fresh "l" in
  let Pd := fresh "Pd" in
  intros E [l Pd];
  first [ destruct (insert_activity_frame _ _ _ _ _ _ _ _ _ E)
            as [_ [_ [_ [_ [_ [entry [Grown _]]]]]]];
          exists (l ++ [entry])%list; rewrite Grown, Pd;
          symmetry; apply app_assoc
        | exists l; rewrite <- Pd; log_untouched E ].

Section ApplicationFacts.
Context {platform : Platform}.
Variable cfg : config.
Variable bcrypt_compare : string -> string -> bool.
Variable stringify_project : project_update_body -> string.
Variable stringify_profile : profile_body -> string.

Lemma serve_log_grows (req : request) (base db : database) :
  (exists l, activity_log db = (activity_log base ++ l)%list) ->
  exists l,
    activity_log
      (serve cfg bcrypt_compare stringify_project stringify_profile req db)
    = (activity_log base ++ l)%list.
Proof.
  set (P := fun d : database =>
              exists l, activity_log d = (activity_log base ++ l)%list).
  intros Start. change (P db) in Start.
  change (P (serve cfg bcrypt_compare stringify_project stringify_profile
                   req db)).
  destruct req; cbn [serve]; [| | | | | | | | | | | | | | | | | | |exact Start].
  - unfold register. apply keeps_try_catch; [|assumption].
    cbv zeta; repeat (keeps_step; cbv zeta); unfold P; log_grows.
  - unfold login. apply keeps_try_catch_as; [|assumption].
    cbv zeta; repeat (keeps_step; cbv zeta); unfold P; log_grows.
  - unfold changePassword, changePassword_handler.
    keeps_route_with ltac:(unfold P; log_grows).
  - unfold logout, logout_handler.
    keeps_route_with ltac:(unfold P; log_grows).
  - unfold updateUser, updateUser_handler.
    keeps_route_with ltac:(unfold P; log_grows).
  - unfold updateRole, updateRole_handler.
    keeps_route_with ltac:(unfold P; log_grows).
  - unfold toggleActive, toggleActive_handler.
    keeps_route_with ltac:(unfold P; log_grows).
  - unfold resetPassword, resetPassword_handler.
    keeps_route_with ltac:(unfold P; log_grows).
  - unfold createProject, createProject_handler.
    keeps_route_with ltac:(unfold P; log_grows).
  - unfold updateProject, updateProject_handler.
    keeps_route_with ltac:(unfold P; log_grows).
  - unfold deleteProject, deleteProject_handler.
    keeps_route_with ltac:(unfold P; log_grows).
  - unfold addMember, addMember_handler.
    keeps_route_with ltac:(unfold P; log_grows).
  - unfold removeMember, removeMember_handler.
    keeps_route_with ltac:(unfold P; log_grows).
  - unfold listTasks, listTasks_handler.
    keeps_route_with ltac:(unfold P; log_grows).
  - unfold getTask, getTask_handler.
    keeps_route_with ltac:(unfold P; log_grows).
  - unfold createTask, createTask_handler.
    keeps_route_with ltac:(unfold P; log_grows).
  - unfold updateTask, updateTask_handler.
    keeps_route_with ltac:(unfold P; log_grows).
  - unfold deleteTask, deleteTask_handler.
    keeps_route_with ltac:(unfold P; log_grows).
  - unfold addComment, addComment_handler.
    keeps_route_with ltac:(unfold P; log_grows).
Qed.

(** The audit trail is append-only: whatever requests to these routes the
    application serves, in whatever order and with whatever answers, the
    activity log afterwards is the log before followed by new entries. None
    of the routes removes or rewrites an entry. *)
Theorem activity_log_append_only (reqs : list request) (db : database) :
  exists l,
    activity_log
      (serve_all cfg bcrypt_compare stringify_project stringify_profile
                 reqs db)
    = (activity_log db ++ l)%list.
Proof.
  unfold serve_all.
  assert (Step : forall rs d,
             (exists l, activity_log d = (activity_log db ++ l)%list) ->
             exists l,
               activity_log
                 (fold_left
                    (fun d0 req =>
                       serve cfg bcrypt_compare stringify_project
                             stringify_profile req d0) rs d)
               = (activity_log db ++ l)%list).
  { induction rs as [|req rs IH]; intros d H; cbn [fold_left];
      [exact H|].
    apply IH. now apply serve_log_grows. }
  apply Step. exists []. symmetry. apply app_nil_r.
Qed.

End ApplicationFacts.

(** *** The admin floor, for every request *)

(** Unique ids and the presence of an active admin depend on the id, role
    and activity of the stored users only. *)
Lemma floor_of_core (db db' : database) :
  map (fun u => (u_id u, u_role u, u_is_active u)) (users db')
  = map (fun u => (u_id u, u_role u, u_is_active u)) (users db) ->
  users_pk db /\ has_active_admin db ->
  users_pk db' /\ has_active_admin db'.
Proof.
  intros Core [PK [v [I [R A]]]]. split.
  - unfold users_pk in *.
    replace (map u_id (users db'))
      with (map (fun c : Z * global_role * bool => fst (fst c))
                (map (fun u => (u_id u, u_role u, u_is_active u))
                     (users db')))
      by (rewrite map_map; reflexivity).
    rewrite Core, map_map. exact PK.
  - assert (J : In (u_id v, u_role v, u_is_active v)
                   (map (fun u => (u_id u, u_role u, u_is_active u))
                        (users db')))
      by (rewrite Core; apply in_map_iff; now exists v).
    apply in_map_iff in J. destruct J as [w [E J]].
    exists w. inversion E. split; [assumption|]. split; congruence.
Qed.

(** What a statement other than the two guarded UPDATEs does to the users:
    registration appends a user with a new id, the others keep id, role and
    activity of every user. *)
Ltac floor_kept :=
  let E := fresh "E" in
  let Pd := fresh "Pd" in
  intros E Pd; cbv beta in Pd |- *;
  first
    [ destruct (insert_user_fresh _ _ _ _ _ _ _ _ _ E)
        as [row [Grown [_ [_ [Fresh _]]]]];
      destruct Pd as [PK [v [I Admin]]]; split;
      [ unfold users_pk in *; rewrite Grown, map_app;
        now apply NoDup_snoc
      | exists v; rewrite Grown; split;
        [apply in_or_app; now left | exact Admin] ]
    | apply (floor_of_core _ _) with (2 := Pd);
      unfold insert_activity, insert_task, update_task, delete_task,
        insert_comment, insert_project, update_project, delete_project,
        insert_member, delete_member, update_user_password,
        update_user_profile in E;
      repeat match type of E with
             | (if ?c then _ else _) = Some _ => destruct c
             end;
      try discriminate E; inversion E; subst; cbn [users set_users];
      first [ reflexivity
            | rewrite map_map; apply map_ext; intros ?;
              match goal with
              | |- context [if ?c then _ else _] => destruct c
              end; reflexivity ] ].

Section AdminFloor.
Context {platform : Platform}.
Variable cfg : config.
Variable bcrypt_compare : string -> string -> bool.
Variable stringify_project : project_update_body -> string.
Variable stringify_profile : profile_body -> string.

Lemma updateRole_keeps_floor env hdr userId roleText db :
  users_pk db /\ has_active_admin db ->
  users_pk (snd (updateRole cfg env hdr userId roleText db))
  /\ has_active_admin (snd (updateRole cfg env hdr userId roleText db)).
Proof.
  intros Start. pose proof Start as [PK _].
  destruct (updateRole cfg env hdr userId roleText db) as [r db'] eqn:R.
  cbn [snd]. unfold updateRole, route in R.
  destruct (admin_chain_cases cfg (now env) hdr db)
    as [[u C]|[r0 [C _]]]; rewrite C in R;
    [|inversion R; subst; exact Start].
  destruct (admin_chain_row cfg _ _ _ _ _ C)
    as [_ [row [Stored [In_row [Id [Role Act]]]]]].
  unfold updateRole_handler, try_catch in R.
  destruct (global_role_of_string roleText) as [newRole|];
    [|inversion R; subst; exact Start].
  unfold bind, getOne, reject_if, runQuery, respond, ret in R.
  destruct (user_by_id userId db) as [target|] eqn:T;
    [|inversion R; subst; exact Start].
  set (f := fun x : user_row =>
              if (u_id x =? userId)%Z
              then {| u_id := u_id x; u_username := u_username x;
                      u_email := u_email x;
                      u_password_hash := u_password_hash x;
                      u_full_name := u_full_name x; u_role := newRole;
                      u_is_active := u_is_active x;
                      u_created_at := u_created_at x |}
              else x).
  assert (Out : db' = db
                \/ (users db' = map f (users db)
                    /\ (global_role_eqb (u_role target) admin
                        && negb (global_role_eqb newRole admin) = true ->
                        (active_admin_count db <=? 1)%nat = false))).
  { destruct (global_role_eqb (u_role target) admin
              && negb (global_role_eqb newRole admin));
      [destruct (active_admin_count db <=? 1)%nat;
       [inversion R; subst; now left|]|];
      cbn [update_user_role] in R; unfold insert_activity in R;
      (destruct (user_exists (id u) _);
       inversion R; subst; right;
       (split; [reflexivity | congruence])). }
  destruct Out as [-> | [Upd Guard]]; [exact Start|].
  assert (Kept : forall v, In v (users db) -> u_role v = admin ->
                           u_is_active v = true ->
                           ((u_id v =? userId)%Z = false \/ newRole = admin) ->
                           has_active_admin db').
  { intros v I Rv Av Why. exists (f v). rewrite Upd.
    split; [now apply in_map|].
    unfold f. destruct (u_id v =? userId)%Z; cbn; [|auto].
    destruct Why as [? | ->]; [discriminate | auto]. }
  split.
  - unfold users_pk in *. rewrite Upd, map_map.
    erewrite map_ext; [exact PK|].
    intros x. unfold f. now destruct (u_id x =? userId)%Z.
  - destruct (u_id row =? userId)%Z eqn:Hit;
      [|apply (Kept row); auto].
    destruct (global_role_eqb newRole admin) eqn:New;
      [apply global_role_eqb_eq in New; apply (Kept row); auto|].
    apply Z.eqb_eq in Hit.
    assert (target = row) by (rewrite <- Id, Hit, T in Stored; congruence).
    subst target. rewrite Role in Guard.
    specialize (Guard eq_refl). apply Nat.leb_gt in Guard.
    destruct (two_rows_other_key u_id active_admin userId (users db) PK Guard)
      as [v [I [Fv N]]].
    apply active_admin_true in Fv. destruct Fv as [Rv Av].
    apply (Kept v); auto. left. now apply Z.eqb_neq.
Qed.

Lemma toggleActive_keeps_floor env hdr userId db :
  users_pk db /\ has_active_admin db ->
  users_pk (snd (toggleActive cfg env hdr userId db))
  /\ has_active_admin (snd (toggleActive cfg env hdr userId db)).
Proof.
  intros Start. pose proof Start as [PK _].
  destruct (toggleActive cfg env hdr userId db) as [r db'] eqn:R.
  cbn [snd]. unfold toggleActive, route in R.
  destruct (admin_chain_cases cfg (now env) hdr db)
    as [[u C]|[r0 [C _]]]; rewrite C in R;
    [|inversion R; subst; exact Start].
  destruct (admin_chain_row cfg _ _ _ _ _ C)
    as [_ [row [Stored [In_row [Id [Role Act]]]]]].
  unfold toggleActive_handler, try_catch, bind, getOne, reject_if,
    runQuery, respond, ret in R.
  destruct (userId =? id u)%Z eqn:Self;
    [inversion R; subst; exact Start|].
  destruct (user_by_id userId db) as [target|] eqn:T;
    [|inversion R; subst; exact Start].
  set (g := fun x : user_row =>
              if (u_id x =? userId)%Z
              then {| u_id := u_id x; u_username := u_username x;
                      u_email := u_email x;
                      u_password_hash := u_password_hash x;
                      u_full_name := u_full_name x; u_role := u_role x;
                      u_is_active := negb (u_is_active target);
                      u_created_at := u_created_at x |}
              else x).
  assert (Out : db' = db \/ users db' = map g (users db)).
  { destruct (u_is_active target && global_role_eqb (u_role target) admin);
      [destruct (active_admin_count db <=? 1)%nat;
       [inversion R; subst; now left|]|];
      cbn [update_user_active] in R; unfold insert_activity in R;
      (destruct (user_exists (id u) _);
       inversion R; subst; right; reflexivity). }
  destruct Out as [-> | Upd]; [exact Start|].
  split.
  - unfold users_pk in *. rewrite Upd, map_map.
    erewrite map_ext; [exact PK|].
    intros x. unfold g. now destruct (u_id x =? userId)%Z.
  - exists row. rewrite Upd. split; [|auto].
    apply in_map_unchanged; [assumption|].
    rewrite Id. rewrite Z.eqb_sym. exact Self.
Qed.

Lemma serve_keeps_floor (req : request) (db : database) :
  users_pk db /\ has_active_admin db ->
  users_pk
    (serve cfg bcrypt_compare stringify_project stringify_profile req db)
  /\ has_active_admin
       (serve cfg bcrypt_compare stringify_project stringify_profile req db).
Proof.
  set (P := fun d : database => users_pk d /\ has_active_admin d).
  intros Start. change (P db) in Start.
  change (P (serve cfg bcrypt_compare stringify_project stringify_profile
                   req db)).
  destruct req; cbn [serve]; [| | | | | | | | | | | | | | | | | | |exact Start].
  - unfold register. apply keeps_try_catch; [|assumption].
    cbv zeta; repeat (keeps_step; cbv zeta); unfold P; floor_kept.
  - unfold login. apply keeps_try_catch_as; [|assumption].
    cbv zeta; repeat (keeps_step; cbv zeta); unfold P; floor_kept.
  - unfold changePassword, changePassword_handler.
    keeps_route_with ltac:(unfold P; floor_kept).
  - unfold logout, logout_handler.
    keeps_route_with ltac:(unfold P; floor_kept).
  - unfold updateUser, updateUser_handler.
    keeps_route_with ltac:(unfold P; floor_kept).
  - now apply updateRole_keeps_floor.
  - now apply toggleActive_keeps_floor.
  - unfold resetPassword, resetPassword_handler.
    keeps_route_with ltac:(unfold P; floor_kept).
  - unfold createProject, createProject_handler.
    keeps_route_with ltac:(unfold P; floor_kept).
  - unfold updateProject, updateProject_handler.
    keeps_route_with ltac:(unfold P; floor_kept).
  - unfold deleteProject, deleteProject_handler.
    keeps_route_with ltac:(unfold P; floor_kept).
  - unfold addMember, addMember_handler.
    keeps_route_with ltac:(unfold P; floor_kept).
  - unfold removeMember, removeMember_handler.
    keeps_route_with ltac:(unfold P; floor_kept).
  - unfold listTasks, listTasks_handler.
    keeps_route_with ltac:(unfold P; floor_kept).
  - unfold getTask, getTask_handler.
    keeps_route_with ltac:(unfold P; floor_kept).
  - unfold createTask, createTask_handler.
    keeps_route_with ltac:(unfold P; floor_kept).
  - unfold updateTask, updateTask_handler.
    keeps_route_with ltac:(unfold P; floor_kept).
  - unfold deleteTask, deleteTask_handler.
    keeps_route_with ltac:(unfold P; floor_kept).
  - unfold addComment, addComment_handler.
    keeps_route_with ltac:(unfold P; floor_kept).
Qed.

(** These routes never take the last active admin away. Starting from a
    user store with unique ids and an active admin, any sequence of requests
    to them, by any callers and with any answers, leaves unique ids and an
    active admin: registration, profile edits and password changes keep the
    role and activity of every stored user, the two admin routes leave an
    active admin, and the other routes write no user. *)
Theorem active_admin_survives (reqs : list request) (db : database) :
  users_pk db -> has_active_admin db ->
  users_pk
    (serve_all cfg bcrypt_compare stringify_project stringify_profile reqs db)
  /\ has_active_admin
       (serve_all cfg bcrypt_compare stringify_project stringify_profile
                  reqs db).
Proof.
  intros PK HA. unfold serve_all.
  assert (Start : users_pk db /\ has_active_admin db) by now split.
  clear PK HA. revert db Start.
  induction reqs as [|req reqs IH]; intros db Start; cbn [fold_left];
    [exact Start|].
  apply IH. now apply serve_keeps_floor.
Qed.

End AdminFloor.

(** alice, the only admin, promotes bob, gives up her own role and is then
    deactivated by bob, while dave registers: bob remains. *)
Lemma active_admin_survives_witness :
  has_active_admin
    (serve_all default_config sample_compare (fun _ => "{}") (fun _ => "{}")
       [PUT_users_role sample_env (bearer_of alice) 2 "admin";
        PUT_users_role sample_env (bearer_of alice) 1 "member";
        POST_auth_register sample_env dave_body;
        PUT_users_toggle_active sample_env (bearer_of bob) 1;
        PUT_users_toggle_active sample_env (bearer_of bob) 2]
       sample_db).
Proof.
  apply (active_admin_survives default_config sample_compare
           (fun _ => "{}") (fun _ => "{}") _ sample_db sample_users_pk).
  exists alice. split; [now left|]. split; reflexivity.
Defined.
